(** * CodeSpace backend: submission lifecycle and authorization

    A shallow embedding of the Express/Mongoose backend of the CodeSpace
    MERN application:

    - [models/Code.js]   : the submission schema with [addAnalysis] and
                           [addFeedback];
    - [routes/admin.js]  : the teacher-only routes (student listing,
                           feedback, user creation, user deletion);
    - [routes/code.js]   : the owner routes (read, update, delete, analyze).

    A MongoDB collection is a list of documents in natural order; a request
    handler is a function from the database and the request to a response
    and the database after the request.  Timestamps ([new Date()]) and fresh
    ObjectIds are passed in by the caller.  A handler receives the actor that
    [protect] has resolved from the bearer token.  The documents of a
    response body are shown as stored: [populate] is followed only where a
    handler reads the populated field. *)

From Stdlib Require Import ZArith NArith List String Ascii Bool Lia.
From Stdlib Require Import Sorted Permutation.
Import ListNotations.

Local Open Scope Z_scope.
Local Open Scope string_scope.

(** ** JavaScript helpers *)

Module JS.

(** A JavaScript string is a sequence of UTF-16 code units.  A [string] of
    this development is a sequence of code units below 256, one [ascii]
    each: the character of code [n] is the code unit U+00[n], so that the
    no-break space U+00A0 is the character 160.  On these strings the length,
    the equality and the white space below are those of JavaScript. *)

(** White space removed by [String.prototype.trim], by the schema option
    [trim: true] and by validator.js [trim()] (the class [\s]): below 256
    these are TAB, LF, VT, FF, CR, SPACE and the no-break space U+00A0. *)
Definition is_space (c : ascii) : bool :=
  let n := nat_of_ascii c in
  (Nat.eqb n 9 || Nat.eqb n 10 || Nat.eqb n 11 || Nat.eqb n 12
   || Nat.eqb n 13 || Nat.eqb n 32 || Nat.eqb n 160)%bool.

Fixpoint trimStart (s : string) : string :=
  match s with
  | EmptyString => EmptyString
  | String c s' => if is_space c then trimStart s' else s
  end.

Fixpoint trimEnd (s : string) : string :=
  match s with
  | EmptyString => EmptyString
  | String c s' =>
      match trimEnd s' with
      | EmptyString => if is_space c then EmptyString else String c EmptyString
      | t => String c t
      end
  end.

Definition trim (s : string) : string := trimEnd (trimStart s).

(** A string that does not begin with white space. *)
Definition no_leading_space (s : string) : Prop :=
  match s with
  | EmptyString => True
  | String c _ => is_space c = false
  end.

(** Truthiness of a string: every string but the empty one. *)
Definition truthy_string (s : string) : bool := negb (s =? "").

(** Truthiness of a number: every number but zero. *)
Definition truthy_number (z : Z) : bool := negb (z =? 0)%Z.

(** The values a field of a JSON body brings to a handler, as far as this
    development follows them: an absent field, [null], an integer number and
    a string. *)
Inductive value :=
| Undefined
| Null
| Num (z : Z)
| Str (s : string).

(** Truthiness of a value: [undefined], [null], the number 0 and the empty
    string are falsy. *)
Definition truthy (v : value) : bool :=
  match v with
  | Undefined | Null => false
  | Num z => truthy_number z
  | Str s => truthy_string s
  end.

(** The value of a decimal digit. *)
Definition digit (c : ascii) : option Z :=
  let n := nat_of_ascii c in
  if (Nat.leb 48 n && Nat.leb n 57)%bool
  then Some (Z.of_nat (n - 48))
  else None.

Fixpoint digits (acc : Z) (s : string) : option Z :=
  match s with
  | EmptyString => Some acc
  | String c s' =>
      match digit c with
      | Some d => digits (10 * acc + d)%Z s'
      | None => None
      end
  end.

(** The number a string that matches [^[-+]?[0-9]+$] stands for, and [None]
    for a string that does not match. *)
Definition decimal (s : string) : option Z :=
  let unsigned (t : string) : option Z :=
    match t with
    | EmptyString => None
    | String _ _ => digits 0%Z t
    end in
  match s with
  | EmptyString => None
  | String c s' =>
      if Ascii.eqb c "+"%char then unsigned s'
      else if Ascii.eqb c "-"%char then option_map Z.opp (unsigned s')
      else unsigned s
  end.

(** [a || b] where [a] is a string or [undefined]. *)
Definition or_string (a b : option string) : option string :=
  match a with
  | Some s => if truthy_string s then Some s else b
  | None => b
  end.

(** [a || b] where [a] is an array or [undefined]: an array is truthy
    whatever its length. *)
Definition or_array {A} (a : option (list A)) (b : list A) : list A :=
  match a with
  | Some l => l
  | None => b
  end.

(** [Math.ceil(a / b)] on integers, for [b <> 0]. *)
Definition ceil_div (a b : Z) : Z := (- ((- a) / b))%Z.

(** JavaScript [s.length] of a string (code units). *)
Definition strlen (s : string) : Z := Z.of_nat (String.length s).

End JS.

(** ** models/User.js *)

Module User.

Inductive Role := student | teacher.

Definition Role_eqb (a b : Role) : bool :=
  match a, b with
  | student, student | teacher, teacher => true
  | _, _ => false
  end.

(** Modelled from the spec: [models/User.js] is not part of the sources
    at hand; the record has the fields the routes read and the spec lists
    (id, username, email, password hash, role, lastActive). *)
Record doc := {
  _id : N;
  username : string;
  email : string;
  password : string;
  role : Role;
  lastActive : Z
}.

(** [User.findOne(query)]: the first document of the collection that
    satisfies the query. *)
Definition findOne (q : doc -> bool) (coll : list doc) : option doc :=
  find q coll.

(** [User.findById(id)]. *)
Definition findById (id : N) (coll : list doc) : option doc :=
  findOne (fun u => N.eqb (_id u) id) coll.

(** [User.countDocuments(query)]. *)
Definition countDocuments (q : doc -> bool) (coll : list doc) : Z :=
  Z.of_nat (List.length (filter q coll)).

(** [.select('-password')]: the password is left out of the result; the
    empty string stands for the absent field. *)
Definition selectMinusPassword (u : doc) : doc :=
  {| _id := _id u; username := username u; email := email u;
     password := ""; role := role u; lastActive := lastActive u |}.

(** [user.deleteOne()]: removes the document with that id. *)
Definition deleteOne (u : doc) (coll : list doc) : list doc :=
  filter (fun v => negb (N.eqb (_id v) (_id u))) coll.

End User.

(** ** models/Code.js *)

Module Code.

Inductive Status := submitted | analyzed | reviewed | graded.

Definition Status_eqb (a b : Status) : bool :=
  match a, b with
  | submitted, submitted | analyzed, analyzed
  | reviewed, reviewed | graded, graded => true
  | _, _ => false
  end.

Record Analysis := {
  result : string;
  analyzedAt : Z
}.

Record Feedback := {
  teacher : N;
  comment : string;
  grade : option Z;
  feedbackAt : Z
}.

Record doc := {
  _id : N;
  user : N;
  title : string;
  description : option string;
  language : string;
  code : string;
  analysis : option Analysis;
  feedback : option Feedback;
  status : Status;
  tags : list string;
  createdAt : Z;
  updatedAt : Z
}.

(** The [enum] of the [language] path. *)
Definition languages : list string :=
  ["javascript"; "python"; "java"; "cpp"; "c"].

Definition isLanguage (l : string) : bool :=
  existsb (String.eqb l) languages.

(** Schema validators of the content paths: [title] is required and at
    most 100 long, [description] at most 500 long, [language] is required
    and in the enum, [code] is required. *)
Definition validContent (d : doc) : bool :=
  (JS.truthy_string (title d)
   && (JS.strlen (title d) <=? 100)%Z
   && match description d with
      | Some s => (JS.strlen s <=? 500)%Z
      | None => true
      end
   && isLanguage (language d)
   && JS.truthy_string (code d))%bool.

(** Schema validators of the feedback paths: [feedback.grade], when it is
    a number, lies between [min: 0] and [max: 100]. *)
Definition validFeedback (d : doc) : bool :=
  match feedback d with
  | Some f =>
      match grade f with
      | Some g => ((0 <=? g)%Z && (g <=? 100)%Z)%bool
      | None => true
      end
  | None => true
  end.

(** [Code.findById(id)]. *)
Definition findById (id : N) (coll : list doc) : option doc :=
  find (fun c => N.eqb (_id c) id) coll.

(** [Code.countDocuments(query)]. *)
Definition countDocuments (q : doc -> bool) (coll : list doc) : Z :=
  Z.of_nat (List.length (filter q coll)).

(** [Code.deleteMany(query)]. *)
Definition deleteMany (q : doc -> bool) (coll : list doc) : list doc :=
  filter (fun c => negb (q c)) coll.

(** [code.deleteOne()]. *)
Definition deleteOne (d : doc) (coll : list doc) : list doc :=
  filter (fun c => negb (N.eqb (_id c) (_id d))) coll.

(** Writing a document back: [timestamps: true] stamps [updatedAt], and the
    stored document with the same id is replaced. *)
Definition touch (now : Z) (d : doc) : doc :=
  {| _id := _id d; user := user d; title := title d;
     description := description d; language := language d;
     code := code d; analysis := analysis d; feedback := feedback d;
     status := status d; tags := tags d;
     createdAt := createdAt d; updatedAt := now |}.

Definition replace (d : doc) (coll : list doc) : list doc :=
  map (fun c => if N.eqb (_id c) (_id d) then d else c) coll.

(** [this.save()]: Mongoose runs the validators of the modified paths
    ([valid]) first; a failed validation throws ([None]) and writes
    nothing.  On success the document as saved and the collection after
    the write are returned. *)
Definition save (now : Z) (valid : doc -> bool) (this : doc) (coll : list doc)
    : option (doc * list doc) :=
  if valid this
  then Some (touch now this, replace (touch now this) coll)
  else None.

(** [codeSchema.methods.addAnalysis]. *)
Definition addAnalysis (analysisResult : string) (now : Z)
    (this : doc) (coll : list doc) : option (doc * list doc) :=
  let this :=
    {| _id := _id this; user := user this; title := title this;
       description := description this; language := language this;
       code := code this;
       analysis := Some {| result := analysisResult; analyzedAt := now |};
       feedback := feedback this;
       status := analyzed;
       tags := tags this;
       createdAt := createdAt this; updatedAt := updatedAt this |} in
  save now (fun _ => true) this coll.

(** Mongoose's cast of a value assigned to a [Number] path: [null] and the
    empty string are stored as [null], a number as it is, a string as the
    number it reads as; [None] is a cast error.  The strings followed here
    are the optionally signed runs of digits, the only ones the validation
    chain of the feedback route lets through; every other non-empty string
    counts as a cast error. *)
Definition castNumber (v : JS.value) : option (option Z) :=
  match v with
  | JS.Undefined | JS.Null => Some None
  | JS.Num z => Some (Some z)
  | JS.Str s =>
      if s =? "" then Some None
      else match JS.decimal s with
           | Some z => Some (Some z)
           | None => None
           end
  end.

(** [codeSchema.methods.addFeedback].  An absent [grade] takes the parameter
    default [null].  The status is decided on the value as it was passed,
    the grade is stored as the schema casts it; a value that cannot be cast
    makes the save throw ([None]). *)
Definition addFeedback (teacherId : N) (comment_ : string) (grade_ : JS.value)
    (now : Z) (this : doc) (coll : list doc) : option (doc * list doc) :=
  let grade_ :=
    match grade_ with
    | JS.Undefined => JS.Null
    | _ => grade_
    end in
  match castNumber grade_ with
  | None => None
  | Some stored =>
      let this :=
        {| _id := _id this; user := user this; title := title this;
           description := description this; language := language this;
           code := code this;
           analysis := analysis this;
           feedback := Some {| teacher := teacherId; comment := comment_;
                               grade := stored; feedbackAt := now |};
           status := if JS.truthy grade_ then graded else reviewed;
           tags := tags this;
           createdAt := createdAt this; updatedAt := updatedAt this |} in
      save now validFeedback this coll
  end.

End Code.

(** ** The database: the two collections *)

Record Db := {
  users : list User.doc;
  codes : list Code.doc
}.

(** Every stored submission has its owner among the stored users. *)
Definition ownersStored (db : Db) : Prop :=
  forall c, In c (codes db) ->
            exists u, User.findById (Code.user c) (users db) = Some u.

(** ** HTTP responses *)

(** One entry of express-validator's [errors.array()]. *)
Record FieldError := {
  path : string;
  msg : string
}.

(** A student of the listing, with the two statistics the route adds. *)
Record StudentWithStats := {
  student : User.doc;
  submissionCount : Z;
  lastSubmission : option Z
}.

(** The JSON bodies the routes send. *)
Inductive Body :=
| Errors (errors : list FieldError)
| ErrorMsg (error : string)
| SuccessCode (code : Code.doc)
| SuccessMessage (message : string)
| SuccessAnalysis (analysis : string)
| SuccessUser (id : N) (username email : string) (role : User.Role)
| SuccessStudents (students : list StudentWithStats)
    (totalPages : option Z) (currentPage total : Z).

Record Response := {
  statusCode : Z;
  json : Body
}.

(** [res.status(n).json(b)], and [res.json(b)] with the default status. *)
Definition res_status (n : Z) (b : Body) : Response :=
  {| statusCode := n; json := b |}.

Definition res_json (b : Body) : Response := res_status 200 b.

(** ** middleware/auth.js *)

Module Auth.

(** Modelled from the spec: [middleware/auth.js] is not part of the
    sources at hand.  [authorize(...roles)] lets the request through only
    if the role of the authenticated actor is one of [roles]; otherwise the
    request is denied as not authorized (403). *)
Definition authorize (roles : list User.Role) (actor : User.doc) : bool :=
  existsb (User.Role_eqb (User.role actor)) roles.

Definition denied : Response := res_status 403 (ErrorMsg "not authorized").

End Auth.

(** ** Mongoose query cursors *)

Module Query.

(** [.skip(n)]: the server refuses a negative skip ([None], the query
    throws). *)
Definition skip {A} (n : Z) (l : list A) : option (list A) :=
  if (n <? 0)%Z then None else Some (skipn (Z.to_nat n) l).

(** [.limit(n)]: zero means no limit, a negative limit counts as its
    absolute value. *)
Definition limit {A} (n : Z) (l : list A) : list A :=
  if (n =? 0)%Z then l else firstn (Z.to_nat (Z.abs n)) l.

(** [.sort({ key: -1 })]: descending order for the comparison [cmp] of the
    key, by insertion. *)
Fixpoint insertDesc {A} (cmp : A -> A -> comparison) (x : A) (l : list A)
    : list A :=
  match l with
  | [] => [x]
  | y :: l' =>
      match cmp x y with
      | Lt => y :: insertDesc cmp x l'
      | _ => x :: l
      end
  end.

Definition sortDesc {A} (cmp : A -> A -> comparison) (l : list A) : list A :=
  fold_right (insertDesc cmp) [] l.

End Query.

(** ** routes/admin.js *)

Module AdminRoutes.

Section Routes.

(** Library functions the routes call: the case-insensitive regular
    expression of MongoDB ([$regex] with [$options: 'i']), which gives the
    match of a pattern, or [None] for a pattern the server refuses (the
    query then throws); the order of the server on a sort key that is not a
    field of the user record of this development, [None] for a key the
    server refuses; validator.js [isEmail] and [normalizeEmail]; and the
    password hash of the user model. *)
Variable regex_i : string -> option (string -> bool).
Variable sortOther : string -> option (User.doc -> User.doc -> comparison).
Variable isEmail : string -> bool.
Variable normalizeEmail : string -> string.
Variable hashPassword : string -> string.

(** [router.use(protect, authorize('teacher'))]: every route below runs
    behind this gate. *)
Definition gate (actor : User.doc) (db : Db) (k : Response * Db)
    : Response * Db :=
  if Auth.authorize [User.teacher] actor then k else (Auth.denied, db).

(** *** GET /students *)

(** [req.query]: [page] and [limit] are numeric strings, read as the
    numbers the arithmetic of the handler coerces them to; each parameter
    may be absent. *)
Record StudentsQuery := {
  page : option Z;
  limit : option Z;
  search : option string;
  sortBy : option string
}.

(** The string stored for a role. *)
Definition roleName (r : User.Role) : string :=
  match r with
  | User.student => "student"
  | User.teacher => "teacher"
  end.

(** The order of two users on the sort key of [.sort({ [sortBy]: -1 })], as
    stored (the sort comes before the projection); [None] when the server
    refuses the key and the query throws. *)
Definition compareBy (key : string)
    : option (User.doc -> User.doc -> comparison) :=
  if key =? "lastActive" then
    Some (fun a b => Z.compare (User.lastActive a) (User.lastActive b))
  else if key =? "username" then
    Some (fun a b => String.compare (User.username a) (User.username b))
  else if key =? "email" then
    Some (fun a b => String.compare (User.email a) (User.email b))
  else if key =? "password" then
    Some (fun a b => String.compare (User.password a) (User.password b))
  else if key =? "role" then
    Some (fun a b =>
            String.compare (roleName (User.role a)) (roleName (User.role b)))
  else if key =? "_id" then
    Some (fun a b => N.compare (User._id a) (User._id b))
  else sortOther key.

(** The condition [$or: [{ username: { $regex } }, { email: { $regex } }]]
    that a truthy [search] adds to the query; [None] when the server refuses
    the pattern. *)
Definition searchFilter (search : option string)
    : option (User.doc -> bool) :=
  match search with
  | Some s =>
      if JS.truthy_string s
      then match regex_i s with
           | Some matches =>
               Some (fun u => matches (User.username u)
                              || matches (User.email u))%bool
           | None => None
           end
      else Some (fun _ => true)
  | None => Some (fun _ => true)
  end.

(** The Mongo query [{ role: 'student', $or: [...] }]. *)
Definition studentsQuery (matches : User.doc -> bool) (u : User.doc) : bool :=
  (User.Role_eqb (User.role u) User.student && matches u)%bool.

(** [Code.findOne({ user }).sort({ createdAt: -1 }).select('createdAt')]
    followed by [lastSubmission?.createdAt]. *)
Definition lastSubmissionOf (id : N) (coll : list Code.doc) : option Z :=
  match
    Query.sortDesc
      (fun a b => Z.compare (Code.createdAt a) (Code.createdAt b))
      (filter (fun c => N.eqb (Code.user c) id) coll)
  with
  | c :: _ => Some (Code.createdAt c)
  | [] => None
  end.

Definition withStats (db : Db) (s : User.doc) : StudentWithStats :=
  {| student := s;
     submissionCount :=
       Code.countDocuments (fun c => N.eqb (Code.user c) (User._id s))
         (codes db);
     lastSubmission := lastSubmissionOf (User._id s) (codes db) |}.

Definition get_students (db : Db) (actor : User.doc) (q : StudentsQuery)
    : Response * Db :=
  gate actor db
    (let page := match page q with Some p => p | None => 1%Z end in
     let limit := match limit q with Some l => l | None => 10%Z end in
     let sortBy :=
       match sortBy q with Some k => k | None => "lastActive" end in
     match searchFilter (search q), compareBy sortBy with
     | Some matches, Some order =>
         let query := studentsQuery matches in
         match
           Query.skip ((page - 1) * limit)
             (Query.sortDesc order (filter query (users db)))
         with
         | None => (res_status 500 (ErrorMsg "Server error"), db)
         | Some skipped =>
             let students :=
               map User.selectMinusPassword
                 (Query.limit (limit * 1) skipped) in
             let total := User.countDocuments query (users db) in
             let studentsWithStats := map (withStats db) students in
             (res_json
                (SuccessStudents studentsWithStats
                   (if (limit =? 0)%Z then None
                    else Some (JS.ceil_div total limit))
                   page total),
              db)
         end
     | _, _ => (res_status 500 (ErrorMsg "Server error"), db)
     end).

(** *** POST /codes/:codeId/feedback *)

(** The request body: [comment] (an absent comment reads as the empty
    string) and [grade]: absent, [null], an integer number or a string. *)
Record FeedbackBody := {
  comment : string;
  grade : JS.value
}.

(** [isInt({ min, max })] of validator.js, which sees the value turned into
    a string: it holds of an optionally signed run of digits, leading zeros
    allowed, that reads as a number from [min] to [max].  An integer number
    turns into its digits; [null] turns into the empty string. *)
Definition isInt (min max : Z) (v : JS.value) : bool :=
  match v with
  | JS.Num z => ((min <=? z)%Z && (z <=? max)%Z)%bool
  | JS.Str s =>
      match JS.decimal s with
      | Some z => ((min <=? z)%Z && (z <=? max)%Z)%bool
      | None => false
      end
  | JS.Undefined | JS.Null => false
  end.

(** The two validation chains, with the [trim()] sanitizer applied;
    [optional()] passes over an absent grade only. *)
Definition feedbackErrors (b : FeedbackBody) : list FieldError :=
  ((if JS.truthy_string (JS.trim (comment b)) then []
    else [{| path := "comment"; msg := "Feedback comment is required" |}])
   ++
   match grade b with
   | JS.Undefined => []
   | g =>
       if isInt 0 100 g then []
       else [{| path := "grade";
                msg := "Grade must be between 0 and 100" |}]
   end)%list.

Definition post_codes_feedback (db : Db) (actor : User.doc) (codeId : N)
    (b : FeedbackBody) (now : Z) : Response * Db :=
  gate actor db
    (match feedbackErrors b with
     | (_ :: _) as errors => (res_status 400 (Errors errors), db)
     | [] =>
         let comment := JS.trim (comment b) in
         let grade := grade b in
         match Code.findById codeId (codes db) with
         | None => (res_status 404 (ErrorMsg "Code not found"), db)
         | Some code =>
             match
               Code.addFeedback (User._id actor) comment grade now code
                 (codes db)
             with
             | Some (code, codes') =>
                 (res_json (SuccessCode code),
                  {| users := users db; codes := codes' |})
             | None => (res_status 500 (ErrorMsg "Server error"), db)
             end
         end
     end).

(** *** POST /users *)

Record UserBody := {
  username : string;
  email : string;
  password : string
}.

Definition userErrors (b : UserBody) : list FieldError :=
  ((if (3 <=? JS.strlen (JS.trim (username b)))%Z then []
    else [{| path := "username";
             msg := "Username must be at least 3 characters" |}])
   ++
   (if isEmail (email b) then []
    else [{| path := "email"; msg := "Valid email is required" |}])
   ++
   (if (6 <=? JS.strlen (password b))%Z then []
    else [{| path := "password";
             msg := "Password must be at least 6 characters" |}]))%list.

Definition post_users (db : Db) (actor : User.doc) (b : UserBody)
    (newId : N) (now : Z) : Response * Db :=
  gate actor db
    (match userErrors b with
     | (_ :: _) as errors => (res_status 400 (Errors errors), db)
     | [] =>
         let username := JS.trim (username b) in
         let email := normalizeEmail (email b) in
         let password := password b in
         (* Check if user exists *)
         match
           User.findOne
             (fun u => (User.email u =? email)
                       || (User.username u =? username))%bool
             (users db)
         with
         | Some existingUser =>
             (res_status 400
                (ErrorMsg
                   (if User.email existingUser =? email
                    then "Email already exists"
                    else "Username already taken")),
              db)
         | None =>
             let user :=
               {| User._id := newId;
                  User.username := username;
                  User.email := email;
                  User.password := hashPassword password;
                  User.role := User.student;
                  User.lastActive := now |} in
             (res_status 201
                (SuccessUser (User._id user) (User.username user)
                   (User.email user) (User.role user)),
              {| users := (users db ++ [user])%list; codes := codes db |})
         end
     end).

(** *** DELETE /users/:userId *)

Definition delete_users (db : Db) (actor : User.doc) (userId : N)
    : Response * Db :=
  gate actor db
    (match User.findById userId (users db) with
     | None => (res_status 404 (ErrorMsg "User not found"), db)
     | Some user =>
         match User.role user with
         | User.teacher =>
             (res_status 403 (ErrorMsg "Cannot delete teacher accounts"),
              db)
         | User.student =>
             (* Delete user's codes *)
             let codes' :=
               Code.deleteMany
                 (fun c => N.eqb (Code.user c) (User._id user))
                 (codes db) in
             (* Delete user *)
             let users' := User.deleteOne user (users db) in
             (res_json
                (SuccessMessage
                   "User and associated data deleted successfully"),
              {| users := users'; codes := codes' |})
         end
     end).

End Routes.

End AdminRoutes.

(** ** routes/auth.js *)

Module AuthRoutes.

(** The fields of a registration, taken after validation; [role] may be
    absent. *)
Record RegisterBody := {
  username : string;
  email : string;
  password : string;
  role : option User.Role
}.

(** Modelled from the spec: [routes/auth.js] is not part of the sources at
    hand.  [register(username, email, password, role?) -> User | Conflict]:
    username and email are each globally unique; a violation yields a
    distinguishable conflict reason, "username taken" or "email exists", the
    username being checked first; the role is student unless the caller asks
    for teacher.  The two messages and the statuses 400 and 201 are those the
    tests of the repository expect. *)
Definition register (hashPassword : string -> string) (db : Db)
    (b : RegisterBody) (newId : N) (now : Z) : Response * Db :=
  if existsb (fun u => User.username u =? username b) (users db) then
    (res_status 400 (ErrorMsg "Username already taken"), db)
  else if existsb (fun u => User.email u =? email b) (users db) then
    (res_status 400 (ErrorMsg "Email already exists"), db)
  else
    let user :=
      {| User._id := newId;
         User.username := username b;
         User.email := email b;
         User.password := hashPassword (password b);
         User.role := match role b with
                      | Some r => r
                      | None => User.student
                      end;
         User.lastActive := now |} in
    (res_status 201
       (SuccessUser (User._id user) (User.username user) (User.email user)
          (User.role user)),
     {| users := (users db ++ [user])%list; codes := codes db |}).

End AuthRoutes.

(** ** routes/code.js *)

Module CodeRoutes.

(** The request body of [POST /] and [PUT /:id].  An absent [title],
    [language] or [code] reads as the empty string in the validation
    chains; [description] and [tags] may be absent. *)
Record CodeBody := {
  title : string;
  description : option string;
  language : string;
  codeContent : string;
  tags : option (list string)
}.

(** [validateCode], with the [trim()] sanitizer of the title applied. *)
Definition validateCode (b : CodeBody) : list FieldError :=
  ((if JS.truthy_string (JS.trim (title b)) then []
    else [{| path := "title"; msg := "Title is required" |}])
   ++
   (if JS.truthy_string (codeContent b) then []
    else [{| path := "code"; msg := "Code is required" |}])
   ++
   (if Code.isLanguage (language b) then []
    else [{| path := "language"; msg := "Invalid language" |}]))%list.

(** *** GET /:id *)

(** [.populate('user', 'username email')] replaces [code.user] by the
    owner's document, or by [null] when no such user is stored; reading
    [code.user._id] of [null] throws, and the handler answers 500. *)
Definition get_id (db : Db) (actor : User.doc) (id : N) : Response * Db :=
  match Code.findById id (codes db) with
  | None => (res_status 404 (ErrorMsg "Code not found"), db)
  | Some code =>
      match User.findById (Code.user code) (users db) with
      | None => (res_status 500 (ErrorMsg "Server error"), db)
      | Some code_user =>
          (* Check if user owns the code or is a teacher *)
          if (negb (N.eqb (User._id code_user) (User._id actor))
              && negb (User.Role_eqb (User.role actor) User.teacher))%bool
          then (res_status 403 (ErrorMsg "Not authorized"), db)
          else (res_json (SuccessCode code), db)
      end
  end.

(** *** PUT /:id *)

Definition put_id (db : Db) (actor : User.doc) (id : N) (b : CodeBody)
    (now : Z) : Response * Db :=
  match validateCode b with
  | (_ :: _) as errors => (res_status 400 (Errors errors), db)
  | [] =>
      match Code.findById id (codes db) with
      | None => (res_status 404 (ErrorMsg "Code not found"), db)
      | Some code =>
          (* Check ownership *)
          if negb (N.eqb (Code.user code) (User._id actor))
          then (res_status 403 (ErrorMsg "Not authorized"), db)
          else
            let title := JS.trim (title b) in
            (* Update fields; the schema setters trim the title and
               each tag *)
            let code :=
              {| Code._id := Code._id code;
                 Code.user := Code.user code;
                 Code.title := JS.trim title;
                 Code.description :=
                   JS.or_string (description b) (Code.description code);
                 Code.language := language b;
                 Code.code := codeContent b;
                 Code.tags :=
                   JS.or_array (option_map (map JS.trim) (tags b))
                     (Code.tags code);
                 Code.status := Code.submitted; (* Reset status on edit *)
                 Code.analysis := None; (* Clear previous analysis *)
                 Code.feedback := Code.feedback code;
                 Code.createdAt := Code.createdAt code;
                 Code.updatedAt := Code.updatedAt code |} in
            match Code.save now Code.validContent code (codes db) with
            | Some (code, codes') =>
                (res_json (SuccessCode code),
                 {| users := users db; codes := codes' |})
            | None => (res_status 500 (ErrorMsg "Server error"), db)
            end
      end
  end.

(** *** DELETE /:id *)

Definition delete_id (db : Db) (actor : User.doc) (id : N) : Response * Db :=
  match Code.findById id (codes db) with
  | None => (res_status 404 (ErrorMsg "Code not found"), db)
  | Some code =>
      (* Check ownership *)
      if (negb (N.eqb (Code.user code) (User._id actor))
          && negb (User.Role_eqb (User.role actor) User.teacher))%bool
      then (res_status 403 (ErrorMsg "Not authorized"), db)
      else
        (res_json (SuccessMessage "Code deleted successfully"),
         {| users := users db; codes := Code.deleteOne code (codes db) |})
  end.

(** *** POST /:id/analyze *)

(** How the [axios.post] to the Ollama service settles: it resolves with
    [response.data.response], or rejects with an error whose [code] may be
    set ([ECONNREFUSED], [ECONNABORTED], ...). *)
Inductive AxiosResult :=
| Resolved (response : string)
| Rejected (code : option string).

Definition nl : string := String (ascii_of_nat 10) EmptyString.

Definition languagePrompts (language : string) : option string :=
  if language =? "javascript" then
    Some "Analyze this JavaScript code for best practices, potential bugs, and performance issues:"
  else if language =? "python" then
    Some "Analyze this Python code for PEP 8 compliance, potential bugs, and Pythonic practices:"
  else if language =? "java" then
    Some "Analyze this Java code for best practices, potential bugs, and design patterns:"
  else if language =? "cpp" then
    Some "Analyze this C++ code for best practices, memory management, and potential issues:"
  else if language =? "c" then
    Some "Analyze this C code for best practices, memory management, and potential issues:"
  else None.

Definition prompt (code : Code.doc) : string :=
  match languagePrompts (Code.language code) with
  | Some p => p
  | None => "Analyze this code:"
  end
  ++ nl ++ "    " ++ nl
  ++ Code.code code ++ nl ++ nl
  ++ "Please provide:" ++ nl
  ++ "1. Code quality assessment" ++ nl
  ++ "2. Potential bugs or issues" ++ nl
  ++ "3. Performance considerations" ++ nl
  ++ "4. Best practice recommendations" ++ nl
  ++ "5. Security considerations (if applicable)".

(** The handler; [ollama] is the external service, asked with the
    prompt. *)
Definition post_id_analyze (ollama : string -> AxiosResult) (db : Db)
    (actor : User.doc) (id : N) (now : Z) : Response * Db :=
  match Code.findById id (codes db) with
  | None => (res_status 404 (ErrorMsg "Code not found"), db)
  | Some code =>
      (* Check ownership *)
      if negb (N.eqb (Code.user code) (User._id actor))
      then (res_status 403 (ErrorMsg "Not authorized"), db)
      else
        (* Call Ollama API *)
        match ollama (prompt code) with
        | Resolved analysis =>
            (* Save analysis *)
            match Code.addAnalysis analysis now code (codes db) with
            | Some (_, codes') =>
                (res_json (SuccessAnalysis analysis),
                 {| users := users db; codes := codes' |})
            | None =>
                (res_status 500 (ErrorMsg "Failed to analyze code"), db)
            end
        | Rejected error_code =>
            match error_code with
            | Some c =>
                if c =? "ECONNREFUSED" then
                  (res_status 503
                     (ErrorMsg
                        "AI service is not available. Please ensure Ollama is running."),
                   db)
                else (res_status 500 (ErrorMsg "Failed to analyze code"), db)
            | None =>
                (res_status 500 (ErrorMsg "Failed to analyze code"), db)
            end
        end
  end.

End CodeRoutes.

(** ** Listings and reports: response bodies *)

(** A response of a listing or report route: [res.json({ success: true,
    ... })] with the body [A], or [res.status(n).json({ error })]. *)
Inductive Reply (A : Type) :=
| ReplyOk (body : A)
| ReplyError (status : Z) (error : string).

Arguments ReplyOk {A} body.
Arguments ReplyError {A} status error.

(** The body of a paginated listing of submissions. *)
Module Paged.

Record codes := {
  items : list Code.doc;
  totalPages : option Z;
  currentPage : Z;
  total : Z
}.

End Paged.

(** The string stored for a status. *)
Definition statusName (s : Code.Status) : string :=
  match s with
  | Code.submitted => "submitted"
  | Code.analyzed => "analyzed"
  | Code.reviewed => "reviewed"
  | Code.graded => "graded"
  end.

(** A filter of a listing: [if (value) query.field = value], for a field
    whose stored string is [field]. *)
Definition filterBy (value : option string) (field : string) : bool :=
  match value with
  | Some v => if JS.truthy_string v then field =? v else true
  | None => true
  end.

(** [.sort({ createdAt: -1 })] on submissions. *)
Definition byCreatedAt (a b : Code.doc) : comparison :=
  Z.compare (Code.createdAt a) (Code.createdAt b).

(** ** routes/code.js: the collection routes *)

Module CodeCollection.

(** *** POST / *)

(** [Code.create(...)]: the schema fills the defaults ([status] is
    [submitted], no analysis, no feedback, an absent [tags] is the empty
    array), the setters trim the title and each tag, [timestamps] stamps
    both dates, every validator runs, and the document is inserted.  A failed
    validation throws ([None]). *)
Definition create (newId : N) (now : Z) (user : N) (title : string)
    (description : option string) (language code : string)
    (tags : option (list string)) (coll : list Code.doc)
    : option (Code.doc * list Code.doc) :=
  let newCode :=
    {| Code._id := newId;
       Code.user := user;
       Code.title := JS.trim title;
       Code.description := description;
       Code.language := language;
       Code.code := code;
       Code.analysis := None;
       Code.feedback := None;
       Code.status := Code.submitted;
       Code.tags := JS.or_array (option_map (map JS.trim) tags) [];
       Code.createdAt := now;
       Code.updatedAt := now |} in
  if Code.validContent newCode
  then Some (newCode, (coll ++ [newCode])%list)
  else None.

Definition post_root (db : Db) (actor : User.doc) (b : CodeRoutes.CodeBody)
    (newId : N) (now : Z) : Response * Db :=
  match CodeRoutes.validateCode b with
  | (_ :: _) as errors => (res_status 400 (Errors errors), db)
  | [] =>
      let title := JS.trim (CodeRoutes.title b) in
      match
        create newId now (User._id actor) title (CodeRoutes.description b)
          (CodeRoutes.language b) (CodeRoutes.codeContent b)
          (CodeRoutes.tags b) (codes db)
      with
      | Some (newCode, codes') =>
          (res_status 201 (SuccessCode newCode),
           {| users := users db; codes := codes' |})
      | None => (res_status 500 (ErrorMsg "Server error"), db)
      end
  end.

(** *** GET / *)

(** [req.query]: [page] and [limit] are numeric strings, read as numbers;
    each parameter may be absent. *)
Record CodesQuery := {
  page : option Z;
  limit : option Z;
  language : option string;
  status : option string;
  search : option string
}.

Section Listing.

(** The case-insensitive regular expression of MongoDB: the match of a
    pattern, or [None] for a pattern the server refuses (the query then
    throws). *)
Variable regex_i : string -> option (string -> bool).

(** The condition [$or: [{ title: { $regex } }, { description: { $regex } }]]
    that a truthy [search] adds to the query; [None] when the server refuses
    the pattern.  A submission without a description does not match on the
    description. *)
Definition searchFilter (search : option string)
    : option (Code.doc -> bool) :=
  match search with
  | Some s =>
      if JS.truthy_string s
      then match regex_i s with
           | Some matches =>
               Some (fun c => matches (Code.title c)
                              || match Code.description c with
                                 | Some d => matches d
                                 | None => false
                                 end)%bool
           | None => None
           end
      else Some (fun _ => true)
  | None => Some (fun _ => true)
  end.

(** The Mongo query [{ user, language, status, $or: [...] }]. *)
Definition codesQuery (matches : Code.doc -> bool) (user : N)
    (q : CodesQuery) (c : Code.doc) : bool :=
  (N.eqb (Code.user c) user
   && filterBy (language q) (Code.language c)
   && filterBy (status q) (statusName (Code.status c))
   && matches c)%bool.

Definition get_root (db : Db) (actor : User.doc) (q : CodesQuery)
    : Reply Paged.codes :=
  let page := match page q with Some p => p | None => 1%Z end in
  let limit := match limit q with Some l => l | None => 10%Z end in
  match searchFilter (search q) with
  | None => ReplyError 500 "Server error"
  | Some matches =>
      let query := codesQuery matches (User._id actor) q in
      match
        Query.skip ((page - 1) * limit)
          (Query.sortDesc byCreatedAt (filter query (codes db)))
      with
      | None => ReplyError 500 "Server error"
      | Some skipped =>
          let codes_ := Query.limit (limit * 1) skipped in
          let total := Code.countDocuments query (codes db) in
          ReplyOk
            {| Paged.items := codes_;
               Paged.totalPages :=
                 if (limit =? 0)%Z then None
                 else Some (JS.ceil_div total limit);
               Paged.currentPage := page;
               Paged.total := total |}
      end
  end.

End Listing.

End CodeCollection.

(** ** routes/admin.js: the dashboard and the submissions of a student *)

Module AdminReports.

(** *** GET /dashboard *)

(** One group of [{ $group: { _id: '$language', count: { $sum: 1 } } }]. *)
Record LanguageStat := {
  _id : string;
  count : Z
}.

(** The [$group] stage: a submission joins the group of its language, or
    opens a new group with count 1. *)
Fixpoint addToGroup (key : string) (groups : list LanguageStat)
    : list LanguageStat :=
  match groups with
  | [] => [{| _id := key; count := 1 |}]
  | g :: groups' =>
      if _id g =? key
      then {| _id := key; count := count g + 1 |} :: groups'
      else g :: addToGroup key groups'
  end.

Definition groupByLanguage (coll : list Code.doc) : list LanguageStat :=
  fold_left (fun groups c => addToGroup (Code.language c) groups) coll [].

(** [Code.aggregate([{ $group ... }, { $sort: { count: -1 } }])]. *)
Definition languageStatsOf (coll : list Code.doc) : list LanguageStat :=
  Query.sortDesc (fun a b => Z.compare (count a) (count b))
    (groupByLanguage coll).

(** A quotient of integers, kept exact: the number [$avg] returns. *)
Record Fraction := {
  numerator : Z;
  denominator : Z
}.

(** The group of the grade statistics; an accumulator is [null] ([None])
    when no matched submission has a number for its grade. *)
Record GradeStats := {
  avgGrade : option Fraction;
  minGrade : option Z;
  maxGrade : option Z
}.

(** [{ $match: { 'feedback.grade': { $exists: true } } }]: the submissions
    that hold feedback; the grade of a feedback given without one is stored
    as [null], which exists. *)
Definition hasGradeField (c : Code.doc) : bool :=
  match Code.feedback c with
  | Some _ => true
  | None => false
  end.

(** The numbers among the grades of the matched submissions: [$avg], [$min]
    and [$max] pass over [null]. *)
Definition numericGrades (matched : list Code.doc) : list Z :=
  flat_map
    (fun c =>
       match Code.feedback c with
       | Some f => match Code.grade f with Some g => [g] | None => [] end
       | None => []
       end)
    matched.

Definition avgOf (zs : list Z) : option Fraction :=
  match zs with
  | [] => None
  | _ :: _ =>
      Some {| numerator := fold_right Z.add 0%Z zs;
              denominator := Z.of_nat (List.length zs) |}
  end.

Definition minOf (zs : list Z) : option Z :=
  match zs with
  | [] => None
  | z :: zs' => Some (fold_right Z.min z zs')
  end.

Definition maxOf (zs : list Z) : option Z :=
  match zs with
  | [] => None
  | z :: zs' => Some (fold_right Z.max z zs')
  end.

(** The second aggregation: no group at all when nothing matches, one group
    otherwise. *)
Definition gradeStatsOf (coll : list Code.doc) : list GradeStats :=
  match filter hasGradeField coll with
  | [] => []
  | (_ :: _) as matched =>
      let grades := numericGrades matched in
      [{| avgGrade := avgOf grades;
          minGrade := minOf grades;
          maxGrade := maxOf grades |}]
  end.

Record Stats := {
  totalStudents : Z;
  totalSubmissions : Z;
  activeToday : Z;
  languageStats : list LanguageStat;
  gradeStats : GradeStats;
  recentSubmissions : list Code.doc
}.

(** The handler; [today] is the local midnight that [setHours(0, 0, 0, 0)]
    leaves in [today]. *)
Definition get_dashboard (db : Db) (actor : User.doc) (today : Z)
    : Reply Stats :=
  if Auth.authorize [User.teacher] actor then
    let totalStudents :=
      User.countDocuments
        (fun u => User.Role_eqb (User.role u) User.student) (users db) in
    let totalSubmissions := Code.countDocuments (fun _ => true) (codes db) in
    let activeToday :=
      User.countDocuments
        (fun u => (User.Role_eqb (User.role u) User.student
                   && (today <=? User.lastActive u)%Z)%bool)
        (users db) in
    let recentSubmissions :=
      Query.limit 5 (Query.sortDesc byCreatedAt (codes db)) in
    let languageStats := languageStatsOf (codes db) in
    let gradeStats := gradeStatsOf (codes db) in
    ReplyOk
      {| totalStudents := totalStudents;
         totalSubmissions := totalSubmissions;
         activeToday := activeToday;
         languageStats := languageStats;
         gradeStats :=
           match gradeStats with
           | g :: _ => g
           | [] =>
               {| avgGrade := Some {| numerator := 0; denominator := 1 |};
                  minGrade := Some 0%Z;
                  maxGrade := Some 0%Z |}
           end;
         recentSubmissions := recentSubmissions |}
  else ReplyError 403 "not authorized".

(** *** GET /students/:studentId/codes *)

Record StudentCodesQuery := {
  page : option Z;
  limit : option Z;
  language : option string;
  status : option string
}.

(** [User.findById(...).select('username email')]. *)
Record StudentName := {
  student_id : N;
  username : string;
  email : string
}.

Record StudentCodes := {
  student : option StudentName;
  codes_ : Paged.codes
}.

(** The Mongo query [{ user, language, status }]. *)
Definition studentCodesQuery (studentId : N) (q : StudentCodesQuery)
    (c : Code.doc) : bool :=
  (N.eqb (Code.user c) studentId
   && filterBy (language q) (Code.language c)
   && filterBy (status q) (statusName (Code.status c)))%bool.

Definition get_students_codes (db : Db) (actor : User.doc) (studentId : N)
    (q : StudentCodesQuery) : Reply StudentCodes :=
  if Auth.authorize [User.teacher] actor then
    let page := match page q with Some p => p | None => 1%Z end in
    let limit := match limit q with Some l => l | None => 10%Z end in
    let query := studentCodesQuery studentId q in
    match
      Query.skip ((page - 1) * limit)
        (Query.sortDesc byCreatedAt (filter query (codes db)))
    with
    | None => ReplyError 500 "Server error"
    | Some skipped =>
        let total := Code.countDocuments query (codes db) in
        let codes := Query.limit (limit * 1) skipped in
        let student :=
          option_map
            (fun u => {| student_id := User._id u;
                         username := User.username u;
                         email := User.email u |})
            (User.findById studentId (users db)) in
        ReplyOk
          {| student := student;
             codes_ :=
               {| Paged.items := codes;
                  Paged.totalPages :=
                    if (limit =? 0)%Z then None
                    else Some (JS.ceil_div total limit);
                  Paged.currentPage := page;
                  Paged.total := total |} |}
    end
  else ReplyError 403 "not authorized".

End AdminReports.

(** ** frontend/src/App.js *)

Module App.

Inductive Component :=
| Login | Register | Dashboard | TeacherDashboard | CodeEditor.

(** The route that react-router matches for the location: the six routes of
    [App] in their order, [Elsewhere] for the catch-all. *)
Inductive Location :=
| AtLogin                       (* /login *)
| AtRegister                    (* /register *)
| AtRoot                        (* / *)
| AtDashboard                   (* /dashboard *)
| AtCode (id : option string)   (* /code/:id? *)
| AtTeacher                     (* /teacher *)
| Elsewhere.                    (* * *)

(** What a route element renders to. *)
Inductive Element :=
| Spinner
| Navigate (to : Location)
| Render (component : Component).

(** What [useAuth()] provides; [user] is the role of the user, or [None]
    for no user. *)
Record AuthState := {
  isAuthenticated : bool;
  user : option string;
  loading : bool
}.

(** [user?.role !== requiredRole]. *)
Definition roleDiffers (auth : AuthState) (requiredRole : string) : bool :=
  match user auth with
  | Some role => negb (role =? requiredRole)
  | None => true
  end.

Definition ProtectedRoute (auth : AuthState) (children : Element)
    (requiredRole : option string) : Element :=
  if loading auth then Spinner
  else if negb (isAuthenticated auth) then Navigate AtLogin
  else
    match requiredRole with
    | Some r =>
        if (JS.truthy_string r && roleDiffers auth r)%bool
        then Navigate AtRoot
        else children
    | None => children
    end.

(** Component to redirect based on user role. *)
Definition DashboardRedirect (auth : AuthState) : Element :=
  if negb (roleDiffers auth "teacher")
  then Navigate AtTeacher
  else Navigate AtDashboard.

(** The [Routes] of [App]. *)
Definition route (auth : AuthState) (at_ : Location) : Element :=
  match at_ with
  | AtLogin => Render Login
  | AtRegister => Render Register
  | AtRoot => ProtectedRoute auth (DashboardRedirect auth) None
  | AtDashboard => ProtectedRoute auth (Render Dashboard) None
  | AtCode _ => ProtectedRoute auth (Render CodeEditor) None
  | AtTeacher => ProtectedRoute auth (Render TeacherDashboard) (Some "teacher")
  | Elsewhere => Navigate AtRoot
  end.

(** Rendering a location and following at most [n] redirects. *)
Fixpoint settle (n : nat) (auth : AuthState) (at_ : Location) : Element :=
  match route auth at_ with
  | Navigate to =>
      match n with
      | O => Navigate to
      | S n' => settle n' auth to
      end
  | e => e
  end.

End App.

(** ** frontend/src/services/api.js *)

Module Api.

(** The two keys of [localStorage] that the module touches, and
    [window.location.href]. *)
Record Browser := {
  token : option string;
  user : option string;
  href : string
}.

(** The [Authorization] header of a request configuration. *)
Record Config := {
  Authorization : option string
}.

(** Request interceptor to add token. *)
Definition requestInterceptor (b : Browser) (config : Config) : Config :=
  match token b with
  | Some t =>
      if JS.truthy_string t
      then {| Authorization := Some ("Bearer " ++ t) |}
      else config
  | None => config
  end.

(** Response interceptor to handle errors: [status] is
    [error.response?.status]; the error is rejected again in every case. *)
Definition responseErrorInterceptor (b : Browser) (status : option Z)
    : Browser :=
  match status with
  | Some s =>
      if (s =? 401)%Z
      then {| token := None; user := None; href := "/login" |}
      else b
  | None => b
  end.

End Api.

(** ** Store invariants *)

(** Every stored grade lies between 0 and 100. *)
Definition gradesInRange (db : Db) : Prop :=
  forall c f g,
    In c (codes db) -> Code.feedback c = Some f -> Code.grade f = Some g ->
    (0 <= g <= 100)%Z.

(** What the status of a submission says about its other fields: a
    [graded] submission holds feedback with a grade, a [reviewed] one holds
    feedback without a grade or with the grade 0, an [analyzed] one holds an
    analysis. *)
Definition statusConsistent (c : Code.doc) : Prop :=
  match Code.status c with
  | Code.submitted => True
  | Code.analyzed => Code.analysis c <> None
  | Code.reviewed =>
      exists f, Code.feedback c = Some f
                /\ (Code.grade f = None \/ Code.grade f = Some 0%Z)
  | Code.graded =>
      exists f g, Code.feedback c = Some f /\ Code.grade f = Some g
  end.

Definition statusesConsistent (db : Db) : Prop :=
  forall c, In c (codes db) -> statusConsistent c.

(** No two stored users share a name, and no two share an email. *)
Definition usersUnique (db : Db) : Prop :=
  NoDup (map User.username (users db)) /\ NoDup (map User.email (users db)).

(** ** Sample data *)

Module Sample.

Definition admin : User.doc :=
  {| User._id := 1; User.username := "admin";
     User.email := "admin@codespace.com"; User.password := "#admin123";
     User.role := User.teacher; User.lastActive := 10 |}.

Definition alice : User.doc :=
  {| User._id := 2; User.username := "alice";
     User.email := "alice@example.com"; User.password := "#password123";
     User.role := User.student; User.lastActive := 20 |}.

Definition bob : User.doc :=
  {| User._id := 3; User.username := "bob";
     User.email := "bob@example.com"; User.password := "#password123";
     User.role := User.student; User.lastActive := 30 |}.

(** A submission of alice, graded 85 by the teacher. *)
Definition fib : Code.doc :=
  {| Code._id := 10; Code.user := 2; Code.title := "Fibonacci";
     Code.description := Some "Recursive version";
     Code.language := "javascript";
     Code.code := "function fibonacci(n) { return n; }";
     Code.analysis := None;
     Code.feedback :=
       Some {| Code.teacher := 1; Code.comment := "Good work";
               Code.grade := Some 85; Code.feedbackAt := 60 |};
     Code.status := Code.graded;
     Code.tags := ["recursion"];
     Code.createdAt := 50; Code.updatedAt := 60 |}.

(** A submission of bob, not yet analyzed or reviewed. *)
Definition hello : Code.doc :=
  {| Code._id := 11; Code.user := 3; Code.title := "Hello";
     Code.description := None;
     Code.language := "python";
     Code.code := "print(1)";
     Code.analysis := None;
     Code.feedback := None;
     Code.status := Code.submitted;
     Code.tags := [];
     Code.createdAt := 55; Code.updatedAt := 55 |}.

Definition db : Db :=
  {| users := [admin; alice; bob]; codes := [fib; hello] |}.

(** Fifteen students, with ids 100 to 114. *)
Definition studentN (i : nat) : User.doc :=
  {| User._id := N.of_nat (100 + i); User.username := "student";
     User.email := "student@example.com"; User.password := "#password123";
     User.role := User.student; User.lastActive := Z.of_nat i |}.

Definition classroom : Db :=
  {| users := admin :: map studentN (seq 0 15); codes := [] |}.

(** Stand-ins for the library functions of the routes: a pattern matches
    the strings equal to it, the pattern of an open parenthesis is refused,
    and so is every sort key but the fields of the user record. *)
Definition regex_i (pattern : string) : option (string -> bool) :=
  if pattern =? "(" then None else Some (fun subject => pattern =? subject).
Definition sortOther (key : string)
    : option (User.doc -> User.doc -> comparison) := None.
Definition isEmail (s : string) : bool := JS.truthy_string s.
Definition normalizeEmail (s : string) : string := s.
Definition hashPassword (s : string) : string := "#" ++ s.

(** The Ollama service answering, refusing the connection, and timing
    out. *)
Definition ollamaUp (prompt : string) : CodeRoutes.AxiosResult :=
  CodeRoutes.Resolved "Looks fine.".
Definition ollamaDown (prompt : string) : CodeRoutes.AxiosResult :=
  CodeRoutes.Rejected (Some "ECONNREFUSED").
Definition ollamaSlow (prompt : string) : CodeRoutes.AxiosResult :=
  CodeRoutes.Rejected (Some "ECONNABORTED").

End Sample.

(** ** More sample data *)

Module Fixture.

(** Three further submissions of alice, and the database holding them with
    the two of [Sample.db]. *)
Definition sorter : Code.doc :=
  {| Code._id := 12; Code.user := 2; Code.title := "Sorter";
     Code.description := Some "Insertion sort";
     Code.language := "python";
     Code.code := "def sort(xs): return sorted(xs)";
     Code.analysis :=
       Some {| Code.result := "Fine."; Code.analyzedAt := 58 |};
     Code.feedback := None;
     Code.status := Code.analyzed;
     Code.tags := [];
     Code.createdAt := 57; Code.updatedAt := 58 |}.

Definition stack : Code.doc :=
  {| Code._id := 13; Code.user := 2; Code.title := "Stack";
     Code.description := None;
     Code.language := "python";
     Code.code := "class Stack: pass";
     Code.analysis := None;
     Code.feedback :=
       Some {| Code.teacher := 1; Code.comment := "Add tests";
               Code.grade := None; Code.feedbackAt := 62 |};
     Code.status := Code.reviewed;
     Code.tags := [];
     Code.createdAt := 61; Code.updatedAt := 62 |}.

Definition queue : Code.doc :=
  {| Code._id := 14; Code.user := 2; Code.title := "Queue";
     Code.description := None;
     Code.language := "java";
     Code.code := "class Queue {}";
     Code.analysis := None;
     Code.feedback :=
       Some {| Code.teacher := 1; Code.comment := "Incomplete";
               Code.grade := Some 40; Code.feedbackAt := 66 |};
     Code.status := Code.graded;
     Code.tags := [];
     Code.createdAt := 65; Code.updatedAt := 66 |}.

Definition db : Db :=
  {| users := [Sample.admin; Sample.alice; Sample.bob];
     codes := [Sample.fib; Sample.hello; sorter; stack; queue] |}.

(** A submission of bob in C, and the six submissions together. *)
Definition tree : Code.doc :=
  {| Code._id := 16; Code.user := 3; Code.title := "Tree";
     Code.description := None;
     Code.language := "c";
     Code.code := "struct tree;";
     Code.analysis := None;
     Code.feedback := None;
     Code.status := Code.submitted;
     Code.tags := [];
     Code.createdAt := 68; Code.updatedAt := 68 |}.

Definition bigger : Db :=
  {| users := users db; codes := (codes db ++ [tree])%list |}.

(** A database whose only feedback carries no grade. *)
Definition ungraded : Db :=
  {| users := users db; codes := [Sample.hello; sorter; stack] |}.

(** A body for a new submission. *)
Definition newBody : CodeRoutes.CodeBody :=
  {| CodeRoutes.title := " Binary search ";
     CodeRoutes.description := None;
     CodeRoutes.language := "cpp";
     CodeRoutes.codeContent := "int main() { return 0; }";
     CodeRoutes.tags := Some [" search "] |}.

(** A body that fails every validation chain. *)
Definition badBody : CodeRoutes.CodeBody :=
  {| CodeRoutes.title := "   ";
     CodeRoutes.description := None;
     CodeRoutes.language := "ruby";
     CodeRoutes.codeContent := "";
     CodeRoutes.tags := None |}.

End Fixture.

(** * Properties *)

(** ** Strings *)

Lemma trimEnd_idempotent s : JS.trimEnd (JS.trimEnd s) = JS.trimEnd s.
Proof.
  induction s as [|c s IH]; simpl; [reflexivity|].
  destruct (JS.trimEnd s) as [|d t] eqn:E.
  - destruct (JS.is_space c) eqn:Hc; simpl; [reflexivity|].
    now rewrite Hc.
  - simpl in IH |- *.
    destruct (JS.trimEnd t) as [|e t'] eqn:Et.
    + destruct (JS.is_space d); [discriminate|].
      now inversion IH.
    + now inversion IH.
Qed.

Lemma trimStart_no_leading_space s : JS.no_leading_space (JS.trimStart s).
Proof.
  induction s as [|c s IH]; simpl; [exact I|].
  destruct (JS.is_space c) eqn:Hc; [exact IH | exact Hc].
Qed.

Lemma trimStart_fixed s : JS.no_leading_space s -> JS.trimStart s = s.
Proof.
  destruct s as [|c s]; simpl; [reflexivity|].
  now intros ->.
Qed.

Lemma trimEnd_no_leading_space s :
  JS.no_leading_space s -> JS.no_leading_space (JS.trimEnd s).
Proof.
  destruct s as [|c s]; simpl; [trivial|].
  intros Hc. destruct (JS.trimEnd s); [rewrite Hc|]; exact Hc.
Qed.

Lemma trim_idempotent s : JS.trim (JS.trim s) = JS.trim s.
Proof.
  unfold JS.trim.
  rewrite (trimStart_fixed (JS.trimEnd (JS.trimStart s))).
  - apply trimEnd_idempotent.
  - apply trimEnd_no_leading_space, trimStart_no_leading_space.
Qed.

(** ** Collections *)

Lemma findById_id id coll c :
  Code.findById id coll = Some c -> Code._id c = id.
Proof.
  unfold Code.findById. intros H.
  apply find_some in H. destruct H as [_ H].
  now apply N.eqb_eq in H.
Qed.

Lemma findById_In id coll c :
  Code.findById id coll = Some c -> In c coll.
Proof.
  unfold Code.findById. intros H. now apply find_some in H.
Qed.

(** After a document has been written back it is the one found under its
    id, provided the id was in the collection. *)
Lemma findById_replace d coll c :
  Code.findById (Code._id d) coll = Some c ->
  Code.findById (Code._id d) (Code.replace d coll) = Some d.
Proof.
  unfold Code.findById, Code.replace.
  induction coll as [|x coll IH]; simpl; [discriminate|].
  destruct (N.eqb (Code._id x) (Code._id d)) eqn:E.
  - intros _. now rewrite N.eqb_refl.
  - rewrite E. exact IH.
Qed.

(** Documents under another id are not touched by a write. *)
Lemma findById_replace_other d coll id :
  id <> Code._id d ->
  Code.findById id (Code.replace d coll) = Code.findById id coll.
Proof.
  unfold Code.findById, Code.replace. intros Hid.
  induction coll as [|x coll IH]; simpl; [reflexivity|].
  destruct (N.eqb (Code._id x) (Code._id d)) eqn:E.
  - apply N.eqb_eq in E.
    destruct (N.eqb (Code._id d) id) eqn:E1.
    + apply N.eqb_eq in E1. congruence.
    + rewrite E, E1. exact IH.
  - destruct (N.eqb (Code._id x) id); [reflexivity | exact IH].
Qed.

Lemma userFindById_id id coll u :
  User.findById id coll = Some u -> User._id u = id /\ In u coll.
Proof.
  unfold User.findById, User.findOne. intros H.
  apply find_some in H. destruct H as [Hin H].
  now apply N.eqb_eq in H.
Qed.

Lemma userFindById_deleteOne u coll :
  User.findById (User._id u) (User.deleteOne u coll) = None.
Proof.
  unfold User.findById, User.findOne, User.deleteOne.
  induction coll as [|x coll IH]; simpl; [reflexivity|].
  destruct (N.eqb (User._id x) (User._id u)) eqn:E; simpl; [exact IH|].
  now rewrite E.
Qed.

(** ** Cursors *)

Lemma insertDesc_length {A} (cmp : A -> A -> comparison) x l :
  List.length (Query.insertDesc cmp x l) = S (List.length l).
Proof.
  induction l as [|y l IH]; simpl; [reflexivity|].
  destruct (cmp x y); simpl; congruence.
Qed.

Lemma sortDesc_length {A} (cmp : A -> A -> comparison) l :
  List.length (Query.sortDesc cmp l) = List.length l.
Proof.
  unfold Query.sortDesc.
  induction l as [|x l IH]; simpl; [reflexivity|].
  now rewrite insertDesc_length, IH.
Qed.

(** [Math.ceil(a / b)] is the least number of pages of size [b] that hold
    [a] items. *)
Lemma ceil_div_spec a b :
  (0 < b)%Z ->
  ((JS.ceil_div a b - 1) * b < a <= JS.ceil_div a b * b)%Z.
Proof.
  intros Hb. unfold JS.ceil_div.
  pose proof (Z.div_mod (- a) b ltac:(lia)) as Hdm.
  pose proof (Z.mod_pos_bound (- a) b Hb) as Hm.
  nia.
Qed.

(** ** The submission model *)

(** What [addFeedback] leaves behind when its save goes through: the
    status follows the truthiness of the value passed, the grade stored is
    the value as cast. *)
Lemma addFeedback_result teacherId comment grade now this coll d coll' :
  Code.addFeedback teacherId comment grade now this coll = Some (d, coll') ->
  exists stored,
    Code.castNumber grade = Some stored
    /\ Code.status d
       = (if JS.truthy grade then Code.graded else Code.reviewed)
    /\ Code.feedback d
       = Some {| Code.teacher := teacherId; Code.comment := comment;
                 Code.grade := stored; Code.feedbackAt := now |}
    /\ Code._id d = Code._id this
    /\ Code.analysis d = Code.analysis this
    /\ Code.validFeedback d = true
    /\ coll' = Code.replace d coll.
Proof.
  unfold Code.addFeedback, Code.save.
  assert (Hdefault :
    forall v, Code.castNumber match v with JS.Undefined => JS.Null | _ => v end
              = Code.castNumber v
              /\ JS.truthy match v with JS.Undefined => JS.Null | _ => v end
                 = JS.truthy v)
    by (intros []; split; reflexivity).
  destruct (Hdefault grade) as [-> ->].
  destruct (Code.castNumber grade) as [stored|]; [|discriminate].
  destruct (Code.validFeedback _) eqn:Hv; [|discriminate].
  intros H. inversion H; subst; clear H. exists stored.
  repeat split. exact Hv.
Qed.

(** [addFeedback] leaves every other field of the submission as it was and
    stamps [updatedAt]. *)
Lemma addFeedback_frame teacherId comment grade now this coll d coll' :
  Code.addFeedback teacherId comment grade now this coll = Some (d, coll') ->
  Code.user d = Code.user this
  /\ Code.title d = Code.title this
  /\ Code.description d = Code.description this
  /\ Code.language d = Code.language this
  /\ Code.code d = Code.code this
  /\ Code.tags d = Code.tags this
  /\ Code.createdAt d = Code.createdAt this
  /\ Code.updatedAt d = now.
Proof.
  unfold Code.addFeedback, Code.save.
  destruct (Code.castNumber _) as [stored|]; [|discriminate].
  destruct (Code.validFeedback _); [|discriminate].
  intros H. inversion H; subst; clear H.
  repeat split.
Qed.

(** The grade stored for a truthy value is a number; for a falsy one it is
    absent or 0. *)
Lemma castNumber_truthy v stored :
  Code.castNumber v = Some stored ->
  if JS.truthy v then exists g, stored = Some g
  else stored = None \/ stored = Some 0%Z.
Proof.
  destruct v as [| |z|s]; cbn [Code.castNumber JS.truthy].
  - intros H. injection H as <-. now left.
  - intros H. injection H as <-. now left.
  - intros H. injection H as <-. unfold JS.truthy_number.
    destruct (Z.eqb_spec z 0) as [->|_]; cbn [negb]; eauto.
  - unfold JS.truthy_string.
    destruct (String.eqb_spec s "") as [->|_]; cbn [negb].
    + intros H. injection H as <-. now left.
    + destruct (JS.decimal s) as [z|]; [|discriminate].
      intros H. injection H as <-. eauto.
Qed.

(** The number a grade that passes the validation chain is stored as. *)
Lemma isInt_castNumber v :
  AdminRoutes.isInt 0 100 v = true ->
  exists z, Code.castNumber v = Some (Some z) /\ (0 <= z <= 100)%Z.
Proof.
  destruct v as [| |z|s]; cbn [AdminRoutes.isInt Code.castNumber];
    try discriminate.
  - intros H. apply andb_true_iff in H as [H1 H2].
    apply Z.leb_le in H1, H2. eauto.
  - destruct (String.eqb_spec s "") as [->|_]; [discriminate|].
    destruct (JS.decimal s) as [z|]; [|discriminate].
    intros H. apply andb_true_iff in H as [H1 H2].
    apply Z.leb_le in H1, H2. eauto.
Qed.

(** The save of [addFeedback] goes through when the grade is absent or
    passes the validation chain. *)
Lemma addFeedback_saves teacherId comment grade now this coll :
  grade = JS.Undefined \/ AdminRoutes.isInt 0 100 grade = true ->
  exists d coll',
    Code.addFeedback teacherId comment grade now this coll = Some (d, coll').
Proof.
  intros [->|Hg].
  - unfold Code.addFeedback, Code.save, Code.validFeedback. simpl. eauto.
  - destruct (isInt_castNumber grade Hg) as (z & Hcast & Hz).
    unfold Code.addFeedback, Code.save, Code.validFeedback.
    replace (Code.castNumber match grade with
                             | JS.Undefined => JS.Null
                             | _ => grade
                             end)
      with (Some (Some z)) by (now destruct grade).
    cbn [Code.feedback Code.grade].
    replace ((0 <=? z)%Z && (z <=? 100)%Z)%bool with true; [eauto|].
    symmetry. apply andb_true_iff. split; apply Z.leb_le; lia.
Qed.

(** C1 (the grade 0 case): a feedback with the grade 0 is stored with that
    grade, yet the status it leaves is [reviewed], not [graded]: the test
    [grade ? 'graded' : 'reviewed'] takes the number 0 for an absent
    grade. *)
Theorem addFeedback_grade_zero_is_reviewed teacherId comment now this coll :
  exists d,
    Code.addFeedback teacherId comment (JS.Num 0%Z) now this coll
    = Some (d, Code.replace d coll)
    /\ Code.status d = Code.reviewed
    /\ Code.feedback d
       = Some {| Code.teacher := teacherId; Code.comment := comment;
                 Code.grade := Some 0%Z; Code.feedbackAt := now |}.
Proof.
  destruct (addFeedback_saves teacherId comment (JS.Num 0%Z) now this coll)
    as (d & coll' & H); [now right|].
  pose proof (addFeedback_result _ _ _ _ _ _ _ _ H)
    as (stored & Hcast & Hs & Hf & _ & _ & _ & Hc).
  injection Hcast as <-.
  exists d. subst coll'. simpl in Hs. auto.
Qed.

(** The same through the route: the teacher grades alice's submission 0. *)
Example post_codes_feedback_grade_zero :
  exists d db',
    AdminRoutes.post_codes_feedback Sample.db Sample.admin 10
      {| AdminRoutes.comment := "Does not run";
         AdminRoutes.grade := JS.Num 0%Z |}
      70
    = (res_json (SuccessCode d), db')
    /\ Code.status d = Code.reviewed
    /\ option_map Code.grade (Code.feedback d) = Some (Some 0%Z)
    /\ Code.findById 10 (codes db') = Some d.
Proof.
  eexists. eexists. vm_compute. repeat split.
Qed.

(** A grade sent as the string [0] passes the validation, is truthy and is
    stored as the number 0: the status it leaves is [graded]. *)
Example post_codes_feedback_grade_string_zero :
  exists d db',
    AdminRoutes.post_codes_feedback Sample.db Sample.admin 10
      {| AdminRoutes.comment := "Does not run";
         AdminRoutes.grade := JS.Str "0" |}
      70
    = (res_json (SuccessCode d), db')
    /\ Code.status d = Code.graded
    /\ option_map Code.grade (Code.feedback d) = Some (Some 0%Z)
    /\ Code.findById 10 (codes db') = Some d.
Proof.
  eexists. eexists. vm_compute. repeat split.
Qed.

(** A grade sent as [null] is not passed over by [optional()]: it fails
    [isInt] and the feedback is refused. *)
Example post_codes_feedback_grade_null :
  AdminRoutes.post_codes_feedback Sample.db Sample.admin 10
    {| AdminRoutes.comment := "Does not run"; AdminRoutes.grade := JS.Null |}
    70
  = (res_status 400
       (Errors [{| path := "grade";
                   msg := "Grade must be between 0 and 100" |}]),
     Sample.db).
Proof. reflexivity. Qed.

(** A title made of a no-break space alone is empty once trimmed, and a
    title padded with one is stored without it. *)
Example validateCode_no_break_space_title :
  CodeRoutes.validateCode
    {| CodeRoutes.title := String (ascii_of_nat 160) "";
       CodeRoutes.description := None;
       CodeRoutes.language := "python";
       CodeRoutes.codeContent := "pass";
       CodeRoutes.tags := None |}
  = [{| path := "title"; msg := "Title is required" |}]
  /\ JS.trim (String (ascii_of_nat 160) "abc" ++ String (ascii_of_nat 160) "")
     = "abc".
Proof. split; reflexivity. Qed.

(** ** Analysis *)

(** What [addAnalysis] leaves behind; its save always goes through. *)
Lemma addAnalysis_result analysisResult now this coll :
  exists d,
    Code.addAnalysis analysisResult now this coll
    = Some (d, Code.replace d coll)
    /\ Code._id d = Code._id this
    /\ Code.status d = Code.analyzed
    /\ Code.analysis d
       = Some {| Code.result := analysisResult; Code.analyzedAt := now |}
    /\ Code.feedback d = Code.feedback this.
Proof.
  unfold Code.addAnalysis, Code.save. eexists. repeat split.
Qed.

(** C2, as stated, fails: alice's submission is graded; once she has it
    analyzed again, without editing it, its status is [analyzed]. *)
Lemma analyze_keeps_feedback_status_counterexample :
  ~ (forall ollama db actor id now c c',
        Code.findById id (codes db) = Some c ->
        Code.feedback c <> None ->
        Code.status c = Code.reviewed \/ Code.status c = Code.graded ->
        Code.findById id
          (codes (snd (CodeRoutes.post_id_analyze ollama db actor id now)))
        = Some c' ->
        Code.status c' = Code.status c).
Proof.
  intros H.
  specialize (H Sample.ollamaUp Sample.db Sample.alice 10%N 70%Z Sample.fib).
  specialize (H _ eq_refl ltac:(discriminate) ltac:(right; reflexivity) eq_refl).
  discriminate H.
Qed.

(** C2, amended: when the owner's analysis request is answered, the stored
    submission carries the new analysis and the status [analyzed], whatever
    feedback it holds; the feedback itself is left as it was. *)
Theorem analyze_sets_analyzed_keeps_feedback ollama db actor id now c r :
  Code.findById id (codes db) = Some c ->
  Code.user c = User._id actor ->
  ollama (CodeRoutes.prompt c) = CodeRoutes.Resolved r ->
  exists c',
    fst (CodeRoutes.post_id_analyze ollama db actor id now)
    = res_json (SuccessAnalysis r)
    /\ Code.findById id
         (codes (snd (CodeRoutes.post_id_analyze ollama db actor id now)))
       = Some c'
    /\ Code.status c' = Code.analyzed
    /\ Code.analysis c'
       = Some {| Code.result := r; Code.analyzedAt := now |}
    /\ Code.feedback c' = Code.feedback c.
Proof.
  intros Hfind Howner Hollama.
  unfold CodeRoutes.post_id_analyze.
  rewrite Hfind, Howner, N.eqb_refl, Hollama. cbn [negb].
  destruct (addAnalysis_result r now c (codes db))
    as (d & Hadd & Hid & Hst & Han & Hfb).
  rewrite Hadd. cbn [fst snd codes].
  exists d. repeat split; trivial.
  apply findById_id in Hfind as Hcid.
  rewrite <- Hcid, <- Hid.
  apply findById_replace with (c := c).
  now rewrite Hid, Hcid.
Qed.

Lemma analyze_sets_analyzed_keeps_feedback_witness :
  exists c',
    fst (CodeRoutes.post_id_analyze Sample.ollamaUp Sample.db Sample.alice 10 70)
    = res_json (SuccessAnalysis "Looks fine.")
    /\ Code.findById 10
         (codes (snd (CodeRoutes.post_id_analyze Sample.ollamaUp Sample.db
                        Sample.alice 10 70)))
       = Some c'
    /\ Code.status c' = Code.analyzed
    /\ Code.analysis c'
       = Some {| Code.result := "Looks fine."; Code.analyzedAt := 70 |}
    /\ Code.feedback c' = Code.feedback Sample.fib.
Proof.
  apply (analyze_sets_analyzed_keeps_feedback Sample.ollamaUp Sample.db
           Sample.alice 10%N 70%Z Sample.fib "Looks fine.");
    reflexivity.
Defined.

(** C6: when the call to the AI service fails, the database after the
    request is the database before it, so the submission keeps its status
    and gains no analysis; a refused connection is answered with 503, every
    other failure with 500. *)
Theorem analyze_failure_leaves_state ollama db actor id now c e :
  Code.findById id (codes db) = Some c ->
  Code.user c = User._id actor ->
  ollama (CodeRoutes.prompt c) = CodeRoutes.Rejected e ->
  snd (CodeRoutes.post_id_analyze ollama db actor id now) = db
  /\ Code.findById id
       (codes (snd (CodeRoutes.post_id_analyze ollama db actor id now)))
     = Some c
  /\ (e = Some "ECONNREFUSED" ->
      fst (CodeRoutes.post_id_analyze ollama db actor id now)
      = res_status 503
          (ErrorMsg
             "AI service is not available. Please ensure Ollama is running."))
  /\ (e <> Some "ECONNREFUSED" ->
      fst (CodeRoutes.post_id_analyze ollama db actor id now)
      = res_status 500 (ErrorMsg "Failed to analyze code")).
Proof.
  intros Hfind Howner Hollama.
  unfold CodeRoutes.post_id_analyze.
  rewrite Hfind, Howner, N.eqb_refl, Hollama. simpl.
  destruct e as [code|].
  - destruct (String.eqb_spec code "ECONNREFUSED") as [->|Hne]; simpl;
      repeat split; trivial; congruence.
  - repeat split; trivial. discriminate.
Qed.

Lemma analyze_failure_leaves_state_witness :
  snd (CodeRoutes.post_id_analyze Sample.ollamaDown Sample.db Sample.alice 10 70)
  = Sample.db
  /\ fst (CodeRoutes.post_id_analyze Sample.ollamaDown Sample.db
            Sample.alice 10 70)
     = res_status 503
         (ErrorMsg
            "AI service is not available. Please ensure Ollama is running.")
  /\ fst (CodeRoutes.post_id_analyze Sample.ollamaSlow Sample.db
            Sample.alice 10 70)
     = res_status 500 (ErrorMsg "Failed to analyze code").
Proof.
  destruct (analyze_failure_leaves_state Sample.ollamaDown Sample.db
              Sample.alice 10%N 70%Z Sample.fib (Some "ECONNREFUSED")
              eq_refl eq_refl eq_refl) as (H1 & _ & H2 & _).
  destruct (analyze_failure_leaves_state Sample.ollamaSlow Sample.db
              Sample.alice 10%N 70%Z Sample.fib (Some "ECONNABORTED")
              eq_refl eq_refl eq_refl) as (_ & _ & _ & H3).
  split; [exact H1|].
  split; [exact (H2 eq_refl)|].
  apply H3. discriminate.
Defined.

(** ** Teacher routes *)

Lemma gate_teacher actor db k :
  User.role actor = User.teacher -> AdminRoutes.gate actor db k = k.
Proof.
  intros H. unfold AdminRoutes.gate, Auth.authorize. simpl. now rewrite H.
Qed.

Lemma findOne_some (q : User.doc -> bool) coll u :
  In u coll -> q u = true -> exists v, User.findOne q coll = Some v.
Proof.
  unfold User.findOne. intros Hin Hq.
  destruct (find q coll) as [v|] eqn:E; [eauto|].
  pose proof (find_none _ _ E _ Hin). congruence.
Qed.

(** C3, as stated, fails for the creation by a teacher: a user named alice
    exists; the teacher creates a user with alice's name and alice's email,
    and is told that the email exists. *)
Lemma post_users_username_first_counterexample :
  ~ ((forall hashPassword db b newId now u,
        In u (users db) ->
        User.username u = AuthRoutes.username b ->
        fst (AuthRoutes.register hashPassword db b newId now)
        = res_status 400 (ErrorMsg "Username already taken"))
     /\ (forall isEmail normalizeEmail hashPassword db actor b newId now u,
           User.role actor = User.teacher ->
           AdminRoutes.userErrors isEmail b = [] ->
           In u (users db) ->
           User.username u = JS.trim (AdminRoutes.username b) ->
           fst (AdminRoutes.post_users isEmail normalizeEmail hashPassword
                  db actor b newId now)
           = res_status 400 (ErrorMsg "Username already taken"))).
Proof.
  intros [_ H].
  specialize (H Sample.isEmail Sample.normalizeEmail Sample.hashPassword
                Sample.db Sample.admin
                {| AdminRoutes.username := "alice";
                   AdminRoutes.email := "alice@example.com";
                   AdminRoutes.password := "password123" |}
                4%N 70%Z Sample.alice
                eq_refl eq_refl ltac:(simpl; auto) eq_refl).
  discriminate H.
Qed.

Lemma existsb_In {A} (q : A -> bool) l x :
  In x l -> q x = true -> existsb q l = true.
Proof.
  intros Hin Hq. apply existsb_exists. eauto.
Qed.

(** C3, amended: a registration whose username an existing user bears fails
    with "Username already taken", whatever the email (registration as the
    spec gives it).  A creation by a teacher whose username an existing user
    bears fails with a conflict and creates nothing; there the email is
    compared first: the reason is "Username already taken" whenever no
    existing user has the requested email, and "Email already exists"
    whenever every existing user of that name has the requested email; the
    reason "Email already exists" is given only if an existing user has the
    requested email, and "Username already taken" only if an existing user
    of that name has another email. *)
Theorem duplicate_username_conflict
    isEmail normalizeEmail hashPassword db actor b newId now u :
  In u (users db) ->
  (forall rb,
     User.username u = AuthRoutes.username rb ->
     AuthRoutes.register hashPassword db rb newId now
     = (res_status 400 (ErrorMsg "Username already taken"), db))
  /\ (User.role actor = User.teacher ->
      AdminRoutes.userErrors isEmail b = [] ->
      User.username u = JS.trim (AdminRoutes.username b) ->
      let name := JS.trim (AdminRoutes.username b) in
      let mail := normalizeEmail (AdminRoutes.email b) in
      exists reason,
        AdminRoutes.post_users isEmail normalizeEmail hashPassword
          db actor b newId now
        = (res_status 400 (ErrorMsg reason), db)
        /\ (reason = "Email already exists"
            \/ reason = "Username already taken")
        /\ ((forall v, In v (users db) -> User.email v <> mail) ->
            reason = "Username already taken")
        /\ ((forall v, In v (users db) -> User.username v = name ->
                       User.email v = mail) ->
            reason = "Email already exists")
        /\ (reason = "Email already exists" ->
            exists v, In v (users db) /\ User.email v = mail)
        /\ (reason = "Username already taken" ->
            exists v, In v (users db) /\ User.username v = name
                      /\ User.email v <> mail)).
Proof.
  intros Hin. split.
  - intros rb Hname. unfold AuthRoutes.register.
    rewrite (existsb_In _ _ u Hin); [reflexivity|].
    rewrite Hname. apply String.eqb_refl.
  - intros Hrole Hvalid Hname name mail.
    destruct (findOne_some
                (fun v => (User.email v =? mail)
                          || (User.username v =? name))%bool
                (users db) u Hin) as [x Hx].
    { subst name. rewrite Hname, String.eqb_refl. apply orb_true_r. }
    unfold AdminRoutes.post_users.
    rewrite (gate_teacher _ _ _ Hrole), Hvalid. fold name mail. rewrite Hx.
    unfold User.findOne in Hx. apply find_some in Hx as [Hxin Hq].
    destruct (String.eqb_spec (User.email x) mail) as [E|E].
    + exists "Email already exists". split; [reflexivity|].
      split; [now left|]. split; [|split; [|split]].
      * intros Hno. now apply Hno in Hxin.
      * reflexivity.
      * eauto.
      * discriminate.
    + exists "Username already taken". split; [reflexivity|].
      cbn [orb] in Hq. apply String.eqb_eq in Hq.
      split; [now right|]. split; [|split; [|split]].
      * reflexivity.
      * intros Hall. now apply Hall in Hq.
      * discriminate.
      * eauto.
Qed.

Lemma duplicate_username_conflict_witness :
  AuthRoutes.register Sample.hashPassword Sample.db
    {| AuthRoutes.username := "alice";
       AuthRoutes.email := "alice@example.com";
       AuthRoutes.password := "password123";
       AuthRoutes.role := None |} 4 70
  = (res_status 400 (ErrorMsg "Username already taken"), Sample.db)
  /\ AdminRoutes.post_users Sample.isEmail Sample.normalizeEmail
       Sample.hashPassword Sample.db Sample.admin
       {| AdminRoutes.username := " alice ";
          AdminRoutes.email := "carol@example.com";
          AdminRoutes.password := "password123" |} 4 70
     = (res_status 400 (ErrorMsg "Username already taken"), Sample.db).
Proof.
  destruct (duplicate_username_conflict Sample.isEmail Sample.normalizeEmail
              Sample.hashPassword Sample.db Sample.admin
              {| AdminRoutes.username := " alice ";
                 AdminRoutes.email := "carol@example.com";
                 AdminRoutes.password := "password123" |}
              4%N 70%Z Sample.alice ltac:(simpl; auto))
    as [Hregister Hcreate].
  split; [apply Hregister; reflexivity|].
  destruct (Hcreate eq_refl eq_refl eq_refl) as (reason & Hres & _ & Hname & _).
  rewrite Hres, Hname; [reflexivity|].
  intros v [<-|[<-|[<-|[]]]]; discriminate.
Defined.

(** C7: a teacher's feedback whose grade, a number or a string of digits,
    lies outside 0..100 is answered with 400 and a list of field errors that
    names the grade, and the database is left as it was; a feedback with a
    comment and no grade is accepted and leaves the submission [reviewed]. *)
Theorem post_codes_feedback_grade_validation db actor codeId comment now :
  User.role actor = User.teacher ->
  (forall g v,
     (g < 0 \/ 100 < g)%Z ->
     v = JS.Num g \/ (exists s, v = JS.Str s /\ JS.decimal s = Some g) ->
     exists errors,
       AdminRoutes.post_codes_feedback db actor codeId
         {| AdminRoutes.comment := comment; AdminRoutes.grade := v |} now
       = (res_status 400 (Errors errors), db)
       /\ In {| path := "grade"; msg := "Grade must be between 0 and 100" |}
            errors)
  /\ (forall c,
        JS.trim comment <> "" ->
        Code.findById codeId (codes db) = Some c ->
        exists c' db',
          AdminRoutes.post_codes_feedback db actor codeId
            {| AdminRoutes.comment := comment;
               AdminRoutes.grade := JS.Undefined |} now
          = (res_json (SuccessCode c'), db')
          /\ Code.findById codeId (codes db') = Some c'
          /\ Code.status c' = Code.reviewed
          /\ Code.feedback c'
             = Some {| Code.teacher := User._id actor;
                       Code.comment := JS.trim comment;
                       Code.grade := None; Code.feedbackAt := now |}).
Proof.
  intros Hrole. split.
  - intros g v Hg Hv.
    assert (Hint : AdminRoutes.isInt 0 100 v = false
                   /\ v <> JS.Undefined).
    { assert (Hr : ((0 <=? g)%Z && (g <=? 100)%Z)%bool = false).
      { apply andb_false_iff.
        destruct Hg; [left; apply Z.leb_gt | right; apply Z.leb_gt]; lia. }
      destruct Hv as [->|(s & -> & Hs)]; cbn [AdminRoutes.isInt];
        rewrite ?Hs, Hr; split; [reflexivity | discriminate
                                | reflexivity | discriminate]. }
    destruct Hint as [Hint Hdef].
    assert (Herrors :
      AdminRoutes.feedbackErrors
        {| AdminRoutes.comment := comment; AdminRoutes.grade := v |}
      = ((if JS.truthy_string (JS.trim comment) then []
          else [{| path := "comment";
                   msg := "Feedback comment is required" |}])
         ++ [{| path := "grade";
                msg := "Grade must be between 0 and 100" |}])%list).
    { unfold AdminRoutes.feedbackErrors.
      cbn [AdminRoutes.comment AdminRoutes.grade].
      destruct v; [contradiction | | |]; now rewrite Hint. }
    unfold AdminRoutes.post_codes_feedback.
    rewrite (gate_teacher _ _ _ Hrole), Herrors.
    destruct (JS.truthy_string (JS.trim comment)); simpl;
      eexists; (split; [reflexivity | simpl; auto]).
  - intros c Hcomment Hfind.
    unfold AdminRoutes.post_codes_feedback.
    rewrite (gate_teacher _ _ _ Hrole).
    unfold AdminRoutes.feedbackErrors.
    cbn [AdminRoutes.comment AdminRoutes.grade].
    assert (JS.truthy_string (JS.trim comment) = true) as ->.
    { unfold JS.truthy_string.
      destruct (String.eqb_spec (JS.trim comment) "");
        [contradiction | reflexivity]. }
    cbn [app]. rewrite Hfind.
    destruct (addFeedback_saves (User._id actor) (JS.trim comment)
                JS.Undefined now c (codes db) (or_introl eq_refl))
      as (d & coll' & Hadd).
    rewrite Hadd.
    apply addFeedback_result in Hadd
        as (stored & Hcast & Hst & Hfb & Hid & _ & _ & Hcoll).
    injection Hcast as <-.
    exists d, {| users := users db; codes := coll' |}.
    split; [reflexivity|]. cbn [codes]. repeat split; trivial.
    subst coll'. apply findById_id in Hfind as Hcid.
    rewrite <- Hcid, <- Hid.
    apply findById_replace with (c := c). now rewrite Hid, Hcid.
Qed.

Lemma post_codes_feedback_grade_validation_witness :
  (exists errors,
     AdminRoutes.post_codes_feedback Sample.db Sample.admin 10
       {| AdminRoutes.comment := "Good work";
          AdminRoutes.grade := JS.Num 150 |}
       70
     = (res_status 400 (Errors errors), Sample.db)
     /\ In {| path := "grade"; msg := "Grade must be between 0 and 100" |}
          errors)
  /\ (exists errors,
        AdminRoutes.post_codes_feedback Sample.db Sample.admin 10
          {| AdminRoutes.comment := "Good work";
             AdminRoutes.grade := JS.Str "150" |}
          70
        = (res_status 400 (Errors errors), Sample.db)
        /\ In {| path := "grade"; msg := "Grade must be between 0 and 100" |}
             errors)
  /\ (exists c' db',
        AdminRoutes.post_codes_feedback Sample.db Sample.admin 10
          {| AdminRoutes.comment := "Good work";
             AdminRoutes.grade := JS.Undefined |}
          70
        = (res_json (SuccessCode c'), db')
        /\ Code.findById 10 (codes db') = Some c'
        /\ Code.status c' = Code.reviewed
        /\ Code.feedback c'
           = Some {| Code.teacher := 1; Code.comment := "Good work";
                     Code.grade := None; Code.feedbackAt := 70 |}).
Proof.
  destruct (post_codes_feedback_grade_validation Sample.db Sample.admin 10%N
              "Good work" 70%Z eq_refl) as [Hbad Hok].
  split; [|split].
  - apply (Hbad 150%Z); [right; reflexivity | now left].
  - apply (Hbad 150%Z); [right; reflexivity | right].
    exists "150". split; reflexivity.
  - apply (Hok Sample.fib); [discriminate | reflexivity].
Defined.

(** C8: a teacher cannot delete a teacher: the answer is 403 and the
    database is left as it was.  Deleting a student succeeds and removes the
    user and every submission the user owns; the other users and the
    submissions of other owners stay. *)
Theorem delete_users_teacher_or_cascade db actor userId target :
  User.role actor = User.teacher ->
  User.findById userId (users db) = Some target ->
  (User.role target = User.teacher ->
   AdminRoutes.delete_users db actor userId
   = (res_status 403 (ErrorMsg "Cannot delete teacher accounts"), db))
  /\ (User.role target = User.student ->
      let (response, db') := AdminRoutes.delete_users db actor userId in
      response
      = res_json (SuccessMessage "User and associated data deleted successfully")
      /\ User.findById userId (users db') = None
      /\ (forall u, In u (users db') <-> In u (users db) /\ User._id u <> userId)
      /\ (forall c, In c (codes db') <-> In c (codes db) /\ Code.user c <> userId)).
Proof.
  intros Hrole Hfind.
  unfold AdminRoutes.delete_users.
  rewrite (gate_teacher _ _ _ Hrole), Hfind.
  apply userFindById_id in Hfind as [Hid _].
  split; intros Htarget; rewrite Htarget; [reflexivity|].
  split; [reflexivity|]. cbn [users codes]. split; [|split].
  - rewrite <- Hid. apply userFindById_deleteOne.
  - intros u. unfold User.deleteOne. rewrite filter_In, Hid.
    rewrite negb_true_iff, N.eqb_neq. reflexivity.
  - intros c. unfold Code.deleteMany. rewrite filter_In, Hid.
    rewrite negb_true_iff, N.eqb_neq. reflexivity.
Qed.

Lemma userFindById_deleteOne_other target coll id :
  id <> User._id target ->
  User.findById id (User.deleteOne target coll) = User.findById id coll.
Proof.
  unfold User.findById, User.findOne, User.deleteOne. intros Hid.
  induction coll as [|x coll IH]; simpl; [reflexivity|].
  destruct (N.eqb_spec (User._id x) (User._id target)) as [E|E]; simpl.
  - destruct (N.eqb_spec (User._id x) id); [congruence | exact IH].
  - destruct (N.eqb (User._id x) id); [reflexivity | exact IH].
Qed.

(** Deleting a user keeps every remaining submission with a stored owner. *)
Lemma delete_users_keeps_owners db actor userId :
  ownersStored db ->
  ownersStored (snd (AdminRoutes.delete_users db actor userId)).
Proof.
  intros Hdb. unfold AdminRoutes.delete_users, AdminRoutes.gate.
  destruct (Auth.authorize _ _); [|exact Hdb].
  destruct (User.findById userId (users db)) as [target|] eqn:Hfind;
    [|exact Hdb].
  destruct (User.role target); [|exact Hdb].
  intros c Hc. cbn [snd users codes] in Hc |- *.
  unfold Code.deleteMany in Hc. apply filter_In in Hc as [Hc Hne].
  apply negb_true_iff, N.eqb_neq in Hne.
  destruct (Hdb c Hc) as [u Hu]. exists u.
  now rewrite userFindById_deleteOne_other.
Qed.

Lemma delete_users_teacher_or_cascade_witness :
  AdminRoutes.delete_users Sample.db Sample.admin 1
  = (res_status 403 (ErrorMsg "Cannot delete teacher accounts"), Sample.db)
  /\ (let (response, db') := AdminRoutes.delete_users Sample.db Sample.admin 2 in
      response
      = res_json (SuccessMessage "User and associated data deleted successfully")
      /\ User.findById 2 (users db') = None
      /\ (forall u, In u (users db') <-> In u (users Sample.db) /\ User._id u <> 2%N)
      /\ (forall c, In c (codes db') <-> In c (codes Sample.db) /\ Code.user c <> 2%N)).
Proof.
  split.
  - apply (delete_users_teacher_or_cascade Sample.db Sample.admin 1%N
             Sample.admin eq_refl eq_refl).
    reflexivity.
  - apply (delete_users_teacher_or_cascade Sample.db Sample.admin 2%N
             Sample.alice eq_refl eq_refl).
    reflexivity.
Defined.

(** ** Owner routes *)

(** A successful update read backwards: the submission existed, the actor
    owns it, and the document sent back, which is the one stored, is the old
    one with the assignments of the handler. *)
Lemma put_id_success db actor id b now c' db' :
  CodeRoutes.put_id db actor id b now = (res_json (SuccessCode c'), db') ->
  exists c,
    Code.findById id (codes db) = Some c
    /\ Code.user c = User._id actor
    /\ c' = {| Code._id := Code._id c;
               Code.user := Code.user c;
               Code.title := JS.trim (JS.trim (CodeRoutes.title b));
               Code.description :=
                 JS.or_string (CodeRoutes.description b) (Code.description c);
               Code.language := CodeRoutes.language b;
               Code.code := CodeRoutes.codeContent b;
               Code.analysis := None;
               Code.feedback := Code.feedback c;
               Code.status := Code.submitted;
               Code.tags :=
                 JS.or_array (option_map (map JS.trim) (CodeRoutes.tags b))
                   (Code.tags c);
               Code.createdAt := Code.createdAt c;
               Code.updatedAt := now |}
    /\ Code.findById id (codes db') = Some c'.
Proof.
  unfold CodeRoutes.put_id.
  destruct (CodeRoutes.validateCode b); [|discriminate].
  destruct (Code.findById id (codes db)) as [c|] eqn:Hfind; [|discriminate].
  destruct (N.eqb (Code.user c) (User._id actor)) eqn:Howner;
    cbn [negb]; [|discriminate].
  unfold Code.save.
  destruct (Code.validContent _); [|discriminate].
  intros H. inversion H; subst; clear H.
  exists c. split; [reflexivity|]. split; [now apply N.eqb_eq|].
  split; [reflexivity|]. cbn [codes].
  apply findById_id in Hfind as Hcid.
  rewrite <- Hcid in Hfind |- *.
  match goal with
  | |- Code.findById _ (Code.replace ?d _) = _ =>
      exact (findById_replace d (codes db) c Hfind)
  end.
Qed.

(** C4: after a successful edit by the owner, whatever the status was, the
    stored submission has the status [submitted] and no analysis, and its
    feedback is the feedback it had before. *)
Theorem put_id_resets_status_keeps_feedback db actor id b now c c' db' :
  Code.findById id (codes db) = Some c ->
  CodeRoutes.put_id db actor id b now = (res_json (SuccessCode c'), db') ->
  Code.user c = User._id actor
  /\ Code.findById id (codes db') = Some c'
  /\ Code.status c' = Code.submitted
  /\ Code.analysis c' = None
  /\ Code.feedback c' = Code.feedback c.
Proof.
  intros Hfind Hput.
  apply put_id_success in Hput as (c0 & Hfind0 & Howner & -> & Hstored).
  assert (c0 = c) as -> by congruence.
  repeat split; trivial.
Qed.

Lemma put_id_resets_status_keeps_feedback_witness :
  exists c',
    Code.findById 10
      (codes (snd (CodeRoutes.put_id Sample.db Sample.alice 10
                     {| CodeRoutes.title := "Fibonacci, iterative";
                        CodeRoutes.description := None;
                        CodeRoutes.language := "python";
                        CodeRoutes.codeContent := "def fib(n): return n";
                        CodeRoutes.tags := None |} 70)))
    = Some c'
    /\ Code.status Sample.fib = Code.graded
    /\ Code.status c' = Code.submitted
    /\ Code.analysis c' = None
    /\ Code.feedback c' = Code.feedback Sample.fib.
Proof.
  eexists.
  destruct (put_id_resets_status_keeps_feedback Sample.db Sample.alice 10%N
              {| CodeRoutes.title := "Fibonacci, iterative";
                 CodeRoutes.description := None;
                 CodeRoutes.language := "python";
                 CodeRoutes.codeContent := "def fib(n): return n";
                 CodeRoutes.tags := None |} 70%Z Sample.fib _ _
              eq_refl eq_refl) as (_ & H1 & H2 & H3 & H4).
  split; [exact H1|]. split; [reflexivity|].
  split; [exact H2|]. split; [exact H3 | exact H4].
Defined.

(** C10, as stated, fails for the tags: alice's submission is tagged
    [recursion]; she updates it with an empty list of tags, and the stored
    tags are empty. *)
Lemma put_id_never_clears_tags_counterexample :
  ~ (forall db actor id b now c c' db',
        Code.findById id (codes db) = Some c ->
        CodeRoutes.put_id db actor id b now = (res_json (SuccessCode c'), db') ->
        CodeRoutes.tags b = None \/ CodeRoutes.tags b = Some [] ->
        Code.tags c' = Code.tags c).
Proof.
  intros H.
  specialize (H Sample.db Sample.alice 10%N
                {| CodeRoutes.title := "Fibonacci";
                   CodeRoutes.description := Some "";
                   CodeRoutes.language := "javascript";
                   CodeRoutes.codeContent := "function fibonacci(n) { return n; }";
                   CodeRoutes.tags := Some [] |}
                70%Z Sample.fib _ _ eq_refl eq_refl).
  specialize (H ltac:(right; reflexivity)).
  discriminate H.
Qed.

(** C10, amended: after a successful update by the owner the stored title
    (trimmed), language and code are the supplied ones; an absent or empty
    description keeps the stored description, and absent tags keep the
    stored tags; supplied tags, each trimmed, replace the stored ones, also
    when the supplied list is empty. *)
Theorem put_id_field_assignment db actor id b now c c' db' :
  Code.findById id (codes db) = Some c ->
  CodeRoutes.put_id db actor id b now = (res_json (SuccessCode c'), db') ->
  Code.findById id (codes db') = Some c'
  /\ Code.title c' = JS.trim (CodeRoutes.title b)
  /\ Code.language c' = CodeRoutes.language b
  /\ Code.code c' = CodeRoutes.codeContent b
  /\ (CodeRoutes.description b = None \/ CodeRoutes.description b = Some "" ->
      Code.description c' = Code.description c)
  /\ (forall s, CodeRoutes.description b = Some s -> s <> "" ->
                Code.description c' = Some s)
  /\ (CodeRoutes.tags b = None -> Code.tags c' = Code.tags c)
  /\ (forall l, CodeRoutes.tags b = Some l -> Code.tags c' = map JS.trim l).
Proof.
  intros Hfind Hput.
  apply put_id_success in Hput as (c0 & Hfind0 & Howner & -> & Hstored).
  assert (c0 = c) as -> by congruence.
  cbn [Code.title Code.language Code.code Code.description Code.tags].
  split; [exact Hstored|]. split; [apply trim_idempotent|].
  split; [reflexivity|]. split; [reflexivity|].
  split; [|split; [|split]].
  - intros [-> | ->]; reflexivity.
  - intros s -> Hs. unfold JS.or_string, JS.truthy_string.
    destruct (String.eqb_spec s ""); [contradiction | reflexivity].
  - intros ->. reflexivity.
  - intros l ->. reflexivity.
Qed.

Lemma put_id_field_assignment_witness :
  exists c',
    Code.findById 10
      (codes (snd (CodeRoutes.put_id Sample.db Sample.alice 10
                     {| CodeRoutes.title := " Fibonacci, iterative ";
                        CodeRoutes.description := Some "";
                        CodeRoutes.language := "python";
                        CodeRoutes.codeContent := "def fib(n): return n";
                        CodeRoutes.tags := None |} 70)))
    = Some c'
    /\ Code.title c' = "Fibonacci, iterative"
    /\ Code.language c' = "python"
    /\ Code.code c' = "def fib(n): return n"
    /\ Code.description c' = Some "Recursive version"
    /\ Code.tags c' = ["recursion"].
Proof.
  eexists.
  destruct (put_id_field_assignment Sample.db Sample.alice 10%N
              {| CodeRoutes.title := " Fibonacci, iterative ";
                 CodeRoutes.description := Some "";
                 CodeRoutes.language := "python";
                 CodeRoutes.codeContent := "def fib(n): return n";
                 CodeRoutes.tags := None |} 70%Z Sample.fib _ _
              eq_refl eq_refl) as (H1 & H2 & H3 & H4 & H5 & _ & H6 & _).
  split; [exact H1|]. split; [exact H2|]. split; [exact H3|].
  split; [exact H4|]. split; [apply H5; right; reflexivity|].
  apply H6. reflexivity.
Defined.

(** The owner's update goes through when the body passes [validateCode] and
    the trimmed title and the resulting description fit the schema. *)
Lemma put_id_succeeds db actor id b now c :
  CodeRoutes.validateCode b = [] ->
  Code.findById id (codes db) = Some c ->
  Code.user c = User._id actor ->
  (JS.strlen (JS.trim (CodeRoutes.title b)) <= 100)%Z ->
  match JS.or_string (CodeRoutes.description b) (Code.description c) with
  | Some s => (JS.strlen s <= 500)%Z
  | None => True
  end ->
  exists c' db',
    CodeRoutes.put_id db actor id b now = (res_json (SuccessCode c'), db').
Proof.
  intros Hvalid Hfind Howner Htitle Hdesc.
  unfold CodeRoutes.put_id.
  rewrite Hvalid, Hfind, Howner, N.eqb_refl. cbn [negb].
  unfold Code.save.
  match goal with
  | |- context [Code.validContent ?d] =>
      assert (Code.validContent d = true) as ->; [|eauto]
  end.
  unfold CodeRoutes.validateCode in Hvalid.
  destruct (JS.truthy_string (JS.trim (CodeRoutes.title b))) eqn:Ht;
    [|discriminate].
  destruct (JS.truthy_string (CodeRoutes.codeContent b)) eqn:Hc;
    [|discriminate].
  destruct (Code.isLanguage (CodeRoutes.language b)) eqn:Hl; [|discriminate].
  unfold Code.validContent.
  cbn [Code.title Code.description Code.language Code.code].
  rewrite trim_idempotent, Ht, Hl, Hc.
  apply Z.leb_le in Htitle. rewrite Htitle.
  destruct (JS.or_string _ _); [|reflexivity].
  apply Z.leb_le in Hdesc. now rewrite Hdesc.
Qed.

(** C5: on an existing submission, reading and deleting are allowed (200)
    exactly to the owner and to teachers and denied (403) to everyone else.
    Updating is allowed to the owner alone: whoever is not the owner, a
    teacher included, never gets 200 and leaves the database as it was, and
    is denied (403) as soon as the body passes validation; the owner is
    never denied, and the owner's update with a body that passes validation
    and fits the schema is carried out (200) and stored.  (Reading looks up
    the owner's user record, which is there as long as users are deleted
    through [DELETE /users/:userId].) *)
Theorem submission_access_policy db actor id c :
  Code.findById id (codes db) = Some c ->
  let allowed :=
    User._id actor = Code.user c \/ User.role actor = User.teacher in
  (forall owner,
     User.findById (Code.user c) (users db) = Some owner ->
     (allowed -> CodeRoutes.get_id db actor id = (res_json (SuccessCode c), db))
     /\ (~ allowed ->
         CodeRoutes.get_id db actor id
         = (res_status 403 (ErrorMsg "Not authorized"), db)))
  /\ (allowed ->
      CodeRoutes.delete_id db actor id
      = (res_json (SuccessMessage "Code deleted successfully"),
         {| users := users db; codes := Code.deleteOne c (codes db) |}))
  /\ (~ allowed ->
      CodeRoutes.delete_id db actor id
      = (res_status 403 (ErrorMsg "Not authorized"), db))
  /\ (forall b now,
        (User._id actor <> Code.user c ->
         statusCode (fst (CodeRoutes.put_id db actor id b now)) <> 200%Z
         /\ snd (CodeRoutes.put_id db actor id b now) = db
         /\ (CodeRoutes.validateCode b = [] ->
             CodeRoutes.put_id db actor id b now
             = (res_status 403 (ErrorMsg "Not authorized"), db)))
        /\ (User._id actor = Code.user c ->
            statusCode (fst (CodeRoutes.put_id db actor id b now)) <> 403%Z
            /\ (CodeRoutes.validateCode b = [] ->
                (JS.strlen (JS.trim (CodeRoutes.title b)) <= 100)%Z ->
                match
                  JS.or_string (CodeRoutes.description b) (Code.description c)
                with
                | Some s => (JS.strlen s <= 500)%Z
                | None => True
                end ->
                exists c' db',
                  CodeRoutes.put_id db actor id b now
                  = (res_json (SuccessCode c'), db')
                  /\ Code.findById id (codes db') = Some c'
                  /\ Code.title c' = JS.trim (CodeRoutes.title b)
                  /\ Code.language c' = CodeRoutes.language b
                  /\ Code.code c' = CodeRoutes.codeContent b))).
Proof.
  intros Hfind allowed. subst allowed.
  split; [|split; [|split]].
  - intros owner Howner.
    unfold CodeRoutes.get_id. rewrite Hfind, Howner.
    apply userFindById_id in Howner as [-> _].
    destruct (N.eqb_spec (Code.user c) (User._id actor)) as [Ho|Ho];
      destruct (User.role actor); cbn [negb andb User.Role_eqb];
      split; intros H; try reflexivity;
      solve [ exfalso; apply H; auto | destruct H; congruence ].
  - intros H. unfold CodeRoutes.delete_id. rewrite Hfind.
    destruct (N.eqb_spec (Code.user c) (User._id actor)) as [Ho|Ho];
      destruct (User.role actor) eqn:Hr; cbn [negb andb User.Role_eqb];
      try reflexivity.
    destruct H; congruence.
  - intros H. unfold CodeRoutes.delete_id. rewrite Hfind.
    destruct (N.eqb_spec (Code.user c) (User._id actor)) as [Ho|Ho];
      destruct (User.role actor) eqn:Hr; cbn [negb andb User.Role_eqb];
      try reflexivity; exfalso; apply H; auto.
  - intros b now. split.
    + intros Hne. unfold CodeRoutes.put_id. rewrite Hfind.
      destruct (N.eqb_spec (Code.user c) (User._id actor)) as [Ho|Ho];
        [congruence|]. cbn [negb].
      destruct (CodeRoutes.validateCode b); cbn [fst snd statusCode res_status];
        (split; [discriminate|]); (split; [reflexivity|]);
        intros; [reflexivity | discriminate].
    + intros Heq. split.
      * unfold CodeRoutes.put_id. rewrite Hfind, <- Heq, N.eqb_refl.
        cbn [negb].
        destruct (CodeRoutes.validateCode b);
          [destruct (Code.save _ _ _ _) as [[? ?]|]|]; simpl; discriminate.
      * intros Hvalid Htitle Hdesc.
        destruct (put_id_succeeds db actor id b now c Hvalid Hfind
                    (eq_sym Heq) Htitle Hdesc) as (c' & db' & Hput).
        exists c', db'. split; [exact Hput|].
        apply put_id_success in Hput as (c0 & _ & _ & -> & Hstored).
        split; [exact Hstored|].
        cbn [Code.title Code.language Code.code].
        split; [apply trim_idempotent|]. split; reflexivity.
Qed.

Lemma submission_access_policy_witness :
  CodeRoutes.get_id Sample.db Sample.admin 10
  = (res_json (SuccessCode Sample.fib), Sample.db)
  /\ CodeRoutes.get_id Sample.db Sample.bob 10
     = (res_status 403 (ErrorMsg "Not authorized"), Sample.db)
  /\ CodeRoutes.delete_id Sample.db Sample.bob 10
     = (res_status 403 (ErrorMsg "Not authorized"), Sample.db)
  /\ CodeRoutes.put_id Sample.db Sample.admin 10
       {| CodeRoutes.title := "Fibonacci";
          CodeRoutes.description := None;
          CodeRoutes.language := "javascript";
          CodeRoutes.codeContent := "return 0;";
          CodeRoutes.tags := None |} 70
     = (res_status 403 (ErrorMsg "Not authorized"), Sample.db)
  /\ (exists c' db',
        CodeRoutes.put_id Sample.db Sample.alice 10
          {| CodeRoutes.title := "Fibonacci";
             CodeRoutes.description := None;
             CodeRoutes.language := "javascript";
             CodeRoutes.codeContent := "return 0;";
             CodeRoutes.tags := None |} 70
        = (res_json (SuccessCode c'), db')
        /\ Code.findById 10 (codes db') = Some c'
        /\ Code.code c' = "return 0;").
Proof.
  destruct (submission_access_policy Sample.db Sample.admin 10%N Sample.fib
              eq_refl) as (Hget & _ & _ & Hput).
  destruct (submission_access_policy Sample.db Sample.bob 10%N Sample.fib
              eq_refl) as (Hget' & _ & Hdel' & _).
  destruct (submission_access_policy Sample.db Sample.alice 10%N Sample.fib
              eq_refl) as (_ & _ & _ & Hput').
  split; [apply (Hget Sample.alice eq_refl); right; reflexivity|].
  split; [apply (Hget' Sample.alice eq_refl); intros [H|H]; discriminate H|].
  split; [apply Hdel'; intros [H|H]; discriminate H|].
  split; [apply Hput; [discriminate | reflexivity]|].
  destruct (Hput' {| CodeRoutes.title := "Fibonacci";
                     CodeRoutes.description := None;
                     CodeRoutes.language := "javascript";
                     CodeRoutes.codeContent := "return 0;";
                     CodeRoutes.tags := None |} 70%Z) as [_ Hown].
  destruct (Hown eq_refl) as [_ Hok].
  destruct (Hok eq_refl ltac:(vm_compute; discriminate)
              ltac:(vm_compute; discriminate))
    as (c' & db' & Hres & Hstored & _ & _ & Hcode).
  exists c', db'. repeat split; assumption.
Defined.

(** ** The student listing *)

(** C9, as stated, fails past the last page: page 5 of size 5 over the
    fifteen students of the classroom holds no student, while
    [min(limit, total - (p - 1) * limit)] is -5. *)
Lemma get_students_page_size_counterexample :
  ~ (forall regex_i sortOther db actor q students totalPages total,
       let p := match AdminRoutes.page q with Some p => p | None => 1%Z end in
       let l :=
         match AdminRoutes.limit q with Some l => l | None => 10%Z end in
       User.role actor = User.teacher ->
       (1 <= p)%Z ->
       (1 <= l)%Z ->
       AdminRoutes.get_students regex_i sortOther db actor q
       = (res_json (SuccessStudents students totalPages p total), db) ->
       Z.of_nat (List.length students) = Z.min l (total - (p - 1) * l)).
Proof.
  intros H.
  specialize (H Sample.regex_i Sample.sortOther Sample.classroom Sample.admin
                {| AdminRoutes.page := Some 5; AdminRoutes.limit := Some 5;
                   AdminRoutes.search := None; AdminRoutes.sortBy := None |}
                [] (Some 3%Z) 15%Z eq_refl ltac:(cbn; lia) ltac:(cbn; lia)
                eq_refl).
  discriminate H.
Qed.

(** C9, amended: for a page number [p >= 1] and a page size [l >= 1] (the
    defaults are 1 and 10), a listing whose search is absent, empty or a
    pattern the server accepts and whose sort key the server accepts is
    answered with 200, with the total number of matching students, with
    [ceil(total / l)] pages, that is the least number of pages of size [l]
    that hold [total] students, and with
    [min(l, max(0, total - (p - 1) * l))] students on the page; a listing
    whose pattern or sort key the server refuses is answered with 500. *)
Theorem get_students_pagination regex_i sortOther db actor q :
  let p := match AdminRoutes.page q with Some p => p | None => 1%Z end in
  let l := match AdminRoutes.limit q with Some l => l | None => 10%Z end in
  let sortBy :=
    match AdminRoutes.sortBy q with Some k => k | None => "lastActive" end in
  User.role actor = User.teacher ->
  (1 <= p)%Z ->
  (1 <= l)%Z ->
  (forall matches order,
     AdminRoutes.searchFilter regex_i (AdminRoutes.search q) = Some matches ->
     AdminRoutes.compareBy sortOther sortBy = Some order ->
     let total :=
       User.countDocuments (AdminRoutes.studentsQuery matches) (users db) in
     exists students totalPages,
       AdminRoutes.get_students regex_i sortOther db actor q
       = (res_json (SuccessStudents students (Some totalPages) p total), db)
       /\ Z.of_nat (List.length students)
          = Z.min l (Z.max 0 (total - (p - 1) * l))
       /\ totalPages = JS.ceil_div total l
       /\ ((totalPages - 1) * l < total <= totalPages * l)%Z)
  /\ (AdminRoutes.searchFilter regex_i (AdminRoutes.search q) = None
      \/ AdminRoutes.compareBy sortOther sortBy = None ->
      AdminRoutes.get_students regex_i sortOther db actor q
      = (res_status 500 (ErrorMsg "Server error"), db)).
Proof.
  intros p l sortBy Hrole Hp Hl. split.
  - intros matches order Hsearch Horder total.
    unfold AdminRoutes.get_students.
    rewrite (gate_teacher _ _ _ Hrole).
    cbv zeta. fold p l sortBy. rewrite Hsearch, Horder. fold total.
    clearbody p l. unfold Query.skip.
    assert (Hk : (0 <= (p - 1) * l)%Z) by nia.
    destruct (Z.ltb_spec ((p - 1) * l) 0) as [Hneg|_]; [lia|].
    destruct (Z.eqb_spec l 0) as [Hz|_]; [lia|].
    eexists. eexists. split; [reflexivity|].
    split; [|split; [reflexivity | apply ceil_div_spec; lia]].
    rewrite !length_map. unfold Query.limit.
    destruct (Z.eqb_spec (l * 1) 0) as [Hz|_]; [lia|].
    rewrite length_firstn, length_skipn, sortDesc_length.
    subst total. unfold User.countDocuments.
    set (n := List.length _).
    generalize dependent ((p - 1) * l)%Z. intros k Hk. lia.
  - intros Hrefused.
    unfold AdminRoutes.get_students.
    rewrite (gate_teacher _ _ _ Hrole).
    cbv zeta. fold sortBy.
    destruct Hrefused as [-> | ->]; [reflexivity|].
    destruct (AdminRoutes.searchFilter _ _); reflexivity.
Qed.

(** Page 1 of size 5 over the fifteen students of the classroom: five
    students, three pages; page 5: no student. *)
Lemma get_students_pagination_witness :
  (exists students,
     AdminRoutes.get_students Sample.regex_i Sample.sortOther
       Sample.classroom Sample.admin
       {| AdminRoutes.page := Some 1; AdminRoutes.limit := Some 5;
          AdminRoutes.search := None; AdminRoutes.sortBy := None |}
     = (res_json (SuccessStudents students (Some 3) 1 15), Sample.classroom)
     /\ List.length students = 5%nat)
  /\ AdminRoutes.get_students Sample.regex_i Sample.sortOther
       Sample.classroom Sample.admin
       {| AdminRoutes.page := Some 1; AdminRoutes.limit := Some 5;
          AdminRoutes.search := Some "("; AdminRoutes.sortBy := None |}
     = (res_status 500 (ErrorMsg "Server error"), Sample.classroom).
Proof.
  split.
  - destruct (get_students_pagination Sample.regex_i Sample.sortOther
                Sample.classroom Sample.admin
                {| AdminRoutes.page := Some 1; AdminRoutes.limit := Some 5;
                   AdminRoutes.search := None; AdminRoutes.sortBy := None |}
                eq_refl ltac:(cbn; lia) ltac:(cbn; lia)) as [Hpage _].
    destruct (Hpage _ _ eq_refl eq_refl)
      as (students & totalPages & Hres & Hlen & Hpages & _).
    exists students. split.
    + rewrite Hres, Hpages. reflexivity.
    + apply Nat2Z.inj. rewrite Hlen. reflexivity.
  - destruct (get_students_pagination Sample.regex_i Sample.sortOther
                Sample.classroom Sample.admin
                {| AdminRoutes.page := Some 1; AdminRoutes.limit := Some 5;
                   AdminRoutes.search := Some "(";
                   AdminRoutes.sortBy := None |}
                eq_refl ltac:(cbn; lia) ltac:(cbn; lia)) as [_ Hrefused].
    apply Hrefused. left. reflexivity.
Defined.

(** * Further properties *)

(** ** Sorting and paging *)

Lemma insertDesc_perm {A} (cmp : A -> A -> comparison) x l :
  Permutation (Query.insertDesc cmp x l) (x :: l).
Proof.
  induction l as [|y l IH]; simpl; [reflexivity|].
  destruct (cmp x y); try reflexivity.
  rewrite IH. apply perm_swap.
Qed.

Lemma sortDesc_perm {A} (cmp : A -> A -> comparison) l :
  Permutation (Query.sortDesc cmp l) l.
Proof.
  unfold Query.sortDesc.
  induction l as [|x l IH]; simpl; [reflexivity|].
  rewrite insertDesc_perm. now constructor.
Qed.

Lemma sortDesc_In {A} (cmp : A -> A -> comparison) l x :
  In x (Query.sortDesc cmp l) <-> In x l.
Proof.
  split; apply Permutation_in;
    [apply sortDesc_perm | symmetry; apply sortDesc_perm].
Qed.

Section SortedByKey.

Context {A : Type} (key : A -> Z).

(** Sorting on a key gives the descending order of the key. *)
Lemma insertDesc_sorted x l :
  StronglySorted (fun a b => (key b <= key a)%Z) l ->
  StronglySorted (fun a b => (key b <= key a)%Z)
    (Query.insertDesc (fun a b => Z.compare (key a) (key b)) x l).
Proof.
  induction l as [|y l IH]; simpl; intros Hs.
  - constructor; constructor.
  - apply StronglySorted_inv in Hs as [Hl Hy].
    destruct (Z.compare_spec (key x) (key y)) as [E|E|E].
    + constructor; [now constructor|].
      constructor; [lia|].
      eapply Forall_impl; [|exact Hy]. cbv beta. intros; lia.
    + constructor; [now apply IH|].
      apply Forall_forall. intros z Hz.
      apply (Permutation_in _ (insertDesc_perm _ x l)) in Hz.
      destruct Hz as [<-|Hz]; [lia|].
      rewrite Forall_forall in Hy. now apply Hy.
    + constructor; [now constructor|].
      constructor; [lia|].
      eapply Forall_impl; [|exact Hy]. cbv beta. intros; lia.
Qed.

Lemma sortDesc_sorted l :
  StronglySorted (fun a b => (key b <= key a)%Z)
    (Query.sortDesc (fun a b => Z.compare (key a) (key b)) l).
Proof.
  unfold Query.sortDesc.
  induction l as [|x l IH]; simpl; [constructor|].
  now apply insertDesc_sorted.
Qed.

End SortedByKey.

Lemma firstn_In {A} n (l : list A) x : In x (firstn n l) -> In x l.
Proof.
  intros H. rewrite <- (firstn_skipn n l). apply in_or_app. now left.
Qed.

Lemma skipn_In {A} n (l : list A) x : In x (skipn n l) -> In x l.
Proof.
  intros H. rewrite <- (firstn_skipn n l). apply in_or_app. now right.
Qed.

Lemma StronglySorted_skipn {A} (R : A -> A -> Prop) n l :
  StronglySorted R l -> StronglySorted R (skipn n l).
Proof.
  revert l. induction n as [|n IH]; intros l Hs; [exact Hs|].
  destruct l as [|x l]; [constructor|].
  apply StronglySorted_inv in Hs as [Hl _]. simpl. now apply IH.
Qed.

Lemma StronglySorted_firstn {A} (R : A -> A -> Prop) n l :
  StronglySorted R l -> StronglySorted R (firstn n l).
Proof.
  revert l. induction n as [|n IH]; intros l Hs; [constructor|].
  destruct l as [|x l]; [constructor|].
  apply StronglySorted_inv in Hs as [Hl Hx]. simpl.
  constructor; [now apply IH|].
  rewrite Forall_forall in *. intros y Hy. apply Hx.
  eapply firstn_In. exact Hy.
Qed.

Lemma limit_sorted {A} (R : A -> A -> Prop) n l :
  StronglySorted R l -> StronglySorted R (Query.limit n l).
Proof.
  unfold Query.limit. intros Hs.
  destruct (n =? 0)%Z; [exact Hs | now apply StronglySorted_firstn].
Qed.

Lemma limit_In {A} n (l : list A) x : In x (Query.limit n l) -> In x l.
Proof.
  unfold Query.limit. destruct (n =? 0)%Z; [trivial | apply firstn_In].
Qed.

Lemma skip_In {A} n (l l' : list A) x :
  Query.skip n l = Some l' -> In x l' -> In x l.
Proof.
  unfold Query.skip. destruct (n <? 0)%Z; [discriminate|].
  intros H. inversion H; subst. apply skipn_In.
Qed.

Lemma skip_sorted {A} (R : A -> A -> Prop) n l l' :
  Query.skip n l = Some l' -> StronglySorted R l -> StronglySorted R l'.
Proof.
  unfold Query.skip. destruct (n <? 0)%Z; [discriminate|].
  intros H. inversion H; subst. apply StronglySorted_skipn.
Qed.

(** The page [p] of size [l], for a page number and a page size that are at
    least 1: the skip is accepted, and the page holds [min(l, n - (p-1)*l)]
    of the [n] documents, the difference counted from zero. *)
Lemma page_length {A} (p l : Z) (xs : list A) :
  (1 <= p)%Z -> (1 <= l)%Z ->
  exists skipped,
    Query.skip ((p - 1) * l) xs = Some skipped
    /\ Z.of_nat (List.length (Query.limit (l * 1) skipped))
       = Z.min l (Z.max 0 (Z.of_nat (List.length xs) - (p - 1) * l)).
Proof.
  intros Hp Hl. unfold Query.skip, Query.limit.
  assert (Hk : (0 <= (p - 1) * l)%Z) by nia.
  destruct (Z.ltb_spec ((p - 1) * l) 0) as [Hneg|_]; [lia|].
  eexists. split; [reflexivity|].
  destruct (Z.eqb_spec (l * 1) 0) as [Hz|_]; [lia|].
  rewrite length_firstn, length_skipn.
  generalize dependent ((p - 1) * l)%Z. intros k Hk. lia.
Qed.

(** ** The owner's listing *)

Lemma filterBy_true value field v :
  filterBy value field = true -> value = Some v -> v <> "" -> field = v.
Proof.
  unfold filterBy, JS.truthy_string. intros H -> Hv.
  destruct (String.eqb_spec v ""); [contradiction|].
  now apply String.eqb_eq.
Qed.

(** X1: what [GET /] returns are stored submissions of the actor, never
    another user's, that have the requested language and the requested
    status and match the requested pattern on the title or the description,
    newest first; the total counts the submissions of the actor that
    match. *)
Theorem get_root_own_matching_newest_first regex_i db actor q body :
  CodeCollection.get_root regex_i db actor q = ReplyOk body ->
  exists matches,
    CodeCollection.searchFilter regex_i (CodeCollection.search q)
    = Some matches
    /\ (forall c, In c (Paged.items body) ->
          In c (codes db)
          /\ Code.user c = User._id actor
          /\ (forall l, CodeCollection.language q = Some l -> l <> "" ->
                        Code.language c = l)
          /\ (forall s, CodeCollection.status q = Some s -> s <> "" ->
                        statusName (Code.status c) = s)
          /\ (forall s, CodeCollection.search q = Some s -> s <> "" ->
                exists pattern,
                  regex_i s = Some pattern
                  /\ (pattern (Code.title c) = true
                      \/ exists d, Code.description c = Some d
                                   /\ pattern d = true)))
    /\ StronglySorted
         (fun a b => (Code.createdAt b <= Code.createdAt a)%Z)
         (Paged.items body)
    /\ Paged.total body
       = Z.of_nat
           (List.length
              (filter (CodeCollection.codesQuery matches (User._id actor) q)
                 (codes db))).
Proof.
  unfold CodeCollection.get_root.
  destruct (CodeCollection.searchFilter regex_i (CodeCollection.search q))
    as [matches|] eqn:Hfilter; [|discriminate].
  destruct (Query.skip _ _) as [skipped|] eqn:Hskip; [|discriminate].
  intros H. inversion H; subst; clear H. cbn [Paged.items Paged.total].
  exists matches. split; [reflexivity|].
  split; [|split; [|reflexivity]].
  - intros c Hc.
    apply limit_In in Hc. apply (skip_In _ _ _ _ Hskip) in Hc.
    apply sortDesc_In in Hc. apply filter_In in Hc as [Hin Hq].
    unfold CodeCollection.codesQuery in Hq.
    apply andb_true_iff in Hq as [Hq Hsearch].
    apply andb_true_iff in Hq as [Hq Hstatus].
    apply andb_true_iff in Hq as [Huser Hlang].
    apply N.eqb_eq in Huser.
    repeat split; trivial.
    + intros l. now apply filterBy_true.
    + intros s. now apply filterBy_true.
    + intros s Hs Hne. rewrite Hs in Hfilter.
      unfold CodeCollection.searchFilter, JS.truthy_string in Hfilter.
      destruct (String.eqb_spec s ""); [contradiction|].
      cbn [negb] in Hfilter.
      destruct (regex_i s) as [pattern|]; [|discriminate].
      injection Hfilter as <-. exists pattern. split; [reflexivity|].
      apply orb_true_iff in Hsearch as [Ht|Hd]; [now left | right].
      destruct (Code.description c) as [d|]; [eauto | discriminate].
  - apply limit_sorted. apply (skip_sorted _ _ _ _ Hskip).
    apply (sortDesc_sorted Code.createdAt).
Qed.

Lemma get_root_own_matching_newest_first_witness :
  CodeCollection.get_root Sample.regex_i Fixture.db Sample.alice
    {| CodeCollection.page := None; CodeCollection.limit := None;
       CodeCollection.language := Some "python";
       CodeCollection.status := Some "";
       CodeCollection.search := None |}
  = ReplyOk
      {| Paged.items := [Fixture.stack; Fixture.sorter];
         Paged.totalPages := Some 1; Paged.currentPage := 1;
         Paged.total := 2 |}
  /\ StronglySorted
       (fun a b => (Code.createdAt b <= Code.createdAt a)%Z)
       [Fixture.stack; Fixture.sorter].
Proof.
  split; [reflexivity|].
  destruct (get_root_own_matching_newest_first Sample.regex_i Fixture.db
              Sample.alice
              {| CodeCollection.page := None; CodeCollection.limit := None;
                 CodeCollection.language := Some "python";
                 CodeCollection.status := Some "";
                 CodeCollection.search := None |}
              {| Paged.items := [Fixture.stack; Fixture.sorter];
                 Paged.totalPages := Some 1; Paged.currentPage := 1;
                 Paged.total := 2 |}
              eq_refl) as (_ & _ & _ & Hsorted & _).
  exact Hsorted.
Defined.

(** X2: for a page number and a page size of at least 1 (the defaults are 1
    and 10), [GET /] with a search that is absent, empty or a pattern the
    server accepts answers with [min(limit, total - (page-1)*limit)]
    submissions, the difference counted from zero, and with
    [ceil(total / limit)] pages; with a pattern the server refuses it
    answers 500. *)
Theorem get_root_pagination regex_i db actor q :
  let p := match CodeCollection.page q with Some p => p | None => 1%Z end in
  let l := match CodeCollection.limit q with Some l => l | None => 10%Z end in
  (1 <= p)%Z ->
  (1 <= l)%Z ->
  (CodeCollection.searchFilter regex_i (CodeCollection.search q) <> None ->
   exists body,
     CodeCollection.get_root regex_i db actor q = ReplyOk body
     /\ Z.of_nat (List.length (Paged.items body))
        = Z.min l (Z.max 0 (Paged.total body - (p - 1) * l))
     /\ Paged.totalPages body = Some (JS.ceil_div (Paged.total body) l)
     /\ ((JS.ceil_div (Paged.total body) l - 1) * l
         < Paged.total body
         <= JS.ceil_div (Paged.total body) l * l)%Z
     /\ Paged.currentPage body = p)
  /\ (CodeCollection.searchFilter regex_i (CodeCollection.search q) = None ->
      CodeCollection.get_root regex_i db actor q
      = ReplyError 500 "Server error").
Proof.
  intros p l Hp Hl.
  unfold CodeCollection.get_root. cbv zeta. fold p l. clearbody p l.
  destruct (CodeCollection.searchFilter regex_i (CodeCollection.search q))
    as [matches|]; (split; [|intros H; (discriminate H || reflexivity)]);
    intros Hsearch; [|contradiction].
  destruct (page_length p l
              (Query.sortDesc byCreatedAt
                 (filter (CodeCollection.codesQuery matches (User._id actor) q)
                    (codes db))) Hp Hl)
    as (skipped & Hskip & Hlen).
  rewrite Hskip. eexists. split; [reflexivity|].
  cbn [Paged.items Paged.total Paged.totalPages Paged.currentPage].
  rewrite sortDesc_length in Hlen.
  destruct (Z.eqb_spec l 0) as [Hz|_]; [lia|].
  repeat split; trivial; apply ceil_div_spec; lia.
Qed.

Lemma get_root_pagination_witness :
  (exists body,
     CodeCollection.get_root Sample.regex_i Fixture.db Sample.alice
       {| CodeCollection.page := Some 2; CodeCollection.limit := Some 3;
          CodeCollection.language := None; CodeCollection.status := None;
          CodeCollection.search := None |}
     = ReplyOk body
     /\ List.length (Paged.items body) = 1%nat
     /\ Paged.total body = 4%Z
     /\ Paged.totalPages body = Some 2%Z)
  /\ CodeCollection.get_root Sample.regex_i Fixture.db Sample.alice
       {| CodeCollection.page := Some 2; CodeCollection.limit := Some 3;
          CodeCollection.language := None; CodeCollection.status := None;
          CodeCollection.search := Some "(" |}
     = ReplyError 500 "Server error".
Proof.
  split.
  - destruct (get_root_pagination Sample.regex_i Fixture.db Sample.alice
                {| CodeCollection.page := Some 2;
                   CodeCollection.limit := Some 3;
                   CodeCollection.language := None;
                   CodeCollection.status := None;
                   CodeCollection.search := None |}
                ltac:(cbn; lia) ltac:(cbn; lia)) as [Hpage _].
    destruct (Hpage ltac:(discriminate))
      as (body & Hres & Hlen & Hpages & _ & _).
    exists body. split; [exact Hres|].
    assert (Htotal : Paged.total body = 4%Z).
    { vm_compute in Hres. inversion Hres. reflexivity. }
    rewrite Htotal in Hlen, Hpages.
    split; [apply Nat2Z.inj; rewrite Hlen; reflexivity|].
    split; [exact Htotal | exact Hpages].
  - destruct (get_root_pagination Sample.regex_i Fixture.db Sample.alice
                {| CodeCollection.page := Some 2;
                   CodeCollection.limit := Some 3;
                   CodeCollection.language := None;
                   CodeCollection.status := None;
                   CodeCollection.search := Some "(" |}
                ltac:(cbn; lia) ltac:(cbn; lia)) as [_ Hrefused].
    apply Hrefused. reflexivity.
Defined.

(** ** Creating and deleting submissions *)

Lemma findById_app id coll c :
  Code.findById id (coll ++ [c])
  = match Code.findById id coll with
    | Some x => Some x
    | None => if N.eqb (Code._id c) id then Some c else None
    end.
Proof.
  unfold Code.findById.
  induction coll as [|x coll IH]; simpl; [reflexivity|].
  destruct (N.eqb (Code._id x) id); [reflexivity | exact IH].
Qed.

Lemma findById_deleteOne d coll :
  Code.findById (Code._id d) (Code.deleteOne d coll) = None.
Proof.
  unfold Code.findById, Code.deleteOne.
  induction coll as [|x coll IH]; simpl; [reflexivity|].
  destruct (N.eqb (Code._id x) (Code._id d)) eqn:E; simpl; [exact IH|].
  now rewrite E.
Qed.

Lemma findById_deleteOne_other d coll id :
  id <> Code._id d ->
  Code.findById id (Code.deleteOne d coll) = Code.findById id coll.
Proof.
  unfold Code.findById, Code.deleteOne. intros Hid.
  induction coll as [|x coll IH]; simpl; [reflexivity|].
  destruct (N.eqb_spec (Code._id x) (Code._id d)) as [E|E]; simpl.
  - destruct (N.eqb_spec (Code._id x) id); [congruence | exact IH].
  - destruct (N.eqb (Code._id x) id); [reflexivity | exact IH].
Qed.

(** X3: a body that passes the validation chains, with a trimmed title of
    at most 100 and a description of at most 500 characters, is answered 201;
    the new submission is added after the stored ones, belongs to the actor,
    is [submitted] and has neither analysis nor feedback; the users are left
    as they were. *)
Theorem post_root_creates_submitted_for_actor db actor b newId now :
  CodeRoutes.validateCode b = [] ->
  (JS.strlen (JS.trim (CodeRoutes.title b)) <= 100)%Z ->
  match CodeRoutes.description b with
  | Some s => (JS.strlen s <= 500)%Z
  | None => True
  end ->
  exists c,
    CodeCollection.post_root db actor b newId now
    = (res_status 201 (SuccessCode c),
       {| users := users db; codes := (codes db ++ [c])%list |})
    /\ Code._id c = newId
    /\ Code.user c = User._id actor
    /\ Code.status c = Code.submitted
    /\ Code.analysis c = None
    /\ Code.feedback c = None
    /\ Code.title c = JS.trim (CodeRoutes.title b)
    /\ Code.description c = CodeRoutes.description b
    /\ Code.language c = CodeRoutes.language b
    /\ Code.code c = CodeRoutes.codeContent b
    /\ Code.createdAt c = now.
Proof.
  intros Hvalid Htitle Hdesc.
  unfold CodeCollection.post_root, CodeCollection.create.
  rewrite Hvalid.
  match goal with
  | |- context [Code.validContent ?d] =>
      assert (Code.validContent d = true) as ->
  end.
  { unfold CodeRoutes.validateCode in Hvalid.
    destruct (JS.truthy_string (JS.trim (CodeRoutes.title b))) eqn:Ht;
      [|discriminate].
    destruct (JS.truthy_string (CodeRoutes.codeContent b)) eqn:Hc;
      [|discriminate].
    destruct (Code.isLanguage (CodeRoutes.language b)) eqn:Hl; [|discriminate].
    unfold Code.validContent.
    cbn [Code.title Code.description Code.language Code.code].
    rewrite trim_idempotent, Ht, Hl, Hc.
    apply Z.leb_le in Htitle. rewrite Htitle.
    destruct (CodeRoutes.description b); [|reflexivity].
    apply Z.leb_le in Hdesc. now rewrite Hdesc. }
  eexists. split; [reflexivity|].
  cbn [Code._id Code.user Code.status Code.analysis Code.feedback Code.title
       Code.description Code.language Code.code Code.createdAt].
  repeat split. apply trim_idempotent.
Qed.

Lemma post_root_creates_submitted_for_actor_witness :
  exists c,
    CodeCollection.post_root Sample.db Sample.bob Fixture.newBody 15 70
    = (res_status 201 (SuccessCode c),
       {| users := users Sample.db; codes := (codes Sample.db ++ [c])%list |})
    /\ Code.user c = 3%N
    /\ Code.status c = Code.submitted
    /\ Code.title c = "Binary search".
Proof.
  destruct (post_root_creates_submitted_for_actor Sample.db Sample.bob
              Fixture.newBody 15%N 70%Z eq_refl
              ltac:(vm_compute; discriminate) I)
    as (c & H & _ & Hu & Hs & _ & _ & Ht & _).
  exists c. repeat split; trivial.
Defined.

(** X4: the error list of [validateCode] names exactly the violated fields:
    the title when it is empty once trimmed, the code when it is empty, the
    language when it is not one of the five.  A body with a violation is
    answered 400 with that list by [POST /] and by [PUT /:id], and the
    database is left as it was. *)
Theorem validateCode_lists_violations db actor id b newId now :
  (In {| path := "title"; msg := "Title is required" |}
      (CodeRoutes.validateCode b)
   <-> JS.trim (CodeRoutes.title b) = "")
  /\ (In {| path := "code"; msg := "Code is required" |}
         (CodeRoutes.validateCode b)
      <-> CodeRoutes.codeContent b = "")
  /\ (In {| path := "language"; msg := "Invalid language" |}
         (CodeRoutes.validateCode b)
      <-> ~ In (CodeRoutes.language b) Code.languages)
  /\ (CodeRoutes.validateCode b <> [] ->
      CodeCollection.post_root db actor b newId now
      = (res_status 400 (Errors (CodeRoutes.validateCode b)), db)
      /\ CodeRoutes.put_id db actor id b now
         = (res_status 400 (Errors (CodeRoutes.validateCode b)), db)).
Proof.
  assert (Hlang : Code.isLanguage (CodeRoutes.language b) = false
                  <-> ~ In (CodeRoutes.language b) Code.languages).
  { rewrite <- not_true_iff_false. unfold Code.isLanguage.
    rewrite existsb_exists. split; intros H H'; apply H.
    - exists (CodeRoutes.language b). split; [exact H' | apply String.eqb_refl].
    - destruct H' as (x & Hx & E). apply String.eqb_eq in E. now subst. }
  assert (Hempty : forall s, JS.truthy_string s = false <-> s = "").
  { intros s. unfold JS.truthy_string. rewrite negb_false_iff.
    apply String.eqb_eq. }
  rewrite <- (Hempty (JS.trim (CodeRoutes.title b))).
  rewrite <- (Hempty (CodeRoutes.codeContent b)), <- Hlang.
  unfold CodeCollection.post_root, CodeRoutes.put_id, CodeRoutes.validateCode.
  destruct (JS.truthy_string (JS.trim (CodeRoutes.title b)));
    destruct (JS.truthy_string (CodeRoutes.codeContent b));
    destruct (Code.isLanguage (CodeRoutes.language b));
    cbn [app In];
    repeat split; intros; try reflexivity; try congruence;
    intuition congruence.
Qed.

Lemma validateCode_lists_violations_witness :
  CodeRoutes.validateCode Fixture.badBody
  = [{| path := "title"; msg := "Title is required" |};
     {| path := "code"; msg := "Code is required" |};
     {| path := "language"; msg := "Invalid language" |}]
  /\ CodeCollection.post_root Sample.db Sample.alice Fixture.badBody 15 70
     = (res_status 400 (Errors (CodeRoutes.validateCode Fixture.badBody)),
        Sample.db)
  /\ CodeRoutes.put_id Sample.db Sample.alice 10 Fixture.badBody 70
     = (res_status 400 (Errors (CodeRoutes.validateCode Fixture.badBody)),
        Sample.db).
Proof.
  split; [reflexivity|].
  apply (validateCode_lists_violations Sample.db Sample.alice 10%N
           Fixture.badBody 15%N 70%Z).
  discriminate.
Defined.

(** X5: a submission just created under a fresh id is what its owner reads
    back with [GET /:id], and every other id reads as before. *)
Theorem post_root_then_get_id db actor b newId now c db' u :
  CodeCollection.post_root db actor b newId now
  = (res_status 201 (SuccessCode c), db') ->
  Code.findById newId (codes db) = None ->
  User.findById (User._id actor) (users db) = Some u ->
  CodeRoutes.get_id db' actor newId = (res_json (SuccessCode c), db')
  /\ (forall id, id <> newId ->
        Code.findById id (codes db') = Code.findById id (codes db)).
Proof.
  unfold CodeCollection.post_root, CodeCollection.create.
  destruct (CodeRoutes.validateCode b); [|discriminate].
  destruct (Code.validContent _); [|discriminate].
  intros H Hfresh Hactor. inversion H; subst; clear H.
  split.
  - unfold CodeRoutes.get_id. cbn [codes users].
    rewrite findById_app, Hfresh. cbn [Code._id].
    rewrite N.eqb_refl. cbn [Code.user]. rewrite Hactor.
    apply userFindById_id in Hactor as [-> _].
    now rewrite N.eqb_refl.
  - intros id Hid. cbn [codes].
    rewrite findById_app. cbn [Code._id].
    destruct (Code.findById id (codes db)); [reflexivity|].
    destruct (N.eqb_spec newId id); [congruence | reflexivity].
Qed.

Lemma post_root_then_get_id_witness :
  exists c db',
    CodeCollection.post_root Sample.db Sample.bob Fixture.newBody 15 70
    = (res_status 201 (SuccessCode c), db')
    /\ CodeRoutes.get_id db' Sample.bob 15 = (res_json (SuccessCode c), db')
    /\ Code.findById 10 (codes db') = Some Sample.fib.
Proof.
  eexists. eexists. split; [reflexivity|].
  destruct (post_root_then_get_id Sample.db Sample.bob Fixture.newBody 15%N
              70%Z _ _ Sample.bob eq_refl eq_refl eq_refl) as [Hget Hother].
  split; [exact Hget|].
  rewrite Hother; [reflexivity | discriminate].
Defined.

(** X6: once [DELETE /:id] has answered 200 the submission is gone: reading
    it and deleting it again are answered 404; the users and the
    submissions under other ids are as before. *)
Theorem delete_id_then_not_found db actor id db' :
  CodeRoutes.delete_id db actor id
  = (res_json (SuccessMessage "Code deleted successfully"), db') ->
  CodeRoutes.get_id db' actor id
  = (res_status 404 (ErrorMsg "Code not found"), db')
  /\ CodeRoutes.delete_id db' actor id
     = (res_status 404 (ErrorMsg "Code not found"), db')
  /\ users db' = users db
  /\ (forall id', id' <> id ->
        Code.findById id' (codes db') = Code.findById id' (codes db)).
Proof.
  unfold CodeRoutes.delete_id at 1.
  destruct (Code.findById id (codes db)) as [c|] eqn:Hfind; [|discriminate].
  destruct (_ && _)%bool; [discriminate|].
  intros H. inversion H; subst; clear H.
  apply findById_id in Hfind as Hid.
  assert (Hgone : Code.findById id (Code.deleteOne c (codes db)) = None).
  { rewrite <- Hid. apply findById_deleteOne. }
  unfold CodeRoutes.get_id, CodeRoutes.delete_id. cbn [codes users].
  rewrite Hgone. repeat split.
  intros id' Hne. apply findById_deleteOne_other. congruence.
Qed.

Lemma delete_id_then_not_found_witness :
  CodeRoutes.get_id
    (snd (CodeRoutes.delete_id Sample.db Sample.admin 10)) Sample.alice 10
  = (res_status 404 (ErrorMsg "Code not found"),
     snd (CodeRoutes.delete_id Sample.db Sample.admin 10))
  /\ Code.findById 11 (codes (snd (CodeRoutes.delete_id Sample.db Sample.admin 10)))
     = Some Sample.hello.
Proof.
  assert (H : CodeRoutes.delete_id Sample.db Sample.admin 10
              = (res_json (SuccessMessage "Code deleted successfully"),
                 snd (CodeRoutes.delete_id Sample.db Sample.admin 10)))
    by reflexivity.
  split.
  - destruct (delete_id_then_not_found Sample.db Sample.alice 10%N _
                eq_refl) as (Hget & _).
    exact Hget.
  - destruct (delete_id_then_not_found Sample.db Sample.admin 10%N _ H)
      as (_ & _ & _ & Hother).
    rewrite Hother; [reflexivity | discriminate].
Defined.

(** X7: the AI service is asked only on behalf of the owner: for a
    submission that does not exist or that the actor does not own, a teacher
    included, the answer is 404 or 403 whatever the service would say, and
    nothing is written. *)
Theorem analyze_asks_service_only_for_owner ollama ollama' db actor id now :
  (forall c, Code.findById id (codes db) = Some c ->
             Code.user c <> User._id actor) ->
  CodeRoutes.post_id_analyze ollama db actor id now
  = CodeRoutes.post_id_analyze ollama' db actor id now
  /\ snd (CodeRoutes.post_id_analyze ollama db actor id now) = db
  /\ (statusCode (fst (CodeRoutes.post_id_analyze ollama db actor id now))
      = 404%Z
      \/ statusCode (fst (CodeRoutes.post_id_analyze ollama db actor id now))
         = 403%Z).
Proof.
  intros Hnot. unfold CodeRoutes.post_id_analyze.
  destruct (Code.findById id (codes db)) as [c|]; [|simpl; auto].
  specialize (Hnot c eq_refl).
  destruct (N.eqb_spec (Code.user c) (User._id actor)); [contradiction|].
  simpl. auto.
Qed.

Lemma analyze_asks_service_only_for_owner_witness :
  CodeRoutes.post_id_analyze Sample.ollamaUp Sample.db Sample.admin 10 70
  = (res_status 403 (ErrorMsg "Not authorized"), Sample.db)
  /\ CodeRoutes.post_id_analyze Sample.ollamaUp Sample.db Sample.admin 10 70
     = CodeRoutes.post_id_analyze Sample.ollamaDown Sample.db Sample.admin 10 70.
Proof.
  split; [reflexivity|].
  apply (analyze_asks_service_only_for_owner Sample.ollamaUp Sample.ollamaDown
           Sample.db Sample.admin 10%N 70%Z).
  intros c H. inversion H. discriminate.
Defined.

(** ** Accounts *)

Lemma userFindOne_app q coll u :
  User.findOne q (coll ++ [u])
  = match User.findOne q coll with
    | Some x => Some x
    | None => if q u then Some u else None
    end.
Proof.
  unfold User.findOne.
  induction coll as [|x coll IH]; simpl; [reflexivity|].
  destruct (q x); [reflexivity | exact IH].
Qed.

(** What [POST /users] does when the body is valid and no stored user has
    the email or the name. *)
Lemma post_users_created isEmail normalizeEmail hashPassword db actor b newId now :
  User.role actor = User.teacher ->
  AdminRoutes.userErrors isEmail b = [] ->
  User.findOne
    (fun v => (User.email v =? normalizeEmail (AdminRoutes.email b))
              || (User.username v =? JS.trim (AdminRoutes.username b)))%bool
    (users db) = None ->
  AdminRoutes.post_users isEmail normalizeEmail hashPassword db actor b newId now
  = (res_status 201
       (SuccessUser newId (JS.trim (AdminRoutes.username b))
          (normalizeEmail (AdminRoutes.email b)) User.student),
     {| users :=
          (users db
           ++ [{| User._id := newId;
                  User.username := JS.trim (AdminRoutes.username b);
                  User.email := normalizeEmail (AdminRoutes.email b);
                  User.password := hashPassword (AdminRoutes.password b);
                  User.role := User.student;
                  User.lastActive := now |}])%list;
        codes := codes db |}).
Proof.
  intros Hrole Hvalid Hnone. unfold AdminRoutes.post_users.
  now rewrite (gate_teacher _ _ _ Hrole), Hvalid, Hnone.
Qed.

(** X9: when no stored user has the requested email or the requested name,
    a teacher's [POST /users] with a valid body is answered 201 and stores
    one more user, a student whose password is stored hashed; the
    submissions are left as they were.  Sending the same body again is then
    answered 400, the email being taken, and stores nothing. *)
Theorem post_users_creates_student_once
    isEmail normalizeEmail hashPassword db actor b newId now newId' now' :
  User.role actor = User.teacher ->
  AdminRoutes.userErrors isEmail b = [] ->
  (forall v, In v (users db) ->
     User.email v <> normalizeEmail (AdminRoutes.email b)
     /\ User.username v <> JS.trim (AdminRoutes.username b)) ->
  exists u db',
    AdminRoutes.post_users isEmail normalizeEmail hashPassword
      db actor b newId now
    = (res_status 201
         (SuccessUser newId (User.username u) (User.email u) User.student),
       db')
    /\ users db' = (users db ++ [u])%list
    /\ codes db' = codes db
    /\ User._id u = newId
    /\ User.role u = User.student
    /\ User.username u = JS.trim (AdminRoutes.username b)
    /\ User.email u = normalizeEmail (AdminRoutes.email b)
    /\ User.password u = hashPassword (AdminRoutes.password b)
    /\ AdminRoutes.post_users isEmail normalizeEmail hashPassword
         db' actor b newId' now'
       = (res_status 400 (ErrorMsg "Email already exists"), db').
Proof.
  intros Hrole Hvalid Hfree.
  assert (Hnone :
    User.findOne
      (fun v => (User.email v =? normalizeEmail (AdminRoutes.email b))
                || (User.username v =? JS.trim (AdminRoutes.username b)))%bool
      (users db) = None).
  { unfold User.findOne.
    destruct (find _ (users db)) as [x|] eqn:E; [|reflexivity].
    apply find_some in E as [Hin Hq]. destruct (Hfree x Hin) as [He Hn].
    apply orb_true_iff in Hq as [Hq|Hq]; apply String.eqb_eq in Hq;
      contradiction. }
  rewrite (post_users_created _ _ _ _ _ _ _ _ Hrole Hvalid Hnone).
  exists {| User._id := newId;
            User.username := JS.trim (AdminRoutes.username b);
            User.email := normalizeEmail (AdminRoutes.email b);
            User.password := hashPassword (AdminRoutes.password b);
            User.role := User.student;
            User.lastActive := now |}.
  eexists. split; [reflexivity|].
  cbn [users codes User._id User.role User.username User.email User.password].
  repeat split.
  unfold AdminRoutes.post_users.
  rewrite (gate_teacher _ _ _ Hrole), Hvalid. cbn [users].
  rewrite userFindOne_app, Hnone. cbn [User.email User.username].
  rewrite String.eqb_refl. cbn [orb User.email].
  now rewrite String.eqb_refl.
Qed.

Lemma post_users_creates_student_once_witness :
  exists db',
    AdminRoutes.post_users Sample.isEmail Sample.normalizeEmail
      Sample.hashPassword Sample.db Sample.admin
      {| AdminRoutes.username := "carol";
         AdminRoutes.email := "carol@example.com";
         AdminRoutes.password := "password123" |} 4 70
    = (res_status 201 (SuccessUser 4 "carol" "carol@example.com" User.student),
       db')
    /\ AdminRoutes.post_users Sample.isEmail Sample.normalizeEmail
         Sample.hashPassword db' Sample.admin
         {| AdminRoutes.username := "carol";
            AdminRoutes.email := "carol@example.com";
            AdminRoutes.password := "password123" |} 5 80
       = (res_status 400 (ErrorMsg "Email already exists"), db').
Proof.
  destruct (post_users_creates_student_once Sample.isEmail
              Sample.normalizeEmail Sample.hashPassword Sample.db Sample.admin
              {| AdminRoutes.username := "carol";
                 AdminRoutes.email := "carol@example.com";
                 AdminRoutes.password := "password123" |}
              4%N 70%Z 5%N 80%Z eq_refl eq_refl)
    as (u & db' & Hres & _ & _ & _ & _ & Hn & He & _ & Hagain).
  { intros v [<-|[<-|[<-|[]]]]; split; discriminate. }
  exists db'. split; [|exact Hagain].
  rewrite Hres, Hn, He. reflexivity.
Defined.

(** X10: [POST /users] keeps the names and the emails of the stored users
    pairwise distinct, whatever its answer. *)
Theorem post_users_keeps_users_unique
    isEmail normalizeEmail hashPassword db actor b newId now :
  usersUnique db ->
  usersUnique
    (snd (AdminRoutes.post_users isEmail normalizeEmail hashPassword
            db actor b newId now)).
Proof.
  intros [Hnames Hemails].
  unfold AdminRoutes.post_users, AdminRoutes.gate.
  destruct (Auth.authorize _ _); [|now split].
  destruct (AdminRoutes.userErrors isEmail b); [|now split].
  destruct (User.findOne _ (users db)) as [x|] eqn:Hfind; [now split|].
  unfold User.findOne in Hfind.
  pose proof (find_none _ _ Hfind) as Hnone.
  unfold usersUnique. cbn [snd users].
  rewrite !map_app. cbn [map User.username User.email].
  split; (apply NoDup_app; [assumption | repeat constructor; intros [] |]);
    intros s Hs [<-|[]]; apply in_map_iff in Hs as (v & Hv & Hin);
    specialize (Hnone v Hin); cbv beta in Hnone;
    apply orb_false_iff in Hnone as [He Hn];
    rewrite <- Hv in *.
  - now rewrite String.eqb_refl in Hn.
  - now rewrite String.eqb_refl in He.
Qed.

Lemma post_users_keeps_users_unique_witness :
  usersUnique
    (snd (AdminRoutes.post_users Sample.isEmail Sample.normalizeEmail
            Sample.hashPassword Sample.db Sample.admin
            {| AdminRoutes.username := "carol";
               AdminRoutes.email := "carol@example.com";
               AdminRoutes.password := "password123" |} 4 70)).
Proof.
  apply post_users_keeps_users_unique.
  split; simpl; repeat constructor; simpl; intuition discriminate.
Defined.

(** X11: [DELETE /users/:userId] for an id that no stored user has is
    answered 404 and changes nothing; so repeating a deletion that was
    answered 200 is answered 404. *)
Theorem delete_users_unknown_or_repeated db actor userId :
  User.role actor = User.teacher ->
  (User.findById userId (users db) = None ->
   AdminRoutes.delete_users db actor userId
   = (res_status 404 (ErrorMsg "User not found"), db))
  /\ (statusCode (fst (AdminRoutes.delete_users db actor userId)) = 200%Z ->
      AdminRoutes.delete_users
        (snd (AdminRoutes.delete_users db actor userId)) actor userId
      = (res_status 404 (ErrorMsg "User not found"),
         snd (AdminRoutes.delete_users db actor userId))).
Proof.
  intros Hrole. split.
  - intros Hnone. unfold AdminRoutes.delete_users.
    now rewrite (gate_teacher _ _ _ Hrole), Hnone.
  - destruct (AdminRoutes.delete_users db actor userId) as [r db'] eqn:Hdel.
    cbn [fst snd]. intros H200.
    unfold AdminRoutes.delete_users in Hdel.
    rewrite (gate_teacher _ _ _ Hrole) in Hdel.
    destruct (User.findById userId (users db)) as [target|] eqn:Hfind;
      [|inversion Hdel; subst; discriminate].
    destruct (User.role target);
      [|inversion Hdel; subst; discriminate].
    inversion Hdel; subst; clear Hdel.
    unfold AdminRoutes.delete_users.
    rewrite (gate_teacher _ _ _ Hrole). cbn [users].
    apply userFindById_id in Hfind as [<- _].
    now rewrite userFindById_deleteOne.
Qed.

Lemma delete_users_unknown_or_repeated_witness :
  AdminRoutes.delete_users Sample.db Sample.admin 9
  = (res_status 404 (ErrorMsg "User not found"), Sample.db)
  /\ AdminRoutes.delete_users
       (snd (AdminRoutes.delete_users Sample.db Sample.admin 2)) Sample.admin 2
     = (res_status 404 (ErrorMsg "User not found"),
        snd (AdminRoutes.delete_users Sample.db Sample.admin 2)).
Proof.
  destruct (delete_users_unknown_or_repeated Sample.db Sample.admin 9%N
              eq_refl) as [Hunknown _].
  destruct (delete_users_unknown_or_repeated Sample.db Sample.admin 2%N
              eq_refl) as [_ Hrepeated].
  split; [apply Hunknown | apply Hrepeated]; reflexivity.
Defined.

(** ** Feedback *)

Lemma replace_length d coll :
  List.length (Code.replace d coll) = List.length coll.
Proof. unfold Code.replace. apply length_map. Qed.

Lemma replace_In d coll x :
  In x (Code.replace d coll) -> x = d \/ In x coll.
Proof.
  unfold Code.replace. intros H. apply in_map_iff in H as (y & Hy & Hin).
  destruct (N.eqb (Code._id y) (Code._id d)); [left | right]; congruence.
Qed.

(** X12: a feedback answered 200 changes the feedback, the status and
    [updatedAt] of the one submission and nothing else: its owner, title,
    description, language, code, tags, analysis and creation date are as
    before, the submissions under other ids and the users are untouched, and
    no submission is added or removed. *)
Theorem post_codes_feedback_frame db actor codeId b now c c' db' :
  Code.findById codeId (codes db) = Some c ->
  AdminRoutes.post_codes_feedback db actor codeId b now
  = (res_json (SuccessCode c'), db') ->
  Code.findById codeId (codes db') = Some c'
  /\ Code._id c' = Code._id c
  /\ Code.user c' = Code.user c
  /\ Code.title c' = Code.title c
  /\ Code.description c' = Code.description c
  /\ Code.language c' = Code.language c
  /\ Code.code c' = Code.code c
  /\ Code.tags c' = Code.tags c
  /\ Code.analysis c' = Code.analysis c
  /\ Code.createdAt c' = Code.createdAt c
  /\ Code.updatedAt c' = now
  /\ users db' = users db
  /\ List.length (codes db') = List.length (codes db)
  /\ (forall id, id <> codeId ->
        Code.findById id (codes db') = Code.findById id (codes db)).
Proof.
  intros Hfind. unfold AdminRoutes.post_codes_feedback, AdminRoutes.gate.
  destruct (Auth.authorize _ _); [|discriminate].
  destruct (AdminRoutes.feedbackErrors b); [|discriminate].
  rewrite Hfind.
  destruct (Code.addFeedback _ _ _ _ _ _) as [[d coll']|] eqn:Hadd;
    [|discriminate].
  intros H. inversion H; subst; clear H.
  destruct (addFeedback_result _ _ _ _ _ _ _ _ Hadd)
    as (stored & _ & _ & _ & Hid' & Hanalysis & _ & ->).
  destruct (addFeedback_frame _ _ _ _ _ _ _ _ Hadd)
    as (Huser & Htitle & Hdesc & Hlang & Hcode & Htags & Hcreated & Hupdated).
  apply findById_id in Hfind as Hid.
  cbn [codes users].
  split.
  { rewrite <- Hid, <- Hid'. apply findById_replace with (c := c).
    now rewrite Hid', Hid. }
  repeat (split; [assumption || reflexivity|]).
  split; [apply replace_length|].
  intros id Hne. apply findById_replace_other. congruence.
Qed.

Lemma post_codes_feedback_frame_witness :
  exists c' db',
    AdminRoutes.post_codes_feedback Fixture.db Sample.admin 12
      {| AdminRoutes.comment := "Well done"; AdminRoutes.grade := JS.Num 95 |} 70
    = (res_json (SuccessCode c'), db')
    /\ Code.title c' = "Sorter"
    /\ Code.analysis c' = Code.analysis Fixture.sorter
    /\ users db' = users Fixture.db
    /\ Code.findById 10 (codes db') = Some Sample.fib.
Proof.
  eexists. eexists. split; [reflexivity|].
  destruct (post_codes_feedback_frame Fixture.db Sample.admin 12%N
              {| AdminRoutes.comment := "Well done";
                 AdminRoutes.grade := JS.Num 95%Z |} 70%Z Fixture.sorter _ _
              eq_refl eq_refl)
    as (_ & _ & _ & Ht & _ & _ & _ & _ & Ha & _ & _ & Hu & _ & Hother).
  split; [exact Ht|]. split; [exact Ha|]. split; [exact Hu|].
  rewrite Hother; [reflexivity | discriminate].
Defined.

(** ** Invariants of the store *)

Lemma gradesInRange_replace db d :
  gradesInRange db ->
  (forall f g, Code.feedback d = Some f -> Code.grade f = Some g ->
               (0 <= g <= 100)%Z) ->
  gradesInRange {| users := users db; codes := Code.replace d (codes db) |}.
Proof.
  intros Hdb Hd c f g Hc. cbn [codes] in Hc.
  apply replace_In in Hc as [->|Hc]; [apply Hd | now apply (Hdb c)].
Qed.

Lemma validFeedback_range d f g :
  Code.validFeedback d = true ->
  Code.feedback d = Some f -> Code.grade f = Some g -> (0 <= g <= 100)%Z.
Proof.
  unfold Code.validFeedback. intros H Hf Hg. rewrite Hf, Hg in H.
  apply andb_true_iff in H as [H1 H2].
  apply Z.leb_le in H1, H2. lia.
Qed.

(** X13: no route stores a grade outside 0..100: if every stored grade lies
    between 0 and 100 before a request, so does every stored grade after it,
    for the feedback, update, analysis, deletion and creation of
    submissions. *)
Theorem routes_keep_grades_in_range db :
  gradesInRange db ->
  (forall actor codeId b now,
     gradesInRange (snd (AdminRoutes.post_codes_feedback db actor codeId b now)))
  /\ (forall actor id b now,
        gradesInRange (snd (CodeRoutes.put_id db actor id b now)))
  /\ (forall ollama actor id now,
        gradesInRange (snd (CodeRoutes.post_id_analyze ollama db actor id now)))
  /\ (forall actor id,
        gradesInRange (snd (CodeRoutes.delete_id db actor id)))
  /\ (forall actor b newId now,
        gradesInRange (snd (CodeCollection.post_root db actor b newId now)))
  /\ (forall actor userId,
        gradesInRange (snd (AdminRoutes.delete_users db actor userId))).
Proof.
  intros Hdb.
  split; [|split; [|split; [|split; [|split]]]].
  - intros actor codeId b now.
    unfold AdminRoutes.post_codes_feedback, AdminRoutes.gate.
    destruct (Auth.authorize _ _); [|exact Hdb].
    destruct (AdminRoutes.feedbackErrors b); [|exact Hdb].
    destruct (Code.findById codeId (codes db)); [|exact Hdb].
    destruct (Code.addFeedback _ _ _ _ _ _) as [[c' coll']|] eqn:Hadd;
      [|exact Hdb].
    apply addFeedback_result in Hadd as (stored & _ & _ & _ & _ & _ & Hv & ->).
    cbn [snd]. apply gradesInRange_replace; [exact Hdb|].
    intros f g. now apply validFeedback_range.
  - intros actor id b now. unfold CodeRoutes.put_id.
    destruct (CodeRoutes.validateCode b); [|exact Hdb].
    destruct (Code.findById id (codes db)) as [c|] eqn:Hfind; [|exact Hdb].
    destruct (negb _); [exact Hdb|].
    unfold Code.save. destruct (Code.validContent _); [|exact Hdb].
    cbn [snd]. apply gradesInRange_replace; [exact Hdb|].
    cbn [Code.touch Code.feedback]. intros f g.
    apply (Hdb c). now apply findById_In in Hfind.
  - intros ollama actor id now. unfold CodeRoutes.post_id_analyze.
    destruct (Code.findById id (codes db)) as [c|] eqn:Hfind; [|exact Hdb].
    destruct (negb _); [exact Hdb|].
    destruct (ollama _) as [r|[e|]]; [| |exact Hdb].
    + unfold Code.addAnalysis, Code.save.
      cbn [snd]. apply gradesInRange_replace; [exact Hdb|].
      cbn [Code.touch Code.feedback]. intros f g.
      apply (Hdb c). now apply findById_In in Hfind.
    + destruct (e =? "ECONNREFUSED"); exact Hdb.
  - intros actor id. unfold CodeRoutes.delete_id.
    destruct (Code.findById id (codes db)) as [c|]; [|exact Hdb].
    destruct (_ && _)%bool; [exact Hdb|].
    intros x f g Hx. cbn [snd codes] in Hx.
    unfold Code.deleteOne in Hx. apply filter_In in Hx as [Hx _].
    now apply (Hdb x).
  - intros actor b newId now.
    unfold CodeCollection.post_root, CodeCollection.create.
    destruct (CodeRoutes.validateCode b); [|exact Hdb].
    destruct (Code.validContent _); [|exact Hdb].
    intros x f g Hx. cbn [snd codes] in Hx.
    apply in_app_or in Hx as [Hx|[<-|[]]]; [now apply (Hdb x)|].
    discriminate.
  - intros actor userId. unfold AdminRoutes.delete_users, AdminRoutes.gate.
    destruct (Auth.authorize _ _); [|exact Hdb].
    destruct (User.findById userId (users db)) as [t|]; [|exact Hdb].
    destruct (User.role t); [|exact Hdb].
    intros x f g Hx. cbn [snd codes] in Hx.
    unfold Code.deleteMany in Hx. apply filter_In in Hx as [Hx _].
    now apply (Hdb x).
Qed.

Lemma routes_keep_grades_in_range_witness :
  gradesInRange
    (snd (AdminRoutes.post_codes_feedback Fixture.db Sample.admin 12
            {| AdminRoutes.comment := "Well done";
               AdminRoutes.grade := JS.Num 95 |} 70)).
Proof.
  apply routes_keep_grades_in_range.
  intros c f g [<-|[<-|[<-|[<-|[<-|[]]]]]] Hf Hg;
    inversion Hf; subst; inversion Hg; subst; lia.
Defined.

Lemma ownersStored_replace db c d :
  ownersStored db ->
  In c (codes db) ->
  Code.user d = Code.user c ->
  ownersStored {| users := users db; codes := Code.replace d (codes db) |}.
Proof.
  intros Hdb Hc Huser x Hx. cbn [codes users] in Hx |- *.
  apply replace_In in Hx as [->|Hx]; [|now apply Hdb].
  rewrite Huser. now apply Hdb.
Qed.

Lemma userFindById_app id coll u x :
  User.findById id coll = Some x ->
  User.findById id (coll ++ [u]) = Some x.
Proof.
  unfold User.findById. intros H. now rewrite userFindOne_app, H.
Qed.

(** X14: the routes never leave a submission without its owner: if every
    stored submission has its owner among the stored users before a request,
    the same holds after it, for every route that writes; a new submission
    is stored for the actor, who has to be a stored user. *)
Theorem routes_keep_owners_stored db :
  ownersStored db ->
  (forall actor b newId now u,
     User.findById (User._id actor) (users db) = Some u ->
     ownersStored (snd (CodeCollection.post_root db actor b newId now)))
  /\ (forall actor id b now,
        ownersStored (snd (CodeRoutes.put_id db actor id b now)))
  /\ (forall ollama actor id now,
        ownersStored (snd (CodeRoutes.post_id_analyze ollama db actor id now)))
  /\ (forall actor id,
        ownersStored (snd (CodeRoutes.delete_id db actor id)))
  /\ (forall actor codeId b now,
        ownersStored (snd (AdminRoutes.post_codes_feedback db actor codeId b now)))
  /\ (forall isEmail normalizeEmail hashPassword actor b newId now,
        ownersStored
          (snd (AdminRoutes.post_users isEmail normalizeEmail hashPassword
                  db actor b newId now)))
  /\ (forall actor userId,
        ownersStored (snd (AdminRoutes.delete_users db actor userId))).
Proof.
  intros Hdb.
  split; [|split; [|split; [|split; [|split; [|split]]]]].
  - intros actor b newId now u Hactor.
    unfold CodeCollection.post_root, CodeCollection.create.
    destruct (CodeRoutes.validateCode b); [|exact Hdb].
    destruct (Code.validContent _); [|exact Hdb].
    intros x Hx. cbn [snd codes users] in Hx |- *.
    apply in_app_or in Hx as [Hx|[<-|[]]]; [now apply Hdb|].
    cbn [Code.user]. eauto.
  - intros actor id b now. unfold CodeRoutes.put_id.
    destruct (CodeRoutes.validateCode b); [|exact Hdb].
    destruct (Code.findById id (codes db)) as [c|] eqn:Hfind; [|exact Hdb].
    destruct (negb _); [exact Hdb|].
    unfold Code.save. destruct (Code.validContent _); [|exact Hdb].
    cbn [snd]. apply ownersStored_replace with (c := c);
      [exact Hdb | now apply findById_In in Hfind | reflexivity].
  - intros ollama actor id now. unfold CodeRoutes.post_id_analyze.
    destruct (Code.findById id (codes db)) as [c|] eqn:Hfind; [|exact Hdb].
    destruct (negb _); [exact Hdb|].
    destruct (ollama _) as [r|[e|]]; [| |exact Hdb].
    + unfold Code.addAnalysis, Code.save. cbn [snd].
      apply ownersStored_replace with (c := c);
        [exact Hdb | now apply findById_In in Hfind | reflexivity].
    + destruct (e =? "ECONNREFUSED"); exact Hdb.
  - intros actor id. unfold CodeRoutes.delete_id.
    destruct (Code.findById id (codes db)) as [c|]; [|exact Hdb].
    destruct (_ && _)%bool; [exact Hdb|].
    intros x Hx. cbn [snd codes users] in Hx |- *.
    unfold Code.deleteOne in Hx. apply filter_In in Hx as [Hx _].
    now apply Hdb.
  - intros actor codeId b now.
    unfold AdminRoutes.post_codes_feedback, AdminRoutes.gate.
    destruct (Auth.authorize _ _); [|exact Hdb].
    destruct (AdminRoutes.feedbackErrors b); [|exact Hdb].
    destruct (Code.findById codeId (codes db)) as [c|] eqn:Hfind;
      [|exact Hdb].
    destruct (Code.addFeedback _ _ _ _ _ _) as [[c' coll']|] eqn:Hadd;
      [|exact Hdb].
    destruct (addFeedback_frame _ _ _ _ _ _ _ _ Hadd) as [Huser _].
    apply addFeedback_result in Hadd as (stored & _ & _ & _ & _ & _ & _ & ->).
    cbn [snd]. apply ownersStored_replace with (c := c);
      [exact Hdb | now apply findById_In in Hfind | exact Huser].
  - intros isEmail normalizeEmail hashPassword actor b newId now.
    unfold AdminRoutes.post_users, AdminRoutes.gate.
    destruct (Auth.authorize _ _); [|exact Hdb].
    destruct (AdminRoutes.userErrors isEmail b); [|exact Hdb].
    destruct (User.findOne _ (users db)); [exact Hdb|].
    intros x Hx. cbn [snd codes users] in Hx |- *.
    destruct (Hdb x Hx) as [u Hu]. exists u.
    now apply userFindById_app.
  - intros actor userId. now apply delete_users_keeps_owners.
Qed.

Lemma routes_keep_owners_stored_witness :
  ownersStored
    (snd (CodeCollection.post_root Sample.db Sample.bob Fixture.newBody 15 70))
  /\ ownersStored (snd (AdminRoutes.delete_users Sample.db Sample.admin 2)).
Proof.
  assert (H : ownersStored Sample.db).
  { intros c [<-|[<-|[]]]; eexists; reflexivity. }
  destruct (routes_keep_owners_stored Sample.db H)
    as (Hcreate & _ & _ & _ & _ & _ & Hdelete).
  split; [apply (Hcreate Sample.bob _ _ _ Sample.bob); reflexivity|].
  apply Hdelete.
Defined.

(** ** The dashboard *)

Lemma addToGroup_sum key groups :
  fold_right Z.add 0%Z (map AdminReports.count (AdminReports.addToGroup key groups))
  = (fold_right Z.add 0%Z (map AdminReports.count groups) + 1)%Z.
Proof.
  induction groups as [|g groups IH]; simpl; [reflexivity|].
  destruct (AdminReports._id g =? key); simpl; [lia|].
  rewrite IH. lia.
Qed.

Lemma addToGroup_ids key groups s :
  In s (map AdminReports._id (AdminReports.addToGroup key groups))
  <-> In s (map AdminReports._id groups) \/ s = key.
Proof.
  induction groups as [|g groups IH]; simpl; [intuition|].
  destruct (String.eqb_spec (AdminReports._id g) key) as [E|E]; simpl.
  - rewrite E. intuition.
  - rewrite IH. intuition.
Qed.

Lemma addToGroup_NoDup key groups :
  NoDup (map AdminReports._id groups) ->
  NoDup (map AdminReports._id (AdminReports.addToGroup key groups)).
Proof.
  induction groups as [|g groups IH]; simpl; intros Hnd.
  - repeat constructor. intros [].
  - inversion Hnd as [|x l Hx Hl]; subst.
    destruct (String.eqb_spec (AdminReports._id g) key) as [E|E]; simpl.
    + constructor; [now rewrite <- E | exact Hl].
    + constructor; [|now apply IH].
      rewrite addToGroup_ids. intros [H|H]; [contradiction | congruence].
Qed.

(** Where a group of the new list comes from. *)
Lemma addToGroup_In key groups g' :
  NoDup (map AdminReports._id groups) ->
  In g' (AdminReports.addToGroup key groups) ->
  (In g' groups /\ AdminReports._id g' <> key)
  \/ (AdminReports._id g' = key
      /\ ((exists g, In g groups /\ AdminReports._id g = key
                     /\ AdminReports.count g' = (AdminReports.count g + 1)%Z)
          \/ ((forall g, In g groups -> AdminReports._id g <> key)
              /\ AdminReports.count g' = 1%Z))).
Proof.
  induction groups as [|g groups IH]; simpl; intros Hnd Hin.
  - destruct Hin as [<-|[]]. right. split; [reflexivity|].
    right. split; [intros g []|reflexivity].
  - inversion Hnd as [|x l Hx Hl]; subst.
    destruct (String.eqb_spec (AdminReports._id g) key) as [E|E].
    + destruct Hin as [<-|Hin].
      * right. split; [reflexivity|]. left. exists g. auto.
      * left. split; [now right|].
        intros E'. apply Hx. rewrite E, <- E'. now apply in_map.
    + destruct Hin as [<-|Hin]; [left; auto|].
      destruct (IH Hl Hin) as [[Hg Hne]|[Hk [(g0 & Hg0 & Hid & Hc)|[Hno Hc]]]].
      * left. auto.
      * right. split; [exact Hk|]. left. exists g0. auto.
      * right. split; [exact Hk|]. right. split; [|exact Hc].
        intros g1 [<-|Hg1]; [exact E | now apply Hno].
Qed.

(** The number of submissions in a language. *)
Lemma occurrences_app key (seen : list Code.doc) c :
  List.length (filter (fun x => Code.language x =? key) (seen ++ [c]))
  = Nat.add (List.length (filter (fun x => Code.language x =? key) seen))
      (if Code.language c =? key then 1%nat else 0%nat).
Proof.
  rewrite filter_app, length_app. simpl.
  destruct (Code.language c =? key); reflexivity.
Qed.

(** The groups built from the submissions seen so far: one group for each
    language seen, counting the submissions in it. *)
Lemma groups_invariant coll : forall seen groups,
  NoDup (map AdminReports._id groups) ->
  (forall g, In g groups ->
     AdminReports.count g
     = Z.of_nat (List.length
                   (filter (fun x => Code.language x =? AdminReports._id g) seen))
     /\ (1 <= AdminReports.count g)%Z) ->
  (forall c, In c seen ->
     exists g, In g groups /\ AdminReports._id g = Code.language c) ->
  let groups' :=
    fold_left (fun gs c => AdminReports.addToGroup (Code.language c) gs)
      coll groups in
  NoDup (map AdminReports._id groups')
  /\ (forall g, In g groups' ->
        AdminReports.count g
        = Z.of_nat (List.length
                      (filter (fun x => Code.language x =? AdminReports._id g)
                         (seen ++ coll)))
        /\ (1 <= AdminReports.count g)%Z)
  /\ (forall c, In c (seen ++ coll) ->
        exists g, In g groups' /\ AdminReports._id g = Code.language c).
Proof.
  induction coll as [|c coll IH]; intros seen groups Hnd Hcount Hcover; simpl.
  - rewrite app_nil_r. auto.
  - replace (seen ++ c :: coll)%list with ((seen ++ [c]) ++ coll)%list
      by (rewrite <- app_assoc; reflexivity).
    apply IH.
    + now apply addToGroup_NoDup.
    + intros g' Hg'. rewrite occurrences_app.
      apply addToGroup_In in Hg' as
          [[Hg Hne]|[Hk [(g0 & Hg0 & Hid & Hc)|[Hno Hc]]]]; [| | |exact Hnd].
      * destruct (Hcount g' Hg) as [H1 H2].
        destruct (String.eqb_spec (Code.language c) (AdminReports._id g'));
          [congruence|]. split; [lia | exact H2].
      * destruct (Hcount g0 Hg0) as [H1 H2].
        rewrite Hk, String.eqb_refl. rewrite Hid in H1. lia.
      * rewrite Hk, String.eqb_refl.
        assert (Hnone : filter (fun x => Code.language x =? Code.language c) seen
                        = []).
        { destruct (filter _ seen) as [|y ys] eqn:E; [reflexivity|].
          assert (Hy : In y (filter (fun x => Code.language x =? Code.language c)
                               seen)) by (rewrite E; now left).
          apply filter_In in Hy as [Hy He]. apply String.eqb_eq in He.
          destruct (Hcover y Hy) as (g & Hg & Hid).
          exfalso. apply (Hno g Hg). congruence. }
        rewrite Hnone, Hc. simpl. lia.
    + intros x Hx. apply in_app_or in Hx as [Hx|[<-|[]]].
      * destruct (Hcover x Hx) as (g & Hg & Hid).
        assert (Hin : In (Code.language x)
                        (map AdminReports._id
                           (AdminReports.addToGroup (Code.language c) groups))).
        { apply addToGroup_ids. left. rewrite <- Hid. now apply in_map. }
        apply in_map_iff in Hin as (g' & Hid' & Hg'). eauto.
      * assert (Hin : In (Code.language c)
                        (map AdminReports._id
                           (AdminReports.addToGroup (Code.language c) groups))).
        { apply addToGroup_ids. now right. }
        apply in_map_iff in Hin as (g' & Hid' & Hg'). eauto.
Qed.

Lemma groupByLanguage_sum coll : forall groups,
  fold_right Z.add 0%Z
    (map AdminReports.count
       (fold_left (fun gs c => AdminReports.addToGroup (Code.language c) gs)
          coll groups))
  = (fold_right Z.add 0%Z (map AdminReports.count groups)
     + Z.of_nat (List.length coll))%Z.
Proof.
  induction coll as [|c coll IH]; intros groups; simpl; [lia|].
  rewrite IH, addToGroup_sum. lia.
Qed.

Lemma filter_all {A} (l : list A) : filter (fun _ => true) l = l.
Proof.
  induction l as [|x l IH]; simpl; congruence.
Qed.

Lemma sum_Permutation (l l' : list Z) :
  Permutation l l' -> fold_right Z.add 0%Z l = fold_right Z.add 0%Z l'.
Proof.
  induction 1; simpl; lia.
Qed.

(** X15: the language statistics of the dashboard hold one entry for each
    language that has a stored submission, no language twice; the count of an
    entry is the number of stored submissions in that language, so it is at
    least 1, and the counts add up to [totalSubmissions], the number of all
    stored submissions. *)
Theorem get_dashboard_language_stats db actor today stats :
  AdminReports.get_dashboard db actor today = ReplyOk stats ->
  AdminReports.totalSubmissions stats = Z.of_nat (List.length (codes db))
  /\ fold_right Z.add 0%Z
       (map AdminReports.count (AdminReports.languageStats stats))
     = AdminReports.totalSubmissions stats
  /\ NoDup (map AdminReports._id (AdminReports.languageStats stats))
  /\ (forall g, In g (AdminReports.languageStats stats) ->
        AdminReports.count g
        = Z.of_nat
            (List.length
               (filter (fun c => Code.language c =? AdminReports._id g)
                  (codes db)))
        /\ (1 <= AdminReports.count g)%Z)
  /\ (forall c, In c (codes db) ->
        exists g, In g (AdminReports.languageStats stats)
                  /\ AdminReports._id g = Code.language c).
Proof.
  unfold AdminReports.get_dashboard.
  destruct (Auth.authorize _ _); [|discriminate].
  intros H. inversion H; subst; clear H.
  cbn [AdminReports.totalSubmissions AdminReports.languageStats].
  unfold AdminReports.languageStatsOf.
  set (cmp := fun a b => Z.compare (AdminReports.count a) (AdminReports.count b)).
  pose proof (sortDesc_perm cmp (AdminReports.groupByLanguage (codes db)))
    as Hperm.
  destruct (groups_invariant (codes db) [] [] (NoDup_nil _)) as (Hnd & Hcount & Hcover).
  { intros g []. }
  { intros c []. }
  cbn [app] in Hcount, Hcover.
  fold (AdminReports.groupByLanguage (codes db)) in Hnd, Hcount, Hcover.
  split; [|split; [|split; [|split]]].
  - unfold Code.countDocuments. now rewrite filter_all.
  - rewrite (sum_Permutation _ _ (Permutation_map AdminReports.count Hperm)).
    unfold AdminReports.groupByLanguage. rewrite groupByLanguage_sum.
    unfold Code.countDocuments. now rewrite filter_all.
  - apply (Permutation_NoDup
             (Permutation_sym (Permutation_map AdminReports._id Hperm)) Hnd).
  - intros g Hg. apply Hcount. now apply (sortDesc_In cmp).
  - intros c Hc. destruct (Hcover c Hc) as (g & Hg & Hid).
    exists g. split; [now apply (sortDesc_In cmp) | exact Hid].
Qed.

Lemma get_dashboard_language_stats_witness :
  exists stats,
    AdminReports.get_dashboard Fixture.db Sample.admin 25 = ReplyOk stats
    /\ AdminReports.languageStats stats
       = [{| AdminReports._id := "python"; AdminReports.count := 3 |};
          {| AdminReports._id := "javascript"; AdminReports.count := 1 |};
          {| AdminReports._id := "java"; AdminReports.count := 1 |}]
    /\ fold_right Z.add 0%Z
         (map AdminReports.count (AdminReports.languageStats stats))
       = 5%Z.
Proof.
  eexists. split; [reflexivity|]. split; [reflexivity|].
  destruct (get_dashboard_language_stats Fixture.db Sample.admin 25%Z _ eq_refl)
    as (Htotal & Hsum & _).
  rewrite Hsum, Htotal. reflexivity.
Defined.

(** X16: the language statistics come most used language first. *)
Theorem get_dashboard_language_stats_sorted db actor today stats :
  AdminReports.get_dashboard db actor today = ReplyOk stats ->
  StronglySorted
    (fun a b => (AdminReports.count b <= AdminReports.count a)%Z)
    (AdminReports.languageStats stats).
Proof.
  unfold AdminReports.get_dashboard.
  destruct (Auth.authorize _ _); [|discriminate].
  intros H. inversion H; subst; clear H.
  cbn [AdminReports.languageStats].
  apply (sortDesc_sorted AdminReports.count).
Qed.

Lemma get_dashboard_language_stats_sorted_witness :
  exists stats,
    AdminReports.get_dashboard Fixture.db Sample.admin 25 = ReplyOk stats
    /\ map AdminReports.count (AdminReports.languageStats stats) = [3; 1; 1]%Z
    /\ StronglySorted
         (fun a b => (AdminReports.count b <= AdminReports.count a)%Z)
         (AdminReports.languageStats stats).
Proof.
  eexists. split; [reflexivity|]. split; [reflexivity|].
  apply (get_dashboard_language_stats_sorted Fixture.db Sample.admin 25%Z _
           eq_refl).
Defined.

Lemma StronglySorted_app_inv {A} (R : A -> A -> Prop) l1 l2 :
  StronglySorted R (l1 ++ l2) ->
  forall x y, In x l1 -> In y l2 -> R x y.
Proof.
  induction l1 as [|a l1 IH]; simpl; intros Hs x y Hx Hy; [contradiction|].
  apply StronglySorted_inv in Hs as [Hs Ha].
  destruct Hx as [<-|Hx]; [|now apply IH].
  rewrite Forall_forall in Ha. apply Ha. apply in_or_app. now right.
Qed.

(** X17: the recent submissions of the dashboard are stored submissions,
    five of them or all when fewer are stored, newest first; and they are
    the most recent ones: a stored submission that is not among them was
    created no later than each of them. *)
Theorem get_dashboard_recent_submissions db actor today stats :
  AdminReports.get_dashboard db actor today = ReplyOk stats ->
  List.length (AdminReports.recentSubmissions stats)
  = Nat.min 5 (List.length (codes db))
  /\ StronglySorted
       (fun a b => (Code.createdAt b <= Code.createdAt a)%Z)
       (AdminReports.recentSubmissions stats)
  /\ (forall r, In r (AdminReports.recentSubmissions stats) -> In r (codes db))
  /\ (forall r c,
        In r (AdminReports.recentSubmissions stats) ->
        In c (codes db) ->
        In c (AdminReports.recentSubmissions stats)
        \/ (Code.createdAt c <= Code.createdAt r)%Z).
Proof.
  unfold AdminReports.get_dashboard.
  destruct (Auth.authorize _ _); [|discriminate].
  intros H. inversion H; subst; clear H.
  cbn [AdminReports.recentSubmissions].
  change (Query.limit 5 (Query.sortDesc byCreatedAt (codes db)))
    with (firstn 5 (Query.sortDesc byCreatedAt (codes db))).
  pose proof (sortDesc_sorted Code.createdAt (codes db)) as Hsorted.
  fold byCreatedAt in Hsorted.
  split; [|split; [|split]].
  - now rewrite length_firstn, sortDesc_length.
  - now apply StronglySorted_firstn.
  - intros r Hr. apply firstn_In in Hr. now apply sortDesc_In in Hr.
  - intros r c Hr Hc.
    apply (sortDesc_In byCreatedAt) in Hc.
    rewrite <- (firstn_skipn 5 (Query.sortDesc byCreatedAt (codes db))) in Hc.
    apply in_app_or in Hc as [Hc|Hc]; [now left | right].
    rewrite <- (firstn_skipn 5 (Query.sortDesc byCreatedAt (codes db)))
      in Hsorted.
    exact (StronglySorted_app_inv _ _ _ Hsorted r c Hr Hc).
Qed.

Lemma get_dashboard_recent_submissions_witness :
  exists stats,
    AdminReports.get_dashboard Fixture.bigger Sample.admin 25 = ReplyOk stats
    /\ map Code._id (AdminReports.recentSubmissions stats)
       = [16; 14; 13; 12; 11]%N
    /\ List.length (AdminReports.recentSubmissions stats) = 5%nat.
Proof.
  eexists. split; [reflexivity|]. split; [reflexivity|].
  destruct (get_dashboard_recent_submissions Fixture.bigger Sample.admin 25%Z
              _ eq_refl) as (Hlen & _).
  exact Hlen.
Defined.

Lemma numericGrades_In coll g :
  In g (AdminReports.numericGrades coll)
  <-> exists c f, In c coll /\ Code.feedback c = Some f /\ Code.grade f = Some g.
Proof.
  unfold AdminReports.numericGrades. rewrite in_flat_map. split.
  - intros (c & Hc & Hg).
    destruct (Code.feedback c) as [f|] eqn:Hf; [|contradiction].
    destruct (Code.grade f) as [g'|] eqn:Hgr; [|contradiction].
    destruct Hg as [<-|[]]. eauto.
  - intros (c & f & Hc & Hf & Hg). exists c. split; [exact Hc|].
    rewrite Hf, Hg. now left.
Qed.

Lemma numericGrades_matched coll :
  AdminReports.numericGrades (filter AdminReports.hasGradeField coll)
  = AdminReports.numericGrades coll.
Proof.
  unfold AdminReports.numericGrades, AdminReports.hasGradeField.
  induction coll as [|c coll IH]; [reflexivity|].
  cbn [filter flat_map].
  destruct (Code.feedback c) as [f|] eqn:Hf; cbn [flat_map];
    rewrite ?Hf, IH; reflexivity.
Qed.

Lemma fold_min_spec z zs :
  In (fold_right Z.min z zs) (z :: zs)
  /\ forall x, In x (z :: zs) -> (fold_right Z.min z zs <= x)%Z.
Proof.
  induction zs as [|y zs [Hin Hle]]; simpl.
  - split; [now left | intros x [<-|[]]; lia].
  - split.
    + destruct (Z.min_spec y (fold_right Z.min z zs)) as [[_ ->]|[_ ->]];
        [now (right; left)|].
      destruct Hin as [Hin|Hin]; [now left | now (right; right)].
    + intros x [<-|[<-|Hx]].
      * specialize (Hle z (or_introl eq_refl)). lia.
      * lia.
      * specialize (Hle x (or_intror Hx)). lia.
Qed.

Lemma fold_max_spec z zs :
  In (fold_right Z.max z zs) (z :: zs)
  /\ forall x, In x (z :: zs) -> (x <= fold_right Z.max z zs)%Z.
Proof.
  induction zs as [|y zs [Hin Hle]]; simpl.
  - split; [now left | intros x [<-|[]]; lia].
  - split.
    + destruct (Z.max_spec y (fold_right Z.max z zs)) as [[_ ->]|[_ ->]];
        [|now (right; left)].
      destruct Hin as [Hin|Hin]; [now left | now (right; right)].
    + intros x [<-|[<-|Hx]].
      * specialize (Hle z (or_introl eq_refl)). lia.
      * lia.
      * specialize (Hle x (or_intror Hx)). lia.
Qed.

Lemma sum_bounds lo hi zs :
  (forall x, In x zs -> (lo <= x <= hi)%Z) ->
  (lo * Z.of_nat (List.length zs)
   <= fold_right Z.add 0 zs
   <= hi * Z.of_nat (List.length zs))%Z.
Proof.
  induction zs as [|z zs IH]; intros H; [simpl; lia|].
  specialize (IH (fun x Hx => H x (or_intror Hx))).
  specialize (H z (or_introl eq_refl)).
  cbn [fold_right List.length]. lia.
Qed.

(** X18: when no stored submission holds feedback the grade statistics of
    the dashboard are the defaults: average, minimum and maximum 0.  When
    feedback is stored but none of it carries a grade, the three are
    [null], not 0. *)
Theorem get_dashboard_grade_stats_without_grades db actor today stats :
  AdminReports.get_dashboard db actor today = ReplyOk stats ->
  ((forall c, In c (codes db) -> Code.feedback c = None) ->
   AdminReports.gradeStats stats
   = {| AdminReports.avgGrade :=
          Some {| AdminReports.numerator := 0;
                  AdminReports.denominator := 1 |};
        AdminReports.minGrade := Some 0%Z;
        AdminReports.maxGrade := Some 0%Z |})
  /\ ((exists c, In c (codes db) /\ Code.feedback c <> None) ->
      (forall c f, In c (codes db) -> Code.feedback c = Some f ->
                   Code.grade f = None) ->
      AdminReports.gradeStats stats
      = {| AdminReports.avgGrade := None;
           AdminReports.minGrade := None;
           AdminReports.maxGrade := None |}).
Proof.
  unfold AdminReports.get_dashboard.
  destruct (Auth.authorize _ _); [|discriminate].
  intros H. inversion H; subst; clear H.
  cbn [AdminReports.gradeStats]. unfold AdminReports.gradeStatsOf.
  split.
  - intros Hnone.
    destruct (filter AdminReports.hasGradeField (codes db)) as [|c l] eqn:E;
      [reflexivity|].
    assert (Hc : In c (filter AdminReports.hasGradeField (codes db)))
      by (rewrite E; now left).
    apply filter_In in Hc as [Hc Hf].
    unfold AdminReports.hasGradeField in Hf.
    now rewrite (Hnone c Hc) in Hf.
  - intros (c & Hc & Hf) Hnull.
    assert (Hgrades : AdminReports.numericGrades
                        (filter AdminReports.hasGradeField (codes db)) = []).
    { rewrite numericGrades_matched.
      destruct (AdminReports.numericGrades (codes db)) as [|g gs] eqn:E;
        [reflexivity|].
      assert (Hg : In g (AdminReports.numericGrades (codes db)))
        by (rewrite E; now left).
      apply numericGrades_In in Hg as (c' & f & Hc' & Hf' & Hg).
      now rewrite (Hnull c' f Hc' Hf') in Hg. }
    destruct (filter AdminReports.hasGradeField (codes db)) as [|c' l] eqn:E.
    + assert (Hin : In c (filter AdminReports.hasGradeField (codes db))).
      { apply filter_In. split; [exact Hc|].
        unfold AdminReports.hasGradeField.
        destruct (Code.feedback c); [reflexivity | congruence]. }
      rewrite E in Hin. contradiction.
    + cbn [hd]. now rewrite Hgrades.
Qed.

Lemma get_dashboard_grade_stats_without_grades_witness :
  (exists stats,
     AdminReports.get_dashboard
       {| users := users Sample.db; codes := [Sample.hello] |} Sample.admin 25
     = ReplyOk stats
     /\ AdminReports.minGrade (AdminReports.gradeStats stats) = Some 0%Z)
  /\ (exists stats,
        AdminReports.get_dashboard Fixture.ungraded Sample.admin 25
        = ReplyOk stats
        /\ AdminReports.minGrade (AdminReports.gradeStats stats) = None).
Proof.
  split; eexists; (split; [reflexivity|]).
  - destruct (get_dashboard_grade_stats_without_grades
                {| users := users Sample.db; codes := [Sample.hello] |}
                Sample.admin 25%Z _ eq_refl) as [Hdefault _].
    rewrite Hdefault; [reflexivity|].
    intros c [<-|[]]. reflexivity.
  - destruct (get_dashboard_grade_stats_without_grades Fixture.ungraded
                Sample.admin 25%Z _ eq_refl) as [_ Hnull].
    rewrite Hnull; [reflexivity | |].
    + exists Fixture.stack. split; [simpl; auto | discriminate].
    + intros c f [<-|[<-|[<-|[]]]] Hf; inversion Hf; reflexivity.
Defined.

(** X19: when some stored feedback carries a grade, the minimum and the
    maximum of the dashboard are grades of stored submissions, every stored
    grade lies between them, and the average is the sum of the stored grades
    over their number, which lies between the minimum and the maximum. *)
Theorem get_dashboard_grade_stats_bounds db actor today stats :
  AdminReports.get_dashboard db actor today = ReplyOk stats ->
  let grades := AdminReports.numericGrades (codes db) in
  grades <> [] ->
  exists lo hi,
    AdminReports.minGrade (AdminReports.gradeStats stats) = Some lo
    /\ AdminReports.maxGrade (AdminReports.gradeStats stats) = Some hi
    /\ AdminReports.avgGrade (AdminReports.gradeStats stats)
       = Some {| AdminReports.numerator := fold_right Z.add 0%Z grades;
                 AdminReports.denominator := Z.of_nat (List.length grades) |}
    /\ (exists c f, In c (codes db) /\ Code.feedback c = Some f
                    /\ Code.grade f = Some lo)
    /\ (exists c f, In c (codes db) /\ Code.feedback c = Some f
                    /\ Code.grade f = Some hi)
    /\ (forall c f g, In c (codes db) -> Code.feedback c = Some f ->
                      Code.grade f = Some g -> (lo <= g <= hi)%Z)
    /\ (1 <= Z.of_nat (List.length grades))%Z
    /\ (lo * Z.of_nat (List.length grades)
        <= fold_right Z.add 0%Z grades
        <= hi * Z.of_nat (List.length grades))%Z.
Proof.
  unfold AdminReports.get_dashboard.
  destruct (Auth.authorize _ _); [|discriminate].
  intros H Hgrades. injection H as <-.
  set (grades := AdminReports.numericGrades (codes db)) in *.
  cbn [AdminReports.gradeStats]. unfold AdminReports.gradeStatsOf.
  destruct (filter AdminReports.hasGradeField (codes db)) as [|c0 l] eqn:E.
  { exfalso. apply Hgrades. subst grades.
    rewrite <- numericGrades_matched, E. reflexivity. }
  rewrite <- E, numericGrades_matched. fold grades.
  destruct grades as [|z zs] eqn:Eg; [congruence|].
  destruct (fold_min_spec z zs) as [Hlo_in Hlo].
  destruct (fold_max_spec z zs) as [Hhi_in Hhi].
  exists (fold_right Z.min z zs), (fold_right Z.max z zs).
  cbn [AdminReports.minGrade AdminReports.maxGrade AdminReports.avgGrade
       AdminReports.minOf AdminReports.maxOf AdminReports.avgOf].
  assert (Hmem : forall g, In g (z :: zs) ->
                   exists c f, In c (codes db) /\ Code.feedback c = Some f
                               /\ Code.grade f = Some g).
  { intros g Hg. apply numericGrades_In. fold grades. now rewrite Eg. }
  split; [reflexivity|]. split; [reflexivity|]. split; [reflexivity|].
  split; [now apply Hmem|]. split; [now apply Hmem|].
  assert (Hall : forall x, In x (z :: zs) ->
                   (fold_right Z.min z zs <= x <= fold_right Z.max z zs)%Z).
  { intros x Hx. split; [now apply Hlo | now apply Hhi]. }
  split; [|split; [cbn [List.length]; lia | now apply sum_bounds]].
  intros c f g Hc Hf Hg. apply Hall.
  rewrite <- Eg. subst grades. apply numericGrades_In. eauto.
Qed.

Lemma get_dashboard_grade_stats_bounds_witness :
  exists stats,
    AdminReports.get_dashboard Fixture.db Sample.admin 25 = ReplyOk stats
    /\ AdminReports.gradeStats stats
       = {| AdminReports.avgGrade :=
              Some {| AdminReports.numerator := 125;
                      AdminReports.denominator := 2 |};
            AdminReports.minGrade := Some 40%Z;
            AdminReports.maxGrade := Some 85%Z |}.
Proof.
  eexists. split; [reflexivity|].
  destruct (get_dashboard_grade_stats_bounds Fixture.db Sample.admin 25%Z _
              eq_refl ltac:(discriminate))
    as (lo & hi & Hmin & Hmax & Havg & _).
  vm_compute in Hmin, Hmax, Havg |- *. reflexivity.
Defined.

(** ** The submissions of a student *)

(** X20: what [GET /students/:studentId/codes] returns to a teacher are
    stored submissions of that student that have the requested language and
    the requested status, newest first; the total counts the matching
    submissions; the student is the stored user of that id, with name and
    email, or [null] when there is none. *)
Theorem get_students_codes_of_student db actor studentId q body :
  AdminReports.get_students_codes db actor studentId q = ReplyOk body ->
  (forall c, In c (Paged.items (AdminReports.codes_ body)) ->
     In c (codes db)
     /\ Code.user c = studentId
     /\ (forall l, AdminReports.language q = Some l -> l <> "" ->
                   Code.language c = l)
     /\ (forall s, AdminReports.status q = Some s -> s <> "" ->
                   statusName (Code.status c) = s))
  /\ StronglySorted
       (fun a b => (Code.createdAt b <= Code.createdAt a)%Z)
       (Paged.items (AdminReports.codes_ body))
  /\ Paged.total (AdminReports.codes_ body)
     = Z.of_nat
         (List.length
            (filter (AdminReports.studentCodesQuery studentId q) (codes db)))
  /\ AdminReports.student body
     = match User.findById studentId (users db) with
       | Some u =>
           Some {| AdminReports.student_id := studentId;
                   AdminReports.username := User.username u;
                   AdminReports.email := User.email u |}
       | None => None
       end.
Proof.
  unfold AdminReports.get_students_codes.
  destruct (Auth.authorize _ _); [|discriminate].
  destruct (Query.skip _ _) as [skipped|] eqn:Hskip; [|discriminate].
  intros H. injection H as <-.
  cbn [AdminReports.codes_ AdminReports.student Paged.items Paged.total].
  split; [|split; [|split; [reflexivity|]]].
  - intros c Hc.
    apply limit_In in Hc. apply (skip_In _ _ _ _ Hskip) in Hc.
    apply sortDesc_In in Hc. apply filter_In in Hc as [Hin Hq].
    unfold AdminReports.studentCodesQuery in Hq.
    apply andb_true_iff in Hq as [Hq Hstatus].
    apply andb_true_iff in Hq as [Huser Hlang].
    apply N.eqb_eq in Huser.
    repeat split; trivial.
    + intros l. now apply filterBy_true.
    + intros s. now apply filterBy_true.
  - apply limit_sorted. apply (skip_sorted _ _ _ _ Hskip).
    apply (sortDesc_sorted Code.createdAt).
  - destruct (User.findById studentId (users db)) as [u|] eqn:Hu;
      cbn [option_map]; [|reflexivity].
    apply userFindById_id in Hu as [Hid _]. now rewrite Hid.
Qed.

Lemma get_students_codes_of_student_witness :
  exists body,
    AdminReports.get_students_codes Fixture.db Sample.admin 2
      {| AdminReports.page := None; AdminReports.limit := None;
         AdminReports.language := None;
         AdminReports.status := Some "graded" |}
    = ReplyOk body
    /\ Paged.items (AdminReports.codes_ body) = [Fixture.queue; Sample.fib]
    /\ StronglySorted
         (fun a b => (Code.createdAt b <= Code.createdAt a)%Z)
         (Paged.items (AdminReports.codes_ body)).
Proof.
  eexists. split; [reflexivity|]. split; [reflexivity|].
  apply (get_students_codes_of_student Fixture.db Sample.admin 2%N
           {| AdminReports.page := None; AdminReports.limit := None;
              AdminReports.language := None;
              AdminReports.status := Some "graded" |} _ eq_refl).
Defined.



(** ** The students of the listing *)

Lemma StronglySorted_map {A B} (f : A -> B) (R : B -> B -> Prop) l :
  StronglySorted (fun a b => R (f a) (f b)) l ->
  StronglySorted R (map f l).
Proof.
  induction 1 as [|a l Hs IH Ha]; simpl; constructor; [exact IH|].
  rewrite Forall_forall in *. intros y Hy.
  apply in_map_iff in Hy as (x & <- & Hx). now apply Ha.
Qed.

(** X22: every entry of the student listing is a stored user with the role
    student, sent without the password, whose name or email matches the
    requested pattern; a teacher is never listed.  Without a sort key the
    students come by last activity, the latest first. *)
Theorem get_students_lists_students
    regex_i sortOther db actor q students totalPages currentPage total db' :
  AdminRoutes.get_students regex_i sortOther db actor q
  = (res_json (SuccessStudents students totalPages currentPage total), db') ->
  db' = db
  /\ (forall s, In s students ->
        User.role (student s) = User.student
        /\ User.password (student s) = ""
        /\ (exists u, In u (users db)
                      /\ student s = User.selectMinusPassword u)
        /\ (forall pattern,
              AdminRoutes.search q = Some pattern -> pattern <> "" ->
              exists matches,
                regex_i pattern = Some matches
                /\ (matches (User.username (student s)) = true
                    \/ matches (User.email (student s)) = true)))
  /\ (AdminRoutes.sortBy q = None ->
      StronglySorted (fun a b => (b <= a)%Z)
        (map (fun s => User.lastActive (student s)) students)).
Proof.
  unfold AdminRoutes.get_students, AdminRoutes.gate.
  destruct (Auth.authorize _ _); [|discriminate].
  destruct (AdminRoutes.searchFilter regex_i (AdminRoutes.search q))
    as [found|] eqn:Hfilter; [|discriminate].
  destruct (AdminRoutes.compareBy sortOther _) as [order|] eqn:Horder;
    [|discriminate].
  destruct (Query.skip _ _) as [skipped|] eqn:Hskip; [|discriminate].
  intros H. injection H as <- _ _ _ <-.
  split; [reflexivity|]. split.
  - intros s Hs.
    apply in_map_iff in Hs as (v & <- & Hv).
    apply in_map_iff in Hv as (u & <- & Hu).
    apply limit_In in Hu. apply (skip_In _ _ _ _ Hskip) in Hu.
    apply sortDesc_In in Hu. apply filter_In in Hu as [Hin Hq].
    unfold AdminRoutes.studentsQuery in Hq.
    apply andb_true_iff in Hq as [Hrole Hsearch].
    cbn [student AdminRoutes.withStats User.selectMinusPassword
         User.role User.password User.username User.email].
    split; [|split; [reflexivity | split; [eauto|]]].
    + destruct (User.role u); [reflexivity | discriminate].
    + intros pattern Hp Hne. rewrite Hp in Hfilter.
      unfold AdminRoutes.searchFilter, JS.truthy_string in Hfilter.
      destruct (String.eqb_spec pattern ""); [contradiction|].
      cbn [negb] in Hfilter.
      destruct (regex_i pattern) as [matches|]; [|discriminate].
      injection Hfilter as <-. exists matches. split; [reflexivity|].
      now apply orb_true_iff in Hsearch.
  - intros Hkey. rewrite Hkey in Horder.
    change (Some (fun a b : User.doc =>
                    Z.compare (User.lastActive a) (User.lastActive b))
            = Some order) in Horder.
    injection Horder as <-.
    rewrite !map_map.
    cbn [student AdminRoutes.withStats User.selectMinusPassword
         User.lastActive].
    apply (StronglySorted_map User.lastActive).
    apply limit_sorted. apply (skip_sorted _ _ _ _ Hskip).
    apply (sortDesc_sorted User.lastActive).
Qed.

Lemma get_students_lists_students_witness :
  exists students,
    AdminRoutes.get_students Sample.regex_i Sample.sortOther Sample.db
      Sample.admin
      {| AdminRoutes.page := None; AdminRoutes.limit := None;
         AdminRoutes.search := None; AdminRoutes.sortBy := None |}
    = (res_json (SuccessStudents students (Some 1) 1 2), Sample.db)
    /\ map (fun s => User.username (student s)) students = ["bob"; "alice"]
    /\ StronglySorted (fun a b => (b <= a)%Z)
         (map (fun s => User.lastActive (student s)) students).
Proof.
  eexists. split; [reflexivity|]. split; [reflexivity|].
  destruct (get_students_lists_students Sample.regex_i Sample.sortOther
              Sample.db Sample.admin
              {| AdminRoutes.page := None; AdminRoutes.limit := None;
                 AdminRoutes.search := None; AdminRoutes.sortBy := None |}
              _ _ _ _ _ eq_refl) as (_ & _ & Hsorted).
  apply Hsorted. reflexivity.
Defined.

Lemma lastSubmissionOf_spec id coll :
  match AdminRoutes.lastSubmissionOf id coll with
  | Some t =>
      (exists c, In c coll /\ Code.user c = id /\ Code.createdAt c = t)
      /\ (forall c, In c coll -> Code.user c = id -> (Code.createdAt c <= t)%Z)
  | None => forall c, In c coll -> Code.user c <> id
  end.
Proof.
  unfold AdminRoutes.lastSubmissionOf.
  set (cmp := fun a b => Z.compare (Code.createdAt a) (Code.createdAt b)).
  set (mine := filter (fun c => N.eqb (Code.user c) id) coll).
  pose proof (sortDesc_sorted Code.createdAt mine) as Hsorted.
  fold cmp in Hsorted.
  pose proof (sortDesc_In cmp mine) as Hin.
  destruct (Query.sortDesc cmp mine) as [|c rest].
  - intros x Hx Hid. apply (Hin x).
    apply filter_In. split; [exact Hx | now apply N.eqb_eq].
  - apply StronglySorted_inv in Hsorted as [_ Hc].
    rewrite Forall_forall in Hc. split.
    + assert (Hm : In c mine) by (apply Hin; now left).
      apply filter_In in Hm as [Hm Hid]. apply N.eqb_eq in Hid. eauto.
    + intros x Hx Hid.
      assert (Hm : In x (c :: rest)).
      { apply Hin. apply filter_In. split; [exact Hx | now apply N.eqb_eq]. }
      destruct Hm as [<-|Hm]; [lia | now apply Hc].
Qed.

(** X23: the two statistics of a listed student: [submissionCount] is the
    number of stored submissions of the student; [lastSubmission] is the
    creation date of one of them and no earlier than that of any other, and
    it is absent exactly when the student has no submission. *)
Theorem get_students_statistics
    regex_i sortOther db actor q students totalPages currentPage total db' s :
  AdminRoutes.get_students regex_i sortOther db actor q
  = (res_json (SuccessStudents students totalPages currentPage total), db') ->
  In s students ->
  let id := User._id (student s) in
  submissionCount s
  = Z.of_nat (List.length (filter (fun c => N.eqb (Code.user c) id) (codes db)))
  /\ (lastSubmission s = None <-> submissionCount s = 0%Z)
  /\ (forall t, lastSubmission s = Some t ->
        (exists c, In c (codes db) /\ Code.user c = id /\ Code.createdAt c = t)
        /\ (forall c, In c (codes db) -> Code.user c = id ->
                      (Code.createdAt c <= t)%Z)).
Proof.
  unfold AdminRoutes.get_students, AdminRoutes.gate.
  destruct (Auth.authorize _ _); [|discriminate].
  destruct (AdminRoutes.searchFilter _ _) as [found|]; [|discriminate].
  destruct (AdminRoutes.compareBy _ _) as [order|]; [|discriminate].
  destruct (Query.skip _ _) as [skipped|]; [|discriminate].
  intros H Hs. injection H as <- _ _ _ _.
  apply in_map_iff in Hs as (v & <- & _).
  cbn [student submissionCount lastSubmission AdminRoutes.withStats].
  pose proof (lastSubmissionOf_spec (User._id v) (codes db)) as Hlast.
  unfold Code.countDocuments.
  split; [reflexivity|]. split.
  - destruct (AdminRoutes.lastSubmissionOf (User._id v) (codes db)) as [t|].
    + destruct Hlast as [(c & Hc & Hid & _) _].
      split; [discriminate|]. intros Hzero. exfalso.
      assert (Hin : In c (filter (fun c => N.eqb (Code.user c) (User._id v))
                            (codes db))).
      { apply filter_In. split; [exact Hc | now apply N.eqb_eq]. }
      destruct (filter _ (codes db)); [contradiction | discriminate].
    + split; [intros _ | reflexivity].
      destruct (filter _ (codes db)) as [|c l] eqn:E; [reflexivity|].
      assert (Hin : In c (filter (fun c => N.eqb (Code.user c) (User._id v))
                            (codes db))) by (rewrite E; now left).
      apply filter_In in Hin as [Hc Hid]. apply N.eqb_eq in Hid.
      now destruct (Hlast c Hc).
  - intros t Ht. rewrite Ht in Hlast. exact Hlast.
Qed.

Lemma get_students_statistics_witness :
  exists students,
    AdminRoutes.get_students Sample.regex_i Sample.sortOther Fixture.db
      Sample.admin
      {| AdminRoutes.page := None; AdminRoutes.limit := None;
         AdminRoutes.search := Some "alice"; AdminRoutes.sortBy := None |}
    = (res_json (SuccessStudents students (Some 1) 1 1), Fixture.db)
    /\ map submissionCount students = [4%Z]
    /\ map lastSubmission students = [Some 65%Z]
    /\ forall s, In s students ->
         (lastSubmission s = None <-> submissionCount s = 0%Z).
Proof.
  eexists. split; [reflexivity|]. split; [reflexivity|].
  split; [reflexivity|].
  intros s Hs.
  apply (get_students_statistics Sample.regex_i Sample.sortOther Fixture.db
           Sample.admin
           {| AdminRoutes.page := None; AdminRoutes.limit := None;
              AdminRoutes.search := Some "alice";
              AdminRoutes.sortBy := None |}
           _ _ _ _ _ s eq_refl Hs).
Defined.

Lemma filter_and_length {A} (p r : A -> bool) l :
  (List.length (filter (fun x => p x && r x)%bool l)
   <= List.length (filter p l))%nat.
Proof.
  induction l as [|x l IH]; simpl; [lia|].
  destruct (p x), (r x); simpl; lia.
Qed.

(** X24: on the dashboard the students active today are counted among the
    students, and the students among the users: [activeToday] is at most
    [totalStudents], which is the number of stored users with the role
    student; a teacher is counted in neither. *)
Theorem get_dashboard_student_counts db actor today stats :
  AdminReports.get_dashboard db actor today = ReplyOk stats ->
  AdminReports.totalStudents stats
  = Z.of_nat
      (List.length
         (filter (fun u => User.Role_eqb (User.role u) User.student) (users db)))
  /\ (0 <= AdminReports.activeToday stats
      <= AdminReports.totalStudents stats)%Z
  /\ (AdminReports.totalStudents stats <= Z.of_nat (List.length (users db)))%Z
  /\ ((forall u, In u (users db) -> User.role u = User.teacher) ->
      AdminReports.totalStudents stats = 0%Z).
Proof.
  unfold AdminReports.get_dashboard.
  destruct (Auth.authorize _ _); [|discriminate].
  intros H. injection H as <-.
  cbn [AdminReports.totalStudents AdminReports.activeToday].
  unfold User.countDocuments.
  split; [reflexivity|]. split; [|split].
  - pose proof (filter_and_length
                  (fun u => User.Role_eqb (User.role u) User.student)
                  (fun u => (today <=? User.lastActive u)%Z) (users db)) as Hle.
    cbv beta in Hle. lia.
  - pose proof (filter_length_le
                  (fun u => User.Role_eqb (User.role u) User.student)
                  (users db)).
    lia.
  - intros Hall.
    destruct (filter _ (users db)) as [|u l] eqn:E; [reflexivity|].
    assert (Hin : In u (filter (fun u => User.Role_eqb (User.role u) User.student)
                          (users db))) by (rewrite E; now left).
    apply filter_In in Hin as [Hu Hr]. now rewrite (Hall u Hu) in Hr.
Qed.

Lemma get_dashboard_student_counts_witness :
  exists stats,
    AdminReports.get_dashboard Sample.db Sample.admin 25 = ReplyOk stats
    /\ AdminReports.totalStudents stats = 2%Z
    /\ AdminReports.activeToday stats = 1%Z.
Proof.
  eexists. split; [reflexivity|].
  destruct (get_dashboard_student_counts Sample.db Sample.admin 25%Z _ eq_refl)
    as (Htotal & _).
  split; [exact Htotal | reflexivity].
Defined.

(** ** The status and the fields it stands for *)

Lemma statusesConsistent_replace db d :
  statusesConsistent db ->
  statusConsistent d ->
  statusesConsistent {| users := users db; codes := Code.replace d (codes db) |}.
Proof.
  intros Hdb Hd c Hc. cbn [codes] in Hc.
  apply replace_In in Hc as [->|Hc]; [exact Hd | now apply Hdb].
Qed.

(** X25: the routes keep the status in step with the stored fields: if
    before a request every [graded] submission holds a grade, every
    [reviewed] one holds feedback without a grade or with the grade 0, and
    every [analyzed] one holds an analysis, the same is true after it. *)
Theorem routes_keep_statuses_consistent db :
  statusesConsistent db ->
  (forall actor codeId b now,
     statusesConsistent
       (snd (AdminRoutes.post_codes_feedback db actor codeId b now)))
  /\ (forall actor id b now,
        statusesConsistent (snd (CodeRoutes.put_id db actor id b now)))
  /\ (forall ollama actor id now,
        statusesConsistent
          (snd (CodeRoutes.post_id_analyze ollama db actor id now)))
  /\ (forall actor id,
        statusesConsistent (snd (CodeRoutes.delete_id db actor id)))
  /\ (forall actor b newId now,
        statusesConsistent
          (snd (CodeCollection.post_root db actor b newId now)))
  /\ (forall actor userId,
        statusesConsistent (snd (AdminRoutes.delete_users db actor userId))).
Proof.
  intros Hdb.
  split; [|split; [|split; [|split; [|split]]]].
  - intros actor codeId b now.
    unfold AdminRoutes.post_codes_feedback, AdminRoutes.gate.
    destruct (Auth.authorize _ _); [|exact Hdb].
    destruct (AdminRoutes.feedbackErrors b); [|exact Hdb].
    destruct (Code.findById codeId (codes db)); [|exact Hdb].
    destruct (Code.addFeedback _ _ _ _ _ _) as [[c' coll']|] eqn:Hadd;
      [|exact Hdb].
    apply addFeedback_result in Hadd
        as (stored & Hcast & Hstatus & Hfeedback & _ & _ & _ & ->).
    cbn [snd]. apply statusesConsistent_replace; [exact Hdb|].
    unfold statusConsistent. rewrite Hstatus, Hfeedback.
    apply castNumber_truthy in Hcast.
    destruct (JS.truthy (AdminRoutes.grade b)).
    + destruct Hcast as [g ->]. eexists. exists g. split; reflexivity.
    + eexists. split; [reflexivity | exact Hcast].
  - intros actor id b now. unfold CodeRoutes.put_id.
    destruct (CodeRoutes.validateCode b); [|exact Hdb].
    destruct (Code.findById id (codes db)); [|exact Hdb].
    destruct (negb _); [exact Hdb|].
    unfold Code.save. destruct (Code.validContent _); [|exact Hdb].
    cbn [snd]. apply statusesConsistent_replace; [exact Hdb|]. exact I.
  - intros ollama actor id now. unfold CodeRoutes.post_id_analyze.
    destruct (Code.findById id (codes db)); [|exact Hdb].
    destruct (negb _); [exact Hdb|].
    destruct (ollama _) as [r|[e|]]; [| |exact Hdb].
    + unfold Code.addAnalysis, Code.save. cbn [snd].
      apply statusesConsistent_replace; [exact Hdb|].
      unfold statusConsistent. cbn. discriminate.
    + destruct (e =? "ECONNREFUSED"); exact Hdb.
  - intros actor id. unfold CodeRoutes.delete_id.
    destruct (Code.findById id (codes db)); [|exact Hdb].
    destruct (_ && _)%bool; [exact Hdb|].
    intros x Hx. cbn [snd codes] in Hx.
    unfold Code.deleteOne in Hx. apply filter_In in Hx as [Hx _].
    now apply Hdb.
  - intros actor b newId now.
    unfold CodeCollection.post_root, CodeCollection.create.
    destruct (CodeRoutes.validateCode b); [|exact Hdb].
    destruct (Code.validContent _); [|exact Hdb].
    intros x Hx. cbn [snd codes] in Hx.
    apply in_app_or in Hx as [Hx|[<-|[]]]; [now apply Hdb | exact I].
  - intros actor userId. unfold AdminRoutes.delete_users, AdminRoutes.gate.
    destruct (Auth.authorize _ _); [|exact Hdb].
    destruct (User.findById userId (users db)) as [t|]; [|exact Hdb].
    destruct (User.role t); [|exact Hdb].
    intros x Hx. cbn [snd codes] in Hx.
    unfold Code.deleteMany in Hx. apply filter_In in Hx as [Hx _].
    now apply Hdb.
Qed.

Lemma routes_keep_statuses_consistent_witness :
  statusesConsistent
    (snd (CodeRoutes.post_id_analyze Sample.ollamaUp Fixture.db Sample.alice
            14 70))
  /\ statusesConsistent
       (snd (AdminRoutes.post_codes_feedback Fixture.db Sample.admin 12
               {| AdminRoutes.comment := "No"; AdminRoutes.grade := JS.Num 0 |}
               70))
  /\ statusesConsistent
       (snd (AdminRoutes.post_codes_feedback Fixture.db Sample.admin 12
               {| AdminRoutes.comment := "No";
                  AdminRoutes.grade := JS.Str "0" |}
               70)).
Proof.
  assert (H : statusesConsistent Fixture.db).
  { intros c [<-|[<-|[<-|[<-|[<-|[]]]]]]; unfold statusConsistent; simpl;
      try exact I; try discriminate.
    - eexists. eexists. split; reflexivity.
    - eexists. split; [reflexivity | now left].
    - eexists. eexists. split; reflexivity. }
  destruct (routes_keep_statuses_consistent Fixture.db H)
    as (Hfeedback & _ & Hanalyze & _).
  split; [apply Hanalyze | split; apply Hfeedback].
Defined.

(** X26: an update and an analysis answered 200 write one submission: its
    id, owner, creation date and feedback are kept (and, for an analysis, its
    title, description, language, code and tags), the submissions under
    other ids and the users are untouched, and none is added or removed. *)
Theorem put_id_and_analyze_frame db actor id c :
  Code.findById id (codes db) = Some c ->
  (forall b now c' db',
     CodeRoutes.put_id db actor id b now = (res_json (SuccessCode c'), db') ->
     Code._id c' = Code._id c
     /\ Code.user c' = Code.user c
     /\ Code.createdAt c' = Code.createdAt c
     /\ Code.updatedAt c' = now
     /\ users db' = users db
     /\ List.length (codes db') = List.length (codes db)
     /\ (forall id', id' <> id ->
           Code.findById id' (codes db') = Code.findById id' (codes db)))
  /\ (forall ollama now r db',
        CodeRoutes.post_id_analyze ollama db actor id now
        = (res_json (SuccessAnalysis r), db') ->
        exists c',
          Code.findById id (codes db') = Some c'
          /\ Code._id c' = Code._id c
          /\ Code.user c' = Code.user c
          /\ Code.title c' = Code.title c
          /\ Code.description c' = Code.description c
          /\ Code.language c' = Code.language c
          /\ Code.code c' = Code.code c
          /\ Code.tags c' = Code.tags c
          /\ Code.feedback c' = Code.feedback c
          /\ Code.createdAt c' = Code.createdAt c
          /\ users db' = users db
          /\ List.length (codes db') = List.length (codes db)
          /\ (forall id', id' <> id ->
                Code.findById id' (codes db') = Code.findById id' (codes db))).
Proof.
  intros Hfind. apply findById_id in Hfind as Hid. split.
  - intros b now c' db'. unfold CodeRoutes.put_id.
    destruct (CodeRoutes.validateCode b); [|discriminate].
    rewrite Hfind. destruct (negb _); [discriminate|].
    unfold Code.save. destruct (Code.validContent _); [|discriminate].
    intros H. inversion H; subst; clear H.
    cbn [Code.touch Code._id Code.user Code.createdAt Code.updatedAt
         users codes].
    repeat (split; [reflexivity|]).
    split; [apply replace_length|].
    intros id' Hne. apply findById_replace_other.
    cbn [Code._id Code.touch]. congruence.
  - intros ollama now r db'. unfold CodeRoutes.post_id_analyze.
    rewrite Hfind. destruct (negb _); [discriminate|].
    destruct (ollama _) as [a|[e|]];
      [| destruct (e =? "ECONNREFUSED"); discriminate | discriminate].
    unfold Code.addAnalysis, Code.save.
    intros H. inversion H; subst; clear H.
    eexists. cbn [codes users]. split.
    { match goal with
      | |- Code.findById _ (Code.replace ?d _) = _ =>
          exact (findById_replace d (codes db) c Hfind)
      end. }
    cbn [Code.touch Code._id Code.user Code.title Code.description
         Code.language Code.code Code.tags Code.feedback Code.createdAt].
    repeat (split; [reflexivity|]).
    split; [apply replace_length|].
    intros id' Hne. apply findById_replace_other.
    cbn [Code._id Code.touch]. congruence.
Qed.

Lemma put_id_and_analyze_frame_witness :
  exists db',
    CodeRoutes.post_id_analyze Sample.ollamaUp Fixture.db Sample.alice 14 70
    = (res_json (SuccessAnalysis "Looks fine."), db')
    /\ users db' = users Fixture.db
    /\ Code.findById 13 (codes db') = Some Fixture.stack
    /\ option_map Code.feedback (Code.findById 14 (codes db'))
       = Some (Code.feedback Fixture.queue).
Proof.
  eexists. split; [reflexivity|].
  destruct (put_id_and_analyze_frame Fixture.db Sample.alice 14%N
              Fixture.queue eq_refl) as [_ Hanalyze].
  destruct (Hanalyze Sample.ollamaUp 70%Z "Looks fine." _ eq_refl)
    as (c' & Hc' & _ & _ & _ & _ & _ & _ & _ & Hfb & _ & Hu & _ & Hother).
  split; [exact Hu|].
  split; [rewrite Hother; [reflexivity | discriminate]|].
  rewrite Hc'. cbn [option_map]. now rewrite Hfb.
Defined.

(** ** The pages of the frontend *)

(** X27: once the authentication state is loaded, every location settles on
    a page within two redirects.  The teacher dashboard is shown only to an
    authenticated user whose role is teacher, and a user who is not
    authenticated is shown nothing but the login and the registration
    page. *)
Theorem App_settles_by_role auth at_ :
  App.loading auth = false ->
  exists component,
    App.settle 2 auth at_ = App.Render component
    /\ (component = App.TeacherDashboard ->
        App.isAuthenticated auth = true /\ App.user auth = Some "teacher")
    /\ (App.isAuthenticated auth = false ->
        component = App.Login \/ component = App.Register).
Proof.
  intros Hloading.
  assert (Hteacher : App.roleDiffers auth "teacher" = false ->
                     App.user auth = Some "teacher").
  { unfold App.roleDiffers. destruct (App.user auth) as [r|]; [|discriminate].
    intros H. apply negb_false_iff, String.eqb_eq in H. now subst. }
  destruct auth as [a u l]. cbn in Hloading. subst l.
  remember (App.roleDiffers
              {| App.isAuthenticated := a; App.user := u;
                 App.loading := false |} "teacher") as d eqn:Ed.
  cbn [App.isAuthenticated App.user] in *.
  destruct a, d, at_;
    repeat (cbn -[App.roleDiffers];
            unfold App.DashboardRedirect, App.ProtectedRoute;
            cbn -[App.roleDiffers]; rewrite <- ?Ed);
    eexists; (split; [reflexivity|]);
    split; intros; try discriminate; auto.
Qed.

Lemma App_settles_by_role_witness :
  App.settle 2
    {| App.isAuthenticated := true; App.user := Some "student";
       App.loading := false |} App.AtTeacher
  = App.Render App.Dashboard
  /\ App.settle 2
       {| App.isAuthenticated := false; App.user := None;
          App.loading := false |} App.Elsewhere
     = App.Render App.Login.
Proof.
  split; [reflexivity|].
  destruct (App_settles_by_role
              {| App.isAuthenticated := false; App.user := None;
                 App.loading := false |} App.Elsewhere eq_refl)
    as (component & Hsettle & _ & _).
  rewrite Hsettle. vm_compute in Hsettle. exact (eq_sym Hsettle).
Defined.

(** X28: after an answer with the status 401 the stored token and user are
    gone and the browser is sent to the login page, so the next request goes
    out with the header the caller gave it and no stored token; an error with
    any other status, or without a response, leaves the browser as it
    was. *)
Theorem Api_forgets_token_on_401 b status config :
  (status = Some 401%Z ->
   Api.responseErrorInterceptor b status
   = {| Api.token := None; Api.user := None; Api.href := "/login" |}
   /\ Api.requestInterceptor (Api.responseErrorInterceptor b status) config
      = config)
  /\ (status <> Some 401%Z -> Api.responseErrorInterceptor b status = b).
Proof.
  unfold Api.responseErrorInterceptor. split.
  - intros ->. split; reflexivity.
  - intros Hs. destruct status as [s|]; [|reflexivity].
    destruct (Z.eqb_spec s 401); [congruence | reflexivity].
Qed.

Lemma Api_forgets_token_on_401_witness :
  Api.requestInterceptor
    (Api.responseErrorInterceptor
       {| Api.token := Some "abc"; Api.user := Some "alice"; Api.href := "/" |}
       (Some 401%Z))
    {| Api.Authorization := None |}
  = {| Api.Authorization := None |}
  /\ Api.requestInterceptor
       (Api.responseErrorInterceptor
          {| Api.token := Some "abc"; Api.user := Some "alice";
             Api.href := "/" |}
          (Some 403%Z))
       {| Api.Authorization := None |}
     = {| Api.Authorization := Some "Bearer abc" |}.
Proof.
  destruct (Api_forgets_token_on_401
              {| Api.token := Some "abc"; Api.user := Some "alice";
                 Api.href := "/" |} (Some 401%Z) {| Api.Authorization := None |})
    as [H401 _].
  destruct (Api_forgets_token_on_401
              {| Api.token := Some "abc"; Api.user := Some "alice";
                 Api.href := "/" |} (Some 403%Z) {| Api.Authorization := None |})
    as [_ Hother].
  split; [apply H401; reflexivity|].
  rewrite Hother; [reflexivity | discriminate].
Defined.
